(** * Centro Cultural Banreservas backend: reservations, check-in,
      interest detection and user segmentation.

    A shallow embedding of the Python backend (FastAPI handlers over a
    MongoDB store, pandas / numpy / scikit-learn analytics).

    - Python [float] is IEEE binary64: it is modelled by Rocq's primitive
      floats, so that NaN and rounding behave as in the program.
    - A MongoDB collection is the list of its documents in insertion order;
      [find_one] returns the first match, [update_one] changes the first
      match.  Index definitions are not modelled.
    - Library code (scikit-learn, the random generator, MongoDB's regular
      expressions and its reading of filter values that come from a
      request and are neither a text nor one of the forms written out in
      [Mongo], [round]) is a parameter of the definitions that call it.
    - The wall clock ([datetime.utcnow()]) and fresh identifiers
      ([uuid.uuid4()]) are explicit arguments. *)

From Stdlib Require Import List String Ascii ZArith Lia Bool Floats Uint63.
From Stdlib Require Import DecimalString Sorted.
From Stdlib Require DecimalPos DecimalFacts.
Import ListNotations.

Set Warnings "-inexact-float,-register-all".
Local Open Scope string_scope.

(* ================================================================== *)
(** * Python values shared by all modules *)

Module Py.

(** What [str(n)] and an f-string print for an [int]. *)
Definition str_of_Z (z : Z) : string := NilZero.string_of_int (Z.to_int z).
Definition str_of_nat (n : nat) : string := str_of_Z (Z.of_nat n).

(** [float(n)] for a count [n] (exact below 2^53). *)
Definition float_of_nat (n : nat) : float :=
  PrimFloat.of_uint63 (Uint63.of_Z (Z.of_nat n)).

(** Exceptions the modelled code raises or catches. *)
Inductive exn : Type :=
| ValueError (msg : string)
| KeyError (key : string)
| TypeError (msg : string)
| ValidationError (model field : string)
| HTTPException (status_code : nat) (detail : string).

Inductive result (A : Type) : Type :=
| Return (a : A)
| Raise (e : exn).
Arguments Return {A} a.
Arguments Raise {A} e.

Definition bind {A B} (r : result A) (k : A -> result B) : result B :=
  match r with
  | Return a => k a
  | Raise e => Raise e
  end.

(** [str(e)] for a caught exception (the exact wording of library
    exceptions is the library's; only the shape is kept). *)
Definition str_of_exn (e : exn) : string :=
  match e with
  | ValueError m => m
  | KeyError k => "'" ++ k ++ "'"
  | TypeError m => m
  | ValidationError model field =>
      "1 validation error for " ++ model ++ ": " ++ field ++ " field required"
  | HTTPException _ d => d
  end.

End Py.

Declare Scope py_scope.
Notation "x <- c1 ;; c2" := (Py.bind c1 (fun x => c2))
  (at level 61, c1 at next level, right associativity) : py_scope.

(* ================================================================== *)
(** * pandas and numpy, as far as the segmentation code uses them *)

Module Pandas.

(** A [Series] over a [RangeIndex]: position [i] holds the value at label
    [i]; a missing value is NaN. *)
Definition Series := list float.

Inductive column : Type :=
| StrCol (values : list string)
| NumCol (values : Series).

(** A [DataFrame]: its named columns, in column order. *)
Definition DataFrame := list (string * column).

Definition col_len (c : column) : nat :=
  match c with
  | StrCol l => List.length l
  | NumCol l => List.length l
  end.

(** [len(df)] *)
Definition len (df : DataFrame) : nat :=
  match df with
  | [] => 0
  | (_, c) :: _ => col_len c
  end.

(** [df.empty]: some axis has length 0. *)
Definition empty (df : DataFrame) : bool :=
  match df with
  | [] => true
  | _ => Nat.eqb (len df) 0
  end.

(** [df.columns] *)
Definition columns (df : DataFrame) : list string := map fst df.

Fixpoint lookup (df : DataFrame) (name : string) : option column :=
  match df with
  | [] => None
  | (n, c) :: rest => if String.eqb n name then Some c else lookup rest name
  end.

(** [df[name]] for a numeric column; [None] stands for the [KeyError] (or
    the [TypeError] a later numeric operation on a string column raises). *)
Definition num_col (df : DataFrame) (name : string) : option Series :=
  match lookup df name with
  | Some (NumCol s) => Some s
  | _ => None
  end.

(** [df.get(name, default)] *)
Definition get (df : DataFrame) (name : string) (default : Series) : Series :=
  match lookup df name with
  | Some (NumCol s) => s
  | _ => default
  end.

(** [s.fillna(0)] *)
Definition fillna0 (s : Series) : Series :=
  map (fun x => if PrimFloat.is_nan x then 0%float else x) s.

(** [s * k] *)
Definition scale (s : Series) (k : float) : Series :=
  map (fun x => (x * k)%float) s.

(** [s.reindex(range(n))]: the values at the labels [0 .. n-1]; a label
    that [s] does not have gives NaN.  This is also what the assignment
    [df[name] = s] stores in a frame of [n] rows. *)
Fixpoint reindex (n : nat) (s : Series) : Series :=
  match n with
  | O => []
  | S n' =>
      match s with
      | [] => nan :: reindex n' []
      | x :: s' => x :: reindex n' s'
      end
  end.

(** [a + b]: the operands are aligned on the union of their labels; a
    label that only one of them has gives NaN. *)
Definition add (a b : Series) : Series :=
  let n := Nat.max (List.length a) (List.length b) in
  map (fun xy => (fst xy + snd xy)%float)
      (combine (reindex n a) (reindex n b)).

Fixpoint set_col (df : DataFrame) (name : string) (c : column) : DataFrame :=
  match df with
  | [] => [(name, c)]
  | (n, c0) :: rest =>
      if String.eqb n name then (n, c) :: rest
      else (n, c0) :: set_col rest name c
  end.

(** [s.mean()]: NaN entries are skipped; the mean of nothing is NaN. *)
Definition mean (s : Series) : float :=
  let kept := filter (fun x => negb (PrimFloat.is_nan x)) s in
  (fold_left PrimFloat.add kept 0%float / Py.float_of_nat (List.length kept))%float.

(** [s.unique()]: the distinct values in order of first appearance. *)
Fixpoint unique (l : list nat) : list nat :=
  match l with
  | [] => []
  | x :: rest => x :: filter (fun y => negb (Nat.eqb y x)) (unique rest)
  end.

Fixpoint select {A} (mask : list bool) (l : list A) : list A :=
  match mask, l with
  | true :: m, x :: l' => x :: select m l'
  | false :: m, _ :: l' => select m l'
  | _, _ => []
  end.

(** [df[mask]]: the rows where [mask] holds. *)
Definition select_rows (mask : list bool) (df : DataFrame) : DataFrame :=
  map (fun nc =>
         match nc with
         | (n, StrCol l) => (n, StrCol (select mask l))
         | (n, NumCol l) => (n, NumCol (select mask l))
         end) df.

(** ** [numpy.percentile(a, q)] with the default linear method *)

Fixpoint insert_asc (x : float) (l : list float) : list float :=
  match l with
  | [] => [x]
  | y :: l' => if (x <? y)%float then x :: l else y :: insert_asc x l'
  end.

Definition sort_asc (l : list float) : list float :=
  fold_right insert_asc [] l.

(** The integer part of a virtual index [v] with [0 <= v <= n]. *)
Fixpoint floor_below (n : nat) (v : float) : nat :=
  match n with
  | O => O
  | S n' => if (Py.float_of_nat n <=? v)%float then n else floor_below n' v
  end.

Definition lerp (a b t : float) : float :=
  let d := (b - a)%float in
  if (0.5 <=? t)%float then (b - d * (1 - t))%float else (a + d * t)%float.

Definition percentile (a : list float) (q : float) : float :=
  if existsb PrimFloat.is_nan a then nan
  else
    match sort_asc a with
    | [] => nan
    | (first :: _) as sorted =>
        let n := List.length sorted in
        let virtual := (Py.float_of_nat (n - 1) * (q / 100))%float in
        let previous := floor_below (n - 1) virtual in
        let next := Nat.min (previous + 1) (n - 1) in
        let gamma := (virtual - Py.float_of_nat previous)%float in
        lerp (nth previous sorted first) (nth next sorted first) gamma
    end.

End Pandas.

(* ================================================================== *)
(** * analytics/segmentation.py *)

Module Segmentation.
Import Pandas.
Local Open Scope py_scope.

(** [self.min_users_for_ml] *)
Definition min_users_for_ml : nat := 5.

(** The [features] dictionary that [extract_user_features] builds for one
    user: its keys are fixed by [extract_user_features],
    [_extract_event_features] and [_extract_reservation_features]. *)
Record UserFeatures : Type := {
  user_id : string;
  age : float;
  days_since_registration : float;
  total_events : float;
  unique_sessions : float;
  page_views : float;
  event_bookings : float;
  checkins : float;
  days_active : float;
  avg_events_per_day : float;
  prefers_morning : float;
  prefers_afternoon : float;
  prefers_evening : float;
  total_reservations : float;
  confirmed_reservations : float;
  checked_in_reservations : float;
  cancelled_reservations : float;
  checkin_rate : float;
  cancellation_rate : float;
  prefers_dominican_cinema : float;
  prefers_classic_cinema : float;
  prefers_general_cinema : float;
  prefers_workshops : float;
  prefers_concerts : float;
  prefers_talks_conferences : float;
  prefers_art_exhibitions : float;
  prefers_3d_immersive_experiences : float
}.

(** The numeric columns of the frame, in the order the keys are inserted. *)
Definition feature_getters : list (string * (UserFeatures -> float)) :=
  [ ("age", age);
    ("days_since_registration", days_since_registration);
    ("total_events", total_events);
    ("unique_sessions", unique_sessions);
    ("page_views", page_views);
    ("event_bookings", event_bookings);
    ("checkins", checkins);
    ("days_active", days_active);
    ("avg_events_per_day", avg_events_per_day);
    ("prefers_morning", prefers_morning);
    ("prefers_afternoon", prefers_afternoon);
    ("prefers_evening", prefers_evening);
    ("total_reservations", total_reservations);
    ("confirmed_reservations", confirmed_reservations);
    ("checked_in_reservations", checked_in_reservations);
    ("cancelled_reservations", cancelled_reservations);
    ("checkin_rate", checkin_rate);
    ("cancellation_rate", cancellation_rate);
    ("prefers_dominican_cinema", prefers_dominican_cinema);
    ("prefers_classic_cinema", prefers_classic_cinema);
    ("prefers_general_cinema", prefers_general_cinema);
    ("prefers_workshops", prefers_workshops);
    ("prefers_concerts", prefers_concerts);
    ("prefers_talks_conferences", prefers_talks_conferences);
    ("prefers_art_exhibitions", prefers_art_exhibitions);
    ("prefers_3d_immersive_experiences", prefers_3d_immersive_experiences) ].

(** [extract_user_features], from the list [user_features] of per-user
    dictionaries on: [pd.DataFrame(user_features)] followed by [fillna(0)]
    on the numeric columns.  No user gives a frame without columns (and so
    does an exception during extraction, which returns [pd.DataFrame()]). *)
Definition extract_user_features (user_features : list UserFeatures)
  : DataFrame :=
  match user_features with
  | [] => []
  | _ =>
      ("user_id", StrCol (map user_id user_features))
      :: map (fun ng => (fst ng, NumCol (fillna0 (map (snd ng) user_features))))
             feature_getters
  end.

(** ** [_determine_cluster_name] *)

(** The [characteristics] dictionary of [_analyze_clusters].  The key
    ['cluster_id'] is added only after the name has been determined.  (The
    field [avg_events_per_day_] is the key ['avg_events_per_day'], a name
    the feature record already uses.) *)
Record Characteristics : Type := {
  size : nat;
  percentage : float;
  avg_age : float;
  avg_reservations : float;
  avg_checkin_rate : float;
  avg_events_per_day_ : float;
  avg_days_since_registration : float;
  cluster_id : option Z
}.

Definition _determine_cluster_name (characteristics : Characteristics)
    (cluster_data : DataFrame) : string :=
  if (3 <? avg_reservations characteristics)%float
     && (0.8 <? avg_checkin_rate characteristics)%float
  then "VIP Members"
  else if (1 <? avg_reservations characteristics)%float
          && (0.6 <? avg_checkin_rate characteristics)%float
  then "Regular Attendees"
  else if (avg_days_since_registration characteristics <? 7)%float
  then "New Users"
  else
    match num_col cluster_data "page_views",
          num_col cluster_data "total_reservations" with
    | Some pv, Some tr =>
        if (mean tr * 3 <? mean pv)%float
        then "Browsers"
        else if (30 <? avg_days_since_registration characteristics)%float
                && (avg_events_per_day_ characteristics <? 0.1)%float
        then "At Risk"
        else "Segment " ++
             Py.str_of_Z (match cluster_id characteristics with
                          | Some c => c
                          | None => 0%Z
                          end)
    | _, _ => "Unknown Segment"
    end.

(** ** [_analyze_clusters] *)

(** [d[key] = value] on a dictionary kept in insertion order. *)
Fixpoint dict_set {V} (d : list (string * V)) (key : string) (value : V)
  : list (string * V) :=
  match d with
  | [] => [(key, value)]
  | (k, v) :: rest =>
      if String.eqb k key then (k, value) :: rest
      else (k, v) :: dict_set rest key value
  end.

(** The frame's [cluster] column as cluster numbers. *)
Definition cluster_mask (clusters : list nat) (c : nat) : list bool :=
  map (Nat.eqb c) clusters.

Definition characteristics_of (df : DataFrame) (clusters : list nat)
    (c : nat) : option Characteristics :=
  let cluster_data := select_rows (cluster_mask clusters c) df in
  match num_col cluster_data "age",
        num_col cluster_data "total_reservations",
        num_col cluster_data "checkin_rate",
        num_col cluster_data "avg_events_per_day",
        num_col cluster_data "days_since_registration" with
  | Some a, Some r, Some k, Some e, Some d =>
      Some {| size := len cluster_data;
              percentage := (Py.float_of_nat (len cluster_data)
                             / Py.float_of_nat (len df) * 100)%float;
              avg_age := mean a;
              avg_reservations := mean r;
              avg_checkin_rate := mean k;
              avg_events_per_day_ := mean e;
              avg_days_since_registration := mean d;
              cluster_id := None |}
  | _, _, _, _, _ => None
  end.

Definition with_cluster_id (ch : Characteristics) (c : nat) : Characteristics :=
  {| size := size ch; percentage := percentage ch; avg_age := avg_age ch;
     avg_reservations := avg_reservations ch;
     avg_checkin_rate := avg_checkin_rate ch;
     avg_events_per_day_ := avg_events_per_day_ ch;
     avg_days_since_registration := avg_days_since_registration ch;
     cluster_id := Some (Z.of_nat c) |}.

Fixpoint analyze_loop (df : DataFrame) (clusters ids : list nat)
    (acc : list (string * Characteristics))
  : option (list (string * Characteristics)) :=
  match ids with
  | [] => Some acc
  | c :: rest =>
      match characteristics_of df clusters c with
      | None => None
      | Some ch =>
          let cluster_data := select_rows (cluster_mask clusters c) df in
          let name := _determine_cluster_name ch cluster_data in
          analyze_loop df clusters rest (dict_set acc name (with_cluster_id ch c))
      end
  end.

(** [df] already carries the column [cluster], given here as [clusters]. *)
Definition _analyze_clusters (df : DataFrame) (clusters : list nat)
  : list (string * Characteristics) :=
  match analyze_loop df clusters (unique clusters) [] with
  | Some analysis => analysis
  | None => []
  end.

(** ** [_simple_statistical_segmentation] *)

Record StatCluster : Type := {
  st_size : nat;
  st_percentage : float;
  st_avg_reservations : float;
  st_avg_attendance : float;
  segment_name : string
}.

Inductive Analysis : Type :=
| Statistical (clusters : list (string * StatCluster))
| Clustering (clusters : list (string * Characteristics)).

(** The dictionary both training paths return; a key that a path does not
    set is [None]. *)
Record Results : Type := {
  num_users : nat;
  num_features : option nat;
  num_clusters : nat;
  optimal_clusters : option nat;
  pca_components : option nat;
  cluster_analysis : Analysis;
  silhouette_score : float;
  model_type : string;
  warning : option string
}.

Definition engagement_score (df : DataFrame) : Series :=
  Pandas.add
    (scale (fillna0 (get df "total_reservations" [0%float])) 0.4)
    (scale (fillna0 (get df "total_events_attended" [0%float])) 0.6).

Definition assign_cluster (q33 q66 score : float) : nat :=
  if (score <=? q33)%float then 0
  else if (score <=? q66)%float then 1
  else 2.

Definition statistical_clusters (n : nat) (scores : Series) : list nat :=
  match n with
  | 1 => repeat 0 n
  | 2 => [0; 1]
  | _ =>
      let q33 := percentile scores 33 in
      let q66 := percentile scores 66 in
      map (assign_cluster q33 q66) scores
  end.

Definition statistical_segments (n : nat) : list string :=
  match n with
  | 1 => ["Solo Usuario"]
  | 2 => ["Usuario Nuevo"; "Usuario Activo"]
  | _ => ["Engagement Bajo"; "Engagement Medio"; "Engagement Alto"]
  end.

Definition stat_cluster (df : DataFrame) (clusters : list nat)
    (segments : list string) (c : nat) : string * StatCluster :=
  let cluster_data := select_rows (cluster_mask clusters c) df in
  ("cluster_" ++ Py.str_of_nat c,
   {| st_size := len cluster_data;
      st_percentage := (Py.float_of_nat (len cluster_data)
                        / Py.float_of_nat (len df) * 100)%float;
      st_avg_reservations :=
        mean (fillna0 (get cluster_data "total_reservations" [0%float]));
      st_avg_attendance :=
        mean (fillna0 (get cluster_data "total_events_attended" [0%float]));
      segment_name :=
        if Nat.ltb c (List.length segments)
        then nth c segments ""
        else "Segmento " ++ Py.str_of_nat (c + 1) |}).

(** The function assigns the columns [engagement_score] and [cluster] of
    the caller's frame and clears [self.is_trained]: the frame after the
    call, the flag and the returned dictionary are the result. *)
Definition _simple_statistical_segmentation (df : DataFrame)
  : DataFrame * bool * Results :=
  let num_users := len df in
  let scores := reindex num_users (engagement_score df) in
  let df1 := set_col df "engagement_score" (NumCol scores) in
  let clusters := statistical_clusters num_users scores in
  let df2 := set_col df1 "cluster" (NumCol (map Py.float_of_nat clusters)) in
  let segments := statistical_segments num_users in
  let analysis := map (stat_cluster df2 clusters segments) (unique clusters) in
  (df2, false,
   {| num_users := num_users;
      num_features := None;
      num_clusters := List.length (unique clusters);
      optimal_clusters := None;
      pca_components := None;
      cluster_analysis := Statistical analysis;
      silhouette_score := (-1)%float;
      model_type := "statistical_segmentation";
      warning :=
        Some ("Used statistical segmentation due to insufficient data ("
              ++ Py.str_of_nat num_users ++ " < "
              ++ Py.str_of_nat min_users_for_ml ++ ")") |}).

(** ** [train_segmentation_model] *)

Definition Matrix := list (list float).

(** The numeric columns of an extracted frame: the matrix
    [df[feature_columns]] of the training path. *)
Definition extracted_matrix (user_features : list UserFeatures) : Matrix :=
  map (fun ng => fillna0 (map (snd ng) user_features)) feature_getters.

Section Training.

(** scikit-learn: [StandardScaler().fit_transform], [PCA(n).fit_transform],
    [KMeans(k, random_state=42, n_init=10).fit(X).labels_] (one label per
    row) and [silhouette_score], which may raise.  Saving the model to a
    file is not modelled; its failure is only logged. *)
Variable scaler_fit_transform : Matrix -> Matrix.
Variable pca_fit_transform : nat -> Matrix -> Matrix.
Variable kmeans_labels : nat -> Matrix -> list nat.
Variable sk_silhouette_score : Matrix -> list nat -> option float.

Definition _calculate_silhouette_score (X : Matrix) (labels : list nat)
  : float :=
  match sk_silhouette_score X labels with
  | Some s => s
  | None => 0%float
  end.

(** [df[feature_columns]] as the columns of a numeric matrix; a column of
    strings makes the scaler raise. *)
Fixpoint feature_matrix (cols : DataFrame) : Py.result Matrix :=
  match cols with
  | [] => Py.Return []
  | (_, NumCol s) :: rest =>
      m <- feature_matrix rest ;; Py.Return (s :: m)
  | (_, StrCol _) :: rest =>
      Py.Raise (Py.ValueError "could not convert string to float")
  end.

(** [int(np.sqrt(n))]: the square root of a count, truncated. *)
Definition int_sqrt (n : nat) : nat := Nat.sqrt n.

(** The argument [df] is the frame [extract_user_features] returned; the
    result is the frame after the call, [self.is_trained] and the returned
    dictionary, or the exception the function re-raises. *)
Definition train_segmentation_model (df : DataFrame)
  : Py.result (DataFrame * bool * Results) :=
  if empty df then Py.Raise (Py.ValueError "No user data available for training")
  else
    let num_users := len df in
    if Nat.ltb num_users min_users_for_ml
    then Py.Return (_simple_statistical_segmentation df)
    else
      let feature_columns :=
        filter (fun nc => negb (String.eqb (fst nc) "user_id")) df in
      if Nat.eqb (List.length feature_columns) 0
      then Py.Raise (Py.ValueError "No features available for training")
      else
        X <- feature_matrix feature_columns ;;
        let X_scaled := scaler_fit_transform X in
        let n_components :=
          let n := Nat.min 3 (Nat.min (List.length feature_columns)
                                      (num_users - 1)) in
          if Nat.ltb n 1 then 1 else n in
        let X_pca := pca_fit_transform n_components X_scaled in
        let optimal := Nat.max 2 (Nat.min 5 (int_sqrt num_users)) in
        let cluster_labels := kmeans_labels optimal X_pca in
        let df1 := set_col df "cluster"
                     (NumCol (map Py.float_of_nat cluster_labels)) in
        let analysis := _analyze_clusters df1 cluster_labels in
        Py.Return
          (df1, true,
           {| num_users := len df1;
              num_features := Some (List.length feature_columns);
              num_clusters := List.length (unique cluster_labels);
              optimal_clusters := Some optimal;
              pca_components := Some n_components;
              cluster_analysis := Clustering analysis;
              silhouette_score :=
                _calculate_silhouette_score X_pca cluster_labels;
              model_type := "ml_clustering";
              warning := None |}).

End Training.

End Segmentation.

(* ================================================================== *)
(** * Strings *)

Module Str.

Definition chars (s : string) : list ascii := list_ascii_of_string s.
Definition of_chars (l : list ascii) : string := string_of_list_ascii l.

Definition code (c : ascii) : nat := nat_of_ascii c.

Definition is_digit (c : ascii) : bool :=
  Nat.leb 48 (code c) && Nat.leb (code c) 57.
Definition is_upper (c : ascii) : bool :=
  Nat.leb 65 (code c) && Nat.leb (code c) 90.
Definition is_lower (c : ascii) : bool :=
  Nat.leb 97 (code c) && Nat.leb (code c) 122.

(** [str.upper] and [str.lower] on ASCII text. *)
Definition upper_char (c : ascii) : ascii :=
  if is_lower c then ascii_of_nat (code c - 32) else c.
Definition lower_char (c : ascii) : ascii :=
  if is_upper c then ascii_of_nat (code c + 32) else c.
Definition upper (s : string) : string := of_chars (map upper_char (chars s)).
Definition lower (s : string) : string := of_chars (map lower_char (chars s)).

Fixpoint is_prefix (p l : list ascii) : bool :=
  match p, l with
  | [], _ => true
  | a :: p', b :: l' => Ascii.eqb a b && is_prefix p' l'
  | _ :: _, [] => false
  end.

(** [s.startswith(p)] *)
Definition startswith (s p : string) : bool := is_prefix (chars p) (chars s).

(** [s.split(sep)] for a one-character separator. *)
Fixpoint split_chars (sep : ascii) (l : list ascii) (cur : list ascii)
  : list (list ascii) :=
  match l with
  | [] => [rev cur]
  | c :: l' =>
      if Ascii.eqb c sep then rev cur :: split_chars sep l' []
      else split_chars sep l' (c :: cur)
  end.
Definition split (s : string) (sep : ascii) : list string :=
  map of_chars (split_chars sep (chars s) []).

(** [s.replace(old, new)] for a non-empty [old]: the occurrences are
    replaced from left to right, without overlap.  [skip] counts the
    characters of a replaced occurrence still to be dropped. *)
Fixpoint replace_chars (old new : list ascii) (skip : nat) (l : list ascii)
  : list ascii :=
  match l with
  | [] => []
  | c :: l' =>
      match skip with
      | S k => replace_chars old new k l'
      | O =>
          if is_prefix old l
          then new ++ replace_chars old new (List.length old - 1) l'
          else c :: replace_chars old new 0 l'
      end
  end.
Definition replace (s old new : string) : string :=
  of_chars (replace_chars (chars old) (chars new) 0 (chars s)).

(** The value of a run of ASCII digits. *)
Definition digit (c : ascii) : option Z :=
  if is_digit c then Some (Z.of_nat (code c - 48)) else None.
Fixpoint number_from (acc : Z) (l : list ascii) : option Z :=
  match l with
  | [] => Some acc
  | c :: l' =>
      match digit c with
      | Some d => number_from (acc * 10 + d) l'
      | None => None
      end
  end.
Definition number (l : list ascii) : option Z :=
  match l with
  | [] => None
  | _ => number_from 0 l
  end.

End Str.

(* ================================================================== *)
(** * datetime *)

Module Datetime.
Local Open Scope Z_scope.

Record date : Type := { year : Z; month : Z; day : Z }.

Definition is_leap (y : Z) : bool :=
  (y mod 4 =? 0) && (negb (y mod 100 =? 0) || (y mod 400 =? 0)).

Definition days_in_month (y m : Z) : Z :=
  if m =? 2 then (if is_leap y then 29 else 28)
  else if (m =? 4) || (m =? 6) || (m =? 9) || (m =? 11) then 30
  else 31.

Definition valid_date (y m d : Z) : bool :=
  (1 <=? y) && (y <=? 9999) && (1 <=? m) && (m <=? 12)
  && (1 <=? d) && (d <=? days_in_month y m).

Definition make_date (y m d : Z) : option date :=
  if valid_date y m d then Some {| year := y; month := m; day := d |}
  else None.

(** [date.toordinal()]: days since 0001-01-01, counted from 1. *)
Definition days_before_year (y : Z) : Z :=
  let p := y - 1 in p * 365 + p / 4 - p / 100 + p / 400.
Definition days_before_month (y m : Z) : Z :=
  fold_right Z.add 0
    (map (days_in_month y) (map Z.of_nat (seq 1 (Z.to_nat (m - 1))))).
Definition toordinal (d : date) : Z :=
  days_before_year (year d) + days_before_month (year d) (month d) + day d.

(** [a < b] on dates *)
Definition date_ltb (a b : date) : bool := toordinal a <? toordinal b.

(** [datetime.strptime(s, "%Y-%m-%d").date()] on ASCII text: four digits,
    a month [1[0-2]|0[1-9]|[1-9]], a day
    [3[0-1]|[1-2]\d|0[1-9]|[1-9]| [1-9]], nothing after it, and a date
    that exists.  [None] is the [ValueError]. *)
Definition parse_month (l : list ascii) : option Z :=
  match l with
  | [a] => match Str.digit a with
           | Some d => if 1 <=? d then Some d else None
           | None => None
           end
  | [a; b] =>
      match Str.digit a, Str.digit b with
      | Some 1, Some d => if d <=? 2 then Some (10 + d) else None
      | Some 0, Some d => if 1 <=? d then Some d else None
      | _, _ => None
      end
  | _ => None
  end.

Definition parse_day (l : list ascii) : option Z :=
  match l with
  | [a] => match Str.digit a with
           | Some d => if 1 <=? d then Some d else None
           | None => None
           end
  | [a; b] =>
      if Ascii.eqb a " "
      then match Str.digit b with
           | Some d => if 1 <=? d then Some d else None
           | None => None
           end
      else
        match Str.digit a, Str.digit b with
        | Some 3, Some d => if d <=? 1 then Some (30 + d) else None
        | Some 2, Some d => Some (20 + d)
        | Some 1, Some d => Some (10 + d)
        | Some 0, Some d => if 1 <=? d then Some d else None
        | _, _ => None
        end
  | _ => None
  end.

Definition strptime_ymd (s : string) : option date :=
  match Str.split s "-" with
  | [ys; ms; ds] =>
      if negb (Nat.eqb (String.length ys) 4) then None
      else
        match Str.number (Str.chars ys),
              parse_month (Str.chars ms),
              parse_day (Str.chars ds) with
        | Some y, Some m, Some d => make_date y m d
        | _, _, _ => None
        end
  | _ => None
  end.

(** A [datetime]; [tzinfo] is the UTC offset in seconds of an aware value
    and [None] for a naive one. *)
Record datetime : Type := {
  on : date;
  hour : Z;
  minute : Z;
  second : Z;
  microsecond : Z;
  tzinfo : option Z
}.

(** [dt.date()] *)
Definition date_of (dt : datetime) : date := on dt.

(** Microseconds of the wall-clock reading since 0001-01-01. *)
Definition wall_us (dt : datetime) : Z :=
  (((toordinal (on dt) - 1) * 86400
    + hour dt * 3600 + minute dt * 60 + second dt) * 1000000)
  + microsecond dt.

(** [(a - b).days] for two naive values: a [timedelta] keeps its seconds
    and microseconds non-negative, so [days] is the floor. *)
Definition days_between (a b : datetime) : Z :=
  (wall_us a - wall_us b) / 86400000000.

(** [a - b]: mixing a naive and an aware value raises [TypeError]. *)
Definition sub_days (a b : datetime) : Py.result Z :=
  match tzinfo a, tzinfo b with
  | None, None => Py.Return (days_between a b)
  | Some oa, Some ob =>
      Py.Return (((wall_us a - oa * 1000000) - (wall_us b - ob * 1000000))
                 / 86400000000)
  | _, _ => Py.Raise (Py.TypeError
                        "can't subtract offset-naive and offset-aware datetimes")
  end.

(** ** [datetime.fromisoformat]

    The extended ISO format that every Python from 3.7 on accepts:
    [YYYY-MM-DD], optionally followed by one separator character and
    [HH[:MM[:SS[.fff[fff]]]]], optionally followed by an offset
    [+HH:MM] or [-HH:MM].  [None] is the [ValueError]. *)

Definition two_digits (a b : ascii) : option Z :=
  match Str.digit a, Str.digit b with
  | Some x, Some y => Some (x * 10 + y)
  | _, _ => None
  end.

Definition parse_iso_date (l : list ascii) : option date :=
  match l with
  | [y1; y2; y3; y4; d1; m1; m2; d2; a; b] =>
      if Ascii.eqb d1 "-" && Ascii.eqb d2 "-"
      then match Str.number [y1; y2; y3; y4], two_digits m1 m2, two_digits a b with
           | Some y, Some m, Some d => make_date y m d
           | _, _, _ => None
           end
      else None
  | _ => None
  end.

Definition parse_fraction (l : list ascii) : option Z :=
  match l with
  | [_; _; _] => option_map (fun v => v * 1000) (Str.number l)
  | [_; _; _; _; _; _] => Str.number l
  | _ => None
  end.

(** [HH[:MM[:SS[.fff[fff]]]]] as hour, minute, second, microsecond *)
Definition parse_hms (l : list ascii) : option (Z * Z * Z * Z) :=
  let check (h m s f : Z) :=
    if (h <? 24) && (m <? 60) && (s <? 60) then Some (h, m, s, f) else None in
  match l with
  | [h1; h2] =>
      match two_digits h1 h2 with
      | Some h => check h 0 0 0
      | None => None
      end
  | [h1; h2; c1; m1; m2] =>
      if Ascii.eqb c1 ":"
      then match two_digits h1 h2, two_digits m1 m2 with
           | Some h, Some m => check h m 0 0
           | _, _ => None
           end
      else None
  | h1 :: h2 :: c1 :: m1 :: m2 :: c2 :: s1 :: s2 :: rest =>
      if Ascii.eqb c1 ":" && Ascii.eqb c2 ":"
      then match two_digits h1 h2, two_digits m1 m2, two_digits s1 s2 with
           | Some h, Some m, Some s =>
               match rest with
               | [] => check h m s 0
               | dot :: frac =>
                   if Ascii.eqb dot "."
                   then match parse_fraction frac with
                        | Some f => check h m s f
                        | None => None
                        end
                   else None
               end
           | _, _, _ => None
           end
      else None
  | _ => None
  end.

(** The time text up to the first sign, and the signed offset after it. *)
Fixpoint split_offset (l : list ascii) (cur : list ascii)
  : list ascii * option (bool * list ascii) :=
  match l with
  | [] => (rev cur, None)
  | c :: l' =>
      if Ascii.eqb c "+" then (rev cur, Some (false, l'))
      else if Ascii.eqb c "-" then (rev cur, Some (true, l'))
      else split_offset l' (c :: cur)
  end.

Definition parse_offset (negative : bool) (l : list ascii) : option Z :=
  match l with
  | [h1; h2; c; m1; m2] =>
      if Ascii.eqb c ":"
      then match two_digits h1 h2, two_digits m1 m2 with
           | Some h, Some m =>
               if (h <? 24) && (m <? 60)
               then Some ((if negative then -1 else 1) * (h * 3600 + m * 60))
               else None
           | _, _ => None
           end
      else None
  | _ => None
  end.

Definition fromisoformat (s : string) : option datetime :=
  let l := Str.chars s in
  match parse_iso_date (firstn 10 l) with
  | None => None
  | Some d =>
      match skipn 10 l with
      | [] => Some {| on := d; hour := 0; minute := 0; second := 0;
                      microsecond := 0; tzinfo := None |}
      | _sep :: timestr =>
          let '(hms, off) := split_offset timestr [] in
          match parse_hms hms with
          | None => None
          | Some (h, m, sec, us) =>
              match off with
              | None => Some {| on := d; hour := h; minute := m; second := sec;
                                microsecond := us; tzinfo := None |}
              | Some (neg, offtext) =>
                  match parse_offset neg offtext with
                  | Some o => Some {| on := d; hour := h; minute := m;
                                      second := sec; microsecond := us;
                                      tzinfo := Some o |}
                  | None => None
                  end
              end
          end
      end
  end.

(** [date.fromordinal(n)] *)
Definition month_of_day (y n : Z) : Z :=
  fold_right (fun m acc => if days_before_month y m <=? n then Z.max m acc else acc)
             1 (map Z.of_nat (seq 1 12)).

Definition fromordinal (n : Z) : date :=
  let n0 := n - 1 in
  let n400 := n0 / 146097 in
  let r400 := n0 mod 146097 in
  let n100 := r400 / 36524 in
  let r100 := r400 mod 36524 in
  let n4 := r100 / 1461 in
  let r4 := r100 mod 1461 in
  let n1 := r4 / 365 in
  let r1 := r4 mod 365 in
  let y := n400 * 400 + 1 + n100 * 100 + n4 * 4 + n1 in
  if (n1 =? 4) || (n100 =? 4)
  then {| year := y - 1; month := 12; day := 31 |}
  else
    let m := month_of_day y r1 in
    {| year := y; month := m; day := r1 - days_before_month y m + 1 |}.

(** [dt - timedelta(days=k)] *)
Definition minus_days (dt : datetime) (k : Z) : datetime :=
  {| on := fromordinal (toordinal (on dt) - k);
     hour := hour dt; minute := minute dt; second := second dt;
     microsecond := microsecond dt; tzinfo := tzinfo dt |}.

(** [dt.isoformat()] of a naive value, as [datetime.utcnow()] gives. *)
Definition zfill (width : nat) (z : Z) : string :=
  let s := Py.str_of_Z z in
  Str.of_chars (repeat "0"%char (width - String.length s)) ++ s.

Definition isoformat (dt : datetime) : string :=
  zfill 4 (year (on dt)) ++ "-" ++ zfill 2 (month (on dt)) ++ "-"
  ++ zfill 2 (day (on dt)) ++ "T" ++ zfill 2 (hour dt) ++ ":"
  ++ zfill 2 (minute dt) ++ ":" ++ zfill 2 (second dt)
  ++ (if microsecond dt =? 0 then "" else "." ++ zfill 6 (microsecond dt)).

(** [dt.strftime("%Y-%m-%d")] *)
Definition strftime_ymd (dt : datetime) : string :=
  zfill 4 (year (on dt)) ++ "-" ++ zfill 2 (month (on dt)) ++ "-"
  ++ zfill 2 (day (on dt)).

End Datetime.

(* ================================================================== *)
(** * The document store (core/database.py) *)

Module Mongo.

(** A document of the [users] collection.  A field read with [.get] may be
    absent. *)
Record User : Type := {
  user_id : string;
  user_email : string;
  user_name : string;
  user_is_admin : option bool;
  user_deleted : option bool;
  user_center : option string
}.

(** A document of the [events] collection, as [create_event] writes it;
    [published] and [center] may be absent. *)
Record Event : Type := {
  event_id : string;
  event_title : string;
  event_category : string;
  event_date : string;
  event_time : string;
  event_location : string;
  event_capacity : Z;
  event_published : option bool;
  event_center : option string
}.

(** A document of the [reservations] collection, as [create_reservation]
    writes it, with the fields later updates set (absent until then). *)
Record Reservation : Type := {
  res_id : string;
  res_event_id : string;
  res_user_id : string;
  res_status : string;
  res_qr_code : string;
  res_checkin_code : string;
  res_created_at : string;
  res_notes : option string;
  res_user_email : option string;
  res_checked_in_at : option string;
  res_checked_in_by : option string;
  res_cancelled_at : option string;
  res_decline_reason : option string;
  res_declined_at : option string;
  res_updated_at : option string
}.

(** A document of the [checkins] collection. *)
Record Checkin : Type := {
  chk_reservation_id : string;
  chk_event_id : string;
  chk_user_id : string;
  chk_checked_in_by : string;
  chk_method : string;
  chk_timestamp : string
}.

Record Database : Type := {
  users : list User;
  events : list Event;
  reservations : list Reservation;
  checkins : list Checkin
}.

Definition with_reservations (db : Database) (rs : list Reservation)
  : Database :=
  {| users := users db; events := events db; reservations := rs;
     checkins := checkins db |}.

Definition with_checkins (db : Database) (cs : list Checkin) : Database :=
  {| users := users db; events := events db;
     reservations := reservations db; checkins := cs |}.

(** [collection.find_one(query)] *)
Definition find_one {A} (query : A -> bool) (coll : list A) : option A :=
  List.find query coll.

(** [collection.find(query)] *)
Definition find {A} (query : A -> bool) (coll : list A) : list A :=
  List.filter query coll.

(** [collection.count_documents(query)] *)
Definition count_documents {A} (query : A -> bool) (coll : list A) : Z :=
  Z.of_nat (List.length (List.filter query coll)).

(** [collection.insert_one(doc)] *)
Definition insert_one {A} (doc : A) (coll : list A) : list A := coll ++ [doc].

(** [collection.update_one(query, {"$set": ...})]: the first match is
    changed; the count is [matched_count], which is also [modified_count]
    where the call sets [status] to a value the matched document did not
    have (the decline handler, which can hit any document, compares). *)
Fixpoint update_one {A} (query : A -> bool) (set : A -> A) (coll : list A)
  : list A * nat :=
  match coll with
  | [] => ([], 0)
  | d :: rest =>
      if query d then (set d :: rest, 1)
      else let '(rest', n) := update_one query set rest in (d :: rest', n)
  end.

(** [collection.delete_many(query)] with its [deleted_count] *)
Definition delete_many {A} (query : A -> bool) (coll : list A)
  : list A * nat :=
  (List.filter (fun d => negb (query d)) coll,
   List.length (List.filter query coll)).

(** [{"field": {"$ne": True}}] on an optional boolean field *)
Definition ne_true (b : option bool) : bool :=
  match b with
  | Some true => false
  | _ => true
  end.

(** [{"field": value}] on an optional string field *)
Definition eq_field (f : option string) (v : string) : bool :=
  match f with
  | Some x => String.eqb x v
  | None => false
  end.

(** [{"field": {"$gte": v}}] and [{"$lt": v}] on strings: binary order. *)
Definition gte (x v : string) : bool := String.leb v x.
Definition lt (x v : string) : bool := String.ltb x v.

(** A value decoded from JSON, as [json.loads] returns it: the fields of a
    token payload are such values. *)
Inductive Json : Type :=
| JNull
| JBool (b : bool)
| JInt (z : Z)
| JFloat (x : float)
| JString (s : string)
| JArray (items : list Json)
| JObject (fields : list (string * Json)).

(** [{"field": value}] on a text field that may be missing, for a [value]
    taken from a request.  A text asks for equality and [None] for a
    missing field; a document under an operator key is that operator, and
    [{"$ne": text}] holds of every document whose field is not that text,
    a missing field included.  What the driver and the server make of any
    other value is [other_filters]: the condition, or [None] when they
    refuse the query. *)
Section Filters.
Variable other_filters : Json -> option (option string -> bool).

Definition field_filter (value : Json) : option (option string -> bool) :=
  match value with
  | JString s => Some (fun f => eq_field f s)
  | JNull => Some (fun f => match f with
                            | None => true
                            | Some _ => false
                            end)
  | JObject [(operator, JString s)] =>
      if String.eqb operator "$ne"
      then Some (fun f => negb (eq_field f s))
      else other_filters value
  | _ => other_filters value
  end.

End Filters.

End Mongo.

(* ================================================================== *)
(** * utils/qr_codes.py and utils/validation.py *)

Module QrCodes.

Definition ascii_uppercase : string := "ABCDEFGHIJKLMNOPQRSTUVWXYZ".
Definition digits : string := "0123456789".

(** [random.choices(population, k=k)]: [k] independent draws; the [i]-th
    draw picks the element at an index below [len(population)], here
    [draw i] reduced modulo the length. *)
Definition choices (population : list ascii) (k : nat) (draw : nat -> nat)
  : list ascii :=
  map (fun i => nth (draw i mod List.length population) population "?"%char)
      (seq 0 k).

Definition generate_reservation_code (draw : nat -> nat) : string :=
  Str.of_chars (choices (Str.chars (ascii_uppercase ++ digits)) 8 draw).

(** The result of [decode_qr_data]: the dictionary it returns. *)
Inductive QrData : Type :=
| QrReservation (reservation_id reservation_code : string)
| QrEvent (event_id event_title : string)
| QrCheckin (reservation_id event_id user_id : string).

Definition decode_qr_data (qr_data : string) : option QrData :=
  if negb (Str.startswith qr_data "CCB-") then None
  else
    let parts := Str.split qr_data ":" in
    if Nat.ltb (List.length parts) 2 then None
    else
      let qr_type := Str.replace (nth 0 parts "") "CCB-" "" in
      if String.eqb qr_type "RESERVATION" && Nat.leb 3 (List.length parts)
      then Some (QrReservation (nth 1 parts "") (nth 2 parts ""))
      else if String.eqb qr_type "EVENT" && Nat.leb 3 (List.length parts)
      then Some (QrEvent (nth 1 parts "") (nth 2 parts ""))
      else if String.eqb qr_type "CHECKIN" && Nat.leb 4 (List.length parts)
      then Some (QrCheckin (nth 1 parts "") (nth 2 parts "") (nth 3 parts ""))
      else None.

(** [generate_reservation_qr_code]: the text encoded in the image. *)
Definition reservation_qr_data (reservation_id reservation_code : string)
  : string :=
  "CCB-RESERVATION:" ++ reservation_id ++ ":" ++ reservation_code.

End QrCodes.

Module Validation.

Definition is_code_char (c : ascii) : bool := Str.is_upper c || Str.is_digit c.

(** [bool(re.match(r'^[A-Z0-9]{8}$', code))]: [$] also matches just before
    a newline that ends the string. *)
Definition validate_reservation_code (code : string) : bool :=
  let l := Str.chars code in
  forallb is_code_char (firstn 8 l)
  && Nat.eqb (List.length (firstn 8 l)) 8
  && match skipn 8 l with
     | [] => true
     | [c] => Ascii.eqb c "010"%char
     | _ => false
     end.

End Validation.

(* ================================================================== *)
(** * services/event_service.py *)

Module EventService.
Import Mongo.

(** The dictionary [get_event_by_id] returns: the event document with the
    key [available_spots] it computes. *)
Record EventView : Type := {
  doc : Event;
  available_spots : Z
}.

Definition active_for (event_id : string) (r : Reservation) : bool :=
  String.eqb (res_event_id r) event_id
  && negb (String.eqb (res_status r) "cancelled").

Definition get_event_by_id (db : Database) (event_id : string)
  : option EventView :=
  match find_one (fun e => String.eqb (Mongo.event_id e) event_id) (events db) with
  | Some event =>
      let reservation_count :=
        count_documents (active_for event_id) (reservations db) in
      Some {| doc := event;
              available_spots :=
                Z.max 0 (event_capacity event - reservation_count) |}
  | None => None
  end.

End EventService.

(* ================================================================== *)
(** * api/reservations.py *)

Module Reservations.
Import Mongo EventService.

(** [ReservationCreate] *)
Record ReservationCreate : Type := {
  rc_event_id : string;
  rc_notes : option string
}.

(** [SuccessResponse]: the message and, for a created reservation, the
    document returned as [data]. *)
Record SuccessResponse : Type := {
  message : string;
  data : option Reservation
}.

Definition BAD_REQUEST : nat := 400.
Definition FORBIDDEN : nat := 403.
Definition NOT_FOUND : nat := 404.
Definition INTERNAL_SERVER_ERROR : nat := 500.

(** [{"event_id": e, "user_id": u, "status": {"$ne": "cancelled"}}] *)
Definition existing_query (event_id user_id : string) (r : Reservation)
  : bool :=
  String.eqb (res_event_id r) event_id
  && String.eqb (res_user_id r) user_id
  && negb (String.eqb (res_status r) "cancelled").

Definition reservation_doc (reservation_id checkin_code qr_code created_at
    : string) (reservation_data : ReservationCreate) (current_user : User)
  : Reservation :=
  {| res_id := reservation_id;
     res_event_id := rc_event_id reservation_data;
     res_user_id := Mongo.user_id current_user;
     res_status := "confirmed";
     res_qr_code := qr_code;
     res_checkin_code := checkin_code;
     res_created_at := created_at;
     res_notes := rc_notes reservation_data;
     res_user_email := None;
     res_checked_in_at := None;
     res_checked_in_by := None;
     res_cancelled_at := None;
     res_decline_reason := None;
     res_declined_at := None;
     res_updated_at := None |}.

Section Handlers.

(** [generate_qr_code]: the base64 image of the encoded text (qrcode/PIL). *)
Variable generate_qr_code : string -> string.

(** [now] is [datetime.utcnow()], [reservation_id] is [str(uuid.uuid4())]
    and [draw] feeds [random.choices].  [insert_one] always reports an
    [inserted_id]; the confirmation e-mail does not touch the store and its
    failure is swallowed. *)
Definition create_reservation (db : Database) (now : Datetime.datetime)
    (reservation_id : string) (draw : nat -> nat)
    (reservation_data : ReservationCreate) (current_user : User)
  : Database * Py.result SuccessResponse :=
  match get_event_by_id db (rc_event_id reservation_data) with
  | None => (db, Py.Raise (Py.HTTPException NOT_FOUND "Event not found"))
  | Some event =>
      if negb (match event_published (doc event) with
               | Some b => b
               | None => true
               end)
      then (db, Py.Raise (Py.HTTPException BAD_REQUEST "Event is not published"))
      else
        match Datetime.strptime_ymd (event_date (doc event)) with
        | None =>
            (db, Py.Raise (Py.HTTPException INTERNAL_SERVER_ERROR
                             "Failed to create reservation"))
        | Some event_day =>
            if Datetime.date_ltb event_day (Datetime.date_of now)
            then (db, Py.Raise (Py.HTTPException BAD_REQUEST
                                  "Cannot reserve for past events"))
            else
              match find_one (existing_query (rc_event_id reservation_data)
                                (Mongo.user_id current_user))
                             (reservations db) with
              | Some _ =>
                  (db, Py.Raise (Py.HTTPException BAD_REQUEST
                                   "You already have a reservation for this event"))
              | None =>
                  if (available_spots event <=? 0)%Z
                  then (db, Py.Raise (Py.HTTPException BAD_REQUEST
                                        "Event is fully booked"))
                  else
                    let checkin_code := QrCodes.generate_reservation_code draw in
                    let qr_code :=
                      generate_qr_code
                        (QrCodes.reservation_qr_data reservation_id checkin_code) in
                    let d := reservation_doc reservation_id checkin_code qr_code
                               (Datetime.isoformat now) reservation_data
                               current_user in
                    (with_reservations db (insert_one d (reservations db)),
                     Py.Return {| message := "Reservation created successfully";
                                  data := Some d |})
              end
        end
  end.

Definition is_admin (u : User) : bool :=
  match user_is_admin u with
  | Some b => b
  | None => false
  end.

Definition set_cancelled (cancelled_at : string) (r : Reservation)
  : Reservation :=
  {| res_id := res_id r; res_event_id := res_event_id r;
     res_user_id := res_user_id r;
     res_status := "cancelled";
     res_qr_code := res_qr_code r; res_checkin_code := res_checkin_code r;
     res_created_at := res_created_at r; res_notes := res_notes r;
     res_user_email := res_user_email r;
     res_checked_in_at := res_checked_in_at r;
     res_checked_in_by := res_checked_in_by r;
     res_cancelled_at := Some cancelled_at;
     res_decline_reason := res_decline_reason r;
     res_declined_at := res_declined_at r;
     res_updated_at := res_updated_at r |}.

Definition cancel_reservation (db : Database) (now : Datetime.datetime)
    (reservation_id : string) (current_user : User)
  : Database * Py.result SuccessResponse :=
  match find_one (fun r => String.eqb (res_id r) reservation_id)
                 (reservations db) with
  | None => (db, Py.Raise (Py.HTTPException NOT_FOUND "Reservation not found"))
  | Some reservation =>
      if negb (String.eqb (res_user_id reservation) (Mongo.user_id current_user))
         && negb (is_admin current_user)
      then (db, Py.Raise (Py.HTTPException FORBIDDEN
                            "Not authorized to cancel this reservation"))
      else if String.eqb (res_status reservation) "cancelled"
      then (db, Py.Raise (Py.HTTPException BAD_REQUEST
                            "Reservation is already cancelled"))
      else
        let past :=
          match get_event_by_id db (res_event_id reservation) with
          | None => Py.Return false
          | Some event =>
              match Datetime.strptime_ymd (event_date (doc event)) with
              | None => Py.Raise (Py.HTTPException INTERNAL_SERVER_ERROR
                                    "Failed to cancel reservation")
              | Some event_day =>
                  Py.Return (Datetime.date_ltb event_day (Datetime.date_of now))
              end
          end in
        match past with
        | Py.Raise e => (db, Py.Raise e)
        | Py.Return true =>
            (db, Py.Raise (Py.HTTPException BAD_REQUEST
                             "Cannot cancel reservation for past events"))
        | Py.Return false =>
            let '(rs, modified_count) :=
              update_one (fun r => String.eqb (res_id r) reservation_id)
                         (set_cancelled (Datetime.isoformat now))
                         (reservations db) in
            if Nat.ltb 0 modified_count
            then (with_reservations db rs,
                  Py.Return {| message := "Reservation cancelled successfully";
                               data := None |})
            else (with_reservations db rs,
                  Py.Raise (Py.HTTPException INTERNAL_SERVER_ERROR
                              "Failed to cancel reservation"))
        end
  end.

End Handlers.

End Reservations.

(* ================================================================== *)
(** * models/reservations.py and api/checkin.py *)

Module Checkin.
Import Mongo.
Local Open Scope py_scope.

(** [CheckInRequest] *)
Record CheckInRequest : Type := {
  method : string;
  value : string;
  event_id : option string
}.

(** A dictionary of string fields, as an aggregation pipeline returns. *)
Definition Doc := list (string * string).

Fixpoint doc_get (d : Doc) (key : string) : option string :=
  match d with
  | [] => None
  | (k, v) :: rest => if String.eqb k key then Some v else doc_get rest key
  end.

(** [ReservationWithDetails]: every field but [qr_code] and [notes] is
    required, and [center] is a [CenterID]. *)
Record ReservationWithDetails : Type := {
  rd_id : string;
  rd_event_id : string;
  rd_event_title : string;
  rd_event_date : string;
  rd_event_time : string;
  rd_event_location : string;
  rd_center : string;
  rd_user_id : string;
  rd_user_name : string;
  rd_user_email : string;
  rd_status : string;
  rd_checkin_code : string;
  rd_qr_code : option string;
  rd_created_at : string;
  rd_notes : option string
}.

(** [CenterID = Literal['santo-domingo', 'santiago']] *)
Definition is_CenterID (s : string) : bool :=
  String.eqb s "santo-domingo" || String.eqb s "santiago".

Definition required (d : Doc) (key : string) : Py.result string :=
  match doc_get d key with
  | Some v => Py.Return v
  | None => Py.Raise (Py.ValidationError "CheckInResponse" ("reservation." ++ key))
  end.

(** Validation of a dictionary against [ReservationWithDetails]. *)
Definition validate_details (d : Doc) : Py.result ReservationWithDetails :=
  i <- required d "id" ;;
  ei <- required d "event_id" ;;
  et <- required d "event_title" ;;
  ed <- required d "event_date" ;;
  etm <- required d "event_time" ;;
  el <- required d "event_location" ;;
  c <- required d "center" ;;
  ui <- required d "user_id" ;;
  un <- required d "user_name" ;;
  ue <- required d "user_email" ;;
  st <- required d "status" ;;
  cc <- required d "checkin_code" ;;
  ca <- required d "created_at" ;;
  if is_CenterID c
  then Py.Return
         {| rd_id := i; rd_event_id := ei; rd_event_title := et;
            rd_event_date := ed; rd_event_time := etm;
            rd_event_location := el; rd_center := c; rd_user_id := ui;
            rd_user_name := un; rd_user_email := ue; rd_status := st;
            rd_checkin_code := cc; rd_qr_code := doc_get d "qr_code";
            rd_created_at := ca; rd_notes := doc_get d "notes" |}
  else Py.Raise (Py.ValidationError "CheckInResponse" "reservation.center").

(** [CheckInResponse] *)
Record CheckInResponse : Type := {
  success : bool;
  message : string;
  reservation : option ReservationWithDetails;
  timestamp : option string
}.

(** [CheckInResponse(success=..., message=..., reservation=..., timestamp=...)]:
    a dictionary passed as [reservation] is validated. *)
Definition new_CheckInResponse (success : bool) (message : string)
    (reservation : option Doc) (timestamp : option string)
  : Py.result CheckInResponse :=
  match reservation with
  | None => Py.Return {| success := success; message := message;
                         reservation := None; timestamp := timestamp |}
  | Some d =>
      r <- validate_details d ;;
      Py.Return {| success := success; message := message;
                   reservation := Some r; timestamp := timestamp |}
  end.

Definition failure (message : string) : Py.result CheckInResponse :=
  new_CheckInResponse false message None None.

(** The aggregation pipeline of [check_in_user]: [$match] on the id,
    [$lookup] and [$unwind] of the event and of the user, and the
    [$project] stage with its twelve keys. *)
Definition project (r : Reservation) (e : Event) (u : User) : Doc :=
  [ ("id", res_id r);
    ("status", res_status r);
    ("checkin_code", res_checkin_code r);
    ("created_at", res_created_at r);
    ("event_id", Mongo.event_id e);
    ("event_title", event_title e);
    ("event_date", event_date e);
    ("event_time", event_time e);
    ("event_location", event_location e);
    ("user_id", Mongo.user_id u);
    ("user_name", user_name u);
    ("user_email", user_email u) ].

Definition reservation_details (db : Database) (id : string) : list Doc :=
  flat_map
    (fun r =>
       flat_map
         (fun e =>
            map (project r e)
                (find (fun u => String.eqb (Mongo.user_id u) (res_user_id r))
                      (users db)))
         (find (fun e => String.eqb (Mongo.event_id e) (res_event_id r))
               (events db)))
    (find (fun r => String.eqb (res_id r) id) (reservations db)).

Definition set_checked_in (checkin_time admin_id : string) (r : Reservation)
  : Reservation :=
  {| res_id := res_id r; res_event_id := res_event_id r;
     res_user_id := res_user_id r;
     res_status := "checked_in";
     res_qr_code := res_qr_code r; res_checkin_code := res_checkin_code r;
     res_created_at := res_created_at r; res_notes := res_notes r;
     res_user_email := res_user_email r;
     res_checked_in_at := Some checkin_time;
     res_checked_in_by := Some admin_id;
     res_cancelled_at := res_cancelled_at r;
     res_decline_reason := res_decline_reason r;
     res_declined_at := res_declined_at r;
     res_updated_at := res_updated_at r |}.

(** [if checkin_request.event_id:] *)
Definition given (event_id : option string) : option string :=
  match event_id with
  | Some "" => None
  | other => other
  end.

(** [{"user_id": u, "status": "confirmed"}], with the event when given *)
Definition active_query (user : string) (event : option string)
    (r : Reservation) : bool :=
  String.eqb (res_user_id r) user
  && String.eqb (res_status r) "confirmed"
  && match event with
     | Some e => String.eqb (res_event_id r) e
     | None => true
     end.

(** What the first part of the handler ends with: an early response, the
    reservation it looked up (or [None]), or an exception. *)
Inductive Lookup : Type :=
| Respond (message : string)
| Found (reservation : option Reservation)
| Failed (e : Py.exn).

Section Handler.

(** MongoDB's [{"$regex": pattern, "$options": "i"}]: the test a pattern
    compiles to, or [None] when the server rejects the pattern. *)
Variable regex_i : string -> option (string -> bool).

Definition pick (rs : list Reservation) (event : option string)
    (none_found : string) : Lookup :=
  match rs with
  | [] => Respond none_found
  | first :: more =>
      if Nat.ltb 1 (List.length rs)
         && match event with Some _ => false | None => true end
      then Respond "Multiple reservations found. Please specify event."
      else Found (Some first)
  end.

Definition lookup_reservation (db : Database) (req : CheckInRequest)
  : Lookup :=
  if String.eqb (method req) "qr_code" then
    match QrCodes.decode_qr_data (value req) with
    | Some (QrCodes.QrReservation reservation_id _) =>
        Found (find_one (fun r => String.eqb (res_id r) reservation_id)
                        (reservations db))
    | _ => Respond "Invalid QR code format"
    end
  else if String.eqb (method req) "reservation_code" then
    if negb (Validation.validate_reservation_code (value req))
    then Respond "Invalid reservation code format"
    else Found (find_one
                  (fun r => String.eqb (res_checkin_code r)
                                       (Str.upper (value req)))
                  (reservations db))
  else if String.eqb (method req) "email" then
    match find_one (fun u => String.eqb (user_email u) (Str.lower (value req))
                             && ne_true (user_deleted u))
                   (users db) with
    | None => Respond "User not found with this email"
    | Some user =>
        pick (find (active_query (Mongo.user_id user) (given (event_id req)))
                   (reservations db))
             (given (event_id req))
             "No active reservations found for this email"
    end
  else if String.eqb (method req) "name" then
    match regex_i (value req) with
    | None => Failed (Py.ValueError "Regular expression is invalid")
    | Some matches =>
        match find (fun u => matches (user_name u) && ne_true (user_deleted u))
                   (users db) with
        | [] => Respond "User not found with this name"
        | [user] =>
            pick (find (active_query (Mongo.user_id user) (given (event_id req)))
                       (reservations db))
                 (given (event_id req))
                 "No active reservations found for this user"
        | _ => Respond ("Multiple users found with name '" ++ value req ++ "'")
        end
    end
  else Respond "Invalid check-in method".

(** The body of the [try] block: the store it leaves behind, and the
    response it returns or the exception that escapes it. *)
Definition check_in_body (db : Database) (now : Datetime.datetime)
    (checkin_request : CheckInRequest) (admin_user : User)
  : Database * Py.result CheckInResponse :=
  match lookup_reservation db checkin_request with
  | Failed e => (db, Py.Raise e)
  | Respond message => (db, failure message)
  | Found None => (db, failure "Reservation not found")
  | Found (Some reservation) =>
      if String.eqb (res_status reservation) "checked_in"
      then (db, failure "User already checked in")
      else if String.eqb (res_status reservation) "cancelled"
      then (db, failure "Reservation has been cancelled")
      else
        match reservation_details db (res_id reservation) with
        | [] => (db, failure "Reservation details not found")
        | details :: _ =>
            let checkin_time := Datetime.isoformat now in
            let '(rs, modified_count) :=
              update_one (fun r => String.eqb (res_id r) (res_id reservation))
                         (set_checked_in checkin_time (Mongo.user_id admin_user))
                         (reservations db) in
            let db1 := with_reservations db rs in
            if Nat.ltb 0 modified_count
            then
              let checkin_record :=
                {| chk_reservation_id := res_id reservation;
                   chk_event_id := res_event_id reservation;
                   chk_user_id := res_user_id reservation;
                   chk_checked_in_by := Mongo.user_id admin_user;
                   chk_method := method checkin_request;
                   chk_timestamp := checkin_time |} in
              let db2 := with_checkins db1
                           (insert_one checkin_record (checkins db1)) in
              (db2, new_CheckInResponse true "Check-in successful"
                      (Some details) (Some checkin_time))
            else (db1, failure "Failed to update check-in status")
        end
  end.

(** [check_in_user]: an exception that escapes the body is turned into a
    failure response; what the body wrote to the store stays written. *)
Definition check_in_user (db : Database) (now : Datetime.datetime)
    (checkin_request : CheckInRequest) (admin_user : User)
  : Database * CheckInResponse :=
  let '(db', r) := check_in_body db now checkin_request admin_user in
  match r with
  | Py.Return response => (db', response)
  | Py.Raise e =>
      (db', {| success := false;
               message := "Check-in failed: " ++ Py.str_of_exn e;
               reservation := None;
               timestamp := None |})
  end.

End Handler.

End Checkin.

(* ================================================================== *)
(** * api/invitations.py and api/admin.py: the other writers of the
      [reservations] collection *)

Module Invitations.
Import Mongo.

(** The payload of a verified invitation token, as the handler reads it:
    each field is [payload.get(key)], [JNull] when the key is missing.
    [generate_decline_link] signs any JSON object that has the three keys
    [invitation_type], [invitation_id] and [user_email], so a field need
    not be a text. *)
Record Payload : Type := {
  invitation_type : Json;
  invitation_id : Json;
  user_email : Json;
  event_id : Json
}.

(** Truth value of a decoded value, as [all] takes it. *)
Definition json_truthy (v : Json) : bool :=
  match v with
  | JNull => false
  | JBool b => b
  | JInt z => negb (z =? 0)%Z
  | JFloat x => negb (x =? 0)%float
  | JString s => negb (String.eqb s "")
  | JArray [] => false
  | JArray (_ :: _) => true
  | JObject [] => false
  | JObject (_ :: _) => true
  end.

Definition is_text (v : Json) : bool :=
  match v with
  | JString _ => true
  | _ => false
  end.

(** [value == text] *)
Definition equals_text (v : Json) (t : string) : bool :=
  match v with
  | JString s => String.eqb s t
  | _ => false
  end.

(** Truth value of an optional string. *)
Definition truthy (s : option string) : bool :=
  match s with
  | None | Some "" => false
  | Some _ => true
  end.

Definition text (s : option string) : string :=
  match s with
  | Some x => x
  | None => ""
  end.

Definition set_declined (reason now : string) (r : Reservation)
  : Reservation :=
  {| res_id := res_id r; res_event_id := res_event_id r;
     res_user_id := res_user_id r;
     res_status := "declined";
     res_qr_code := res_qr_code r; res_checkin_code := res_checkin_code r;
     res_created_at := res_created_at r; res_notes := res_notes r;
     res_user_email := res_user_email r;
     res_checked_in_at := res_checked_in_at r;
     res_checked_in_by := res_checked_in_by r;
     res_cancelled_at := res_cancelled_at r;
     res_decline_reason := Some reason;
     res_declined_at := Some now;
     res_updated_at := Some now |}.

(** The document already holds the four values the update sets: the
    update matches it and modifies nothing. *)
Definition already_declined (reason now : string) (r : Reservation) : bool :=
  String.eqb (res_status r) "declined"
  && eq_field (res_decline_reason r) reason
  && eq_field (res_declined_at r) now
  && eq_field (res_updated_at r) now.

(** The filter of [find_one], from the conditions on [id] and
    [user_email]. *)
Definition invitation_query (by_id by_email : option string -> bool)
    (r : Reservation) : bool :=
  by_id (Some (res_id r))
  && by_email (res_user_email r)
  && (String.eqb (res_status r) "confirmed"
      || String.eqb (res_status r) "pending").

Section Handler.

Variable other_filters : Json -> option (option string -> bool).

(** [decline_invitation_via_email], from the verified [payload] on.  The
    result is the status code of the page it returns: 200 for the page
    that confirms the decline, 500 for the error page of the handler's
    last [except] clause, which a query that is refused leads to. *)
Definition decline_invitation_via_email (db : Database)
    (now : Datetime.datetime) (payload : Payload) (reason : option string)
  : Database * Py.result nat :=
  if negb (json_truthy (invitation_type payload)
           && json_truthy (invitation_id payload)
           && json_truthy (user_email payload))
  then (db, Py.Raise (Py.HTTPException 400 "Invalid invitation token data"))
  else if equals_text (invitation_type payload) "event_invitation"
  then
    match field_filter other_filters (invitation_id payload),
          field_filter other_filters (user_email payload) with
    | Some by_id, Some by_email =>
        match find_one (invitation_query by_id by_email)
                       (reservations db) with
        | None => (db, Py.Raise (Py.HTTPException 404
                                   "Invitation not found or already processed"))
        | Some _ =>
            let addressed := fun r => by_id (Some (res_id r)) in
            let decline_reason :=
              if truthy reason then text reason else "Declined via email" in
            let timestamp := Datetime.isoformat now in
            let '(rs, matched_count) :=
              update_one addressed (set_declined decline_reason timestamp)
                         (reservations db) in
            let modified_count :=
              match find_one addressed (reservations db) with
              | Some hit =>
                  if already_declined decline_reason timestamp hit then 0
                  else matched_count
              | None => 0
              end in
            if Nat.eqb modified_count 0
            then (with_reservations db rs,
                  Py.Raise (Py.HTTPException 500 "Failed to decline invitation"))
            else
              match field_filter other_filters (event_id payload) with
              | Some _ => (with_reservations db rs, Py.Return 200)
              | None => (with_reservations db rs, Py.Return 500)
              end
        end
    | _, _ => (db, Py.Return 500)
    end
  else (db, Py.Raise (Py.HTTPException 400 "Unsupported invitation type")).

End Handler.

End Invitations.

Module Admin.
Import Mongo.

(** [cleanup_data], as far as it touches [reservations]: cancelled
    reservations created more than a year ago are deleted.  (Its other
    deletions concern users and analytics records.) *)
Definition cleanup_data (db : Database) (now : Datetime.datetime) : Database :=
  let one_year_ago := Datetime.isoformat (Datetime.minus_days now 365) in
  with_reservations db
    (fst (delete_many
            (fun r => String.eqb (res_status r) "cancelled"
                      && lt (res_created_at r) one_year_ago)
            (reservations db))).

End Admin.

(* ================================================================== *)
(** * services/interest_detection_service.py *)

Module InterestDetection.
Import Mongo.

(** A stable sort: [sort_by precedes l] orders [l] so that an element comes
    before another when it strictly [precedes] it, and elements that do not
    precede one another keep their order.  For keys without NaN this is what
    [list.sort], [sorted] and a cursor's [sort] give. *)
Section Sorting.
Context {A : Type} (precedes : A -> A -> bool).

Fixpoint insert_by (x : A) (l : list A) : list A :=
  match l with
  | [] => [x]
  | y :: l' => if precedes y x then y :: insert_by x l' else x :: l
  end.

Definition sort_by (l : list A) : list A := fold_right insert_by [] l.

(** [after a b]: [b] may come right after [a], as it does not strictly
    precede it. *)
Definition after (a b : A) : Prop := precedes b a = false.

End Sorting.

(** [self.category_weights] and [self.time_decay] *)
Definition category_weights (activity : string) : option float :=
  if String.eqb activity "reservation" then Some 3.0%float
  else if String.eqb activity "checkin" then Some 5.0%float
  else if String.eqb activity "view" then Some 1.0%float
  else if String.eqb activity "search" then Some 2.0%float
  else if String.eqb activity "share" then Some 2.5%float
  else None.

Definition time_decay_recent : float := 1.0.
Definition time_decay_medium : float := 0.7.
Definition time_decay_old : float := 0.4.

(** [now] is [datetime.utcnow()], a naive value. *)
Definition calculate_time_weight (now : Datetime.datetime)
    (activity_date : string) : float :=
  match Datetime.fromisoformat (Str.replace activity_date "Z" "+00:00") with
  | None => 0.1
  | Some activity_dt =>
      match Datetime.sub_days now activity_dt with
      | Py.Raise _ => 0.1
      | Py.Return days_ago =>
          if (days_ago <=? 30)%Z then time_decay_recent
          else if (days_ago <=? 90)%Z then time_decay_medium
          else time_decay_old
      end
  end.

(** A [Counter] of scores per category, in insertion order. *)
Definition Counter := list (string * float).

Fixpoint counter_get (c : Counter) (key : string) : option float :=
  match c with
  | [] => None
  | (k, v) :: rest => if String.eqb k key then Some v else counter_get rest key
  end.

(** [c[key] += score] *)
Fixpoint counter_add (c : Counter) (key : string) (score : float) : Counter :=
  match c with
  | [] => [(key, (0 + score)%float)]
  | (k, v) :: rest =>
      if String.eqb k key then (k, (v + score)%float) :: rest
      else (k, v) :: counter_add rest key score
  end.

(** [c.most_common(n)]: the [n] entries with the largest counts, ties in
    insertion order. *)
Definition most_common (c : Counter) (n : nat) : Counter :=
  firstn n (sort_by (fun y x => (snd x <? snd y)%float) c).

Definition weight_of (activity : string) : float :=
  match category_weights activity with
  | Some w => w
  | None => 1.0%float
  end.

(** The score one reservation adds to its category in
    [analyze_user_interests]. *)
Definition reservation_score (now : Datetime.datetime) (r : Reservation)
  : float :=
  let time_weight := calculate_time_weight now (res_created_at r) in
  let activity_weight := weight_of "reservation" in
  let activity_weight :=
    if String.eqb (res_status r) "checked_in"
    then (activity_weight * 1.5)%float else activity_weight in
  (activity_weight * time_weight)%float.

(** The score one check-in record adds to its category. *)
Definition checkin_score (now : Datetime.datetime) (c : Checkin) : float :=
  (weight_of "checkin" * calculate_time_weight now (chk_timestamp c))%float.

Definition category_of (db : Database) (event : string) : option string :=
  option_map event_category
    (find_one (fun e => String.eqb (event_id e) event) (events db)).

(** [interest_scores] as [analyze_user_interests] accumulates it. *)
Definition interest_scores (db : Database) (now : Datetime.datetime)
    (user : string) : Counter :=
  let from_reservations :=
    fold_left
      (fun acc r =>
         match category_of db (res_event_id r) with
         | None => acc
         | Some category => counter_add acc category (reservation_score now r)
         end)
      (find (fun r => String.eqb (res_user_id r) user
                      && negb (String.eqb (res_status r) "cancelled"))
            (reservations db))
      [] in
  fold_left
    (fun acc c =>
       match category_of db (chk_event_id c) with
       | None => acc
       | Some category => counter_add acc category (checkin_score now c)
       end)
    (find (fun c => String.eqb (chk_user_id c) user) (checkins db))
    from_reservations.

(** One entry of the list [generate_recommendations] returns. *)
Record Recommendation : Type := {
  rec_event_id : string;
  rec_title : string;
  rec_category : string;
  rec_date : string;
  rec_time : string;
  rec_location : string;
  recommendation_score : float;
  reason : string
}.

Definition fallback_categories : list string :=
  ["Conciertos"; "Cinema Dominicano"; "Talleres"].

Definition default_center : string := "santo-domingo".

Section Recommendations.

(** Python's [round(x, 2)] and [int(text)] ([None]: [ValueError]). *)
Variable round2 : float -> float.
Variable py_int : string -> option Z.

Definition center_of (db : Database) (user : string) : string :=
  match find_one (fun u => String.eqb (user_id u) user) (users db) with
  | Some u =>
      match user_center u with
      | Some c => c
      | None => default_center
      end
  | None => default_center
  end.

Definition top_categories (scores : Counter) : list string :=
  match map fst (most_common scores 3) with
  | [] => fallback_categories
  | top => top
  end.

(** The query of [generate_recommendations] on [events]. *)
Definition upcoming_query (top : list string) (center today : string)
    (e : Event) : bool :=
  existsb (String.eqb (event_category e)) top
  && eq_field (event_center e) center
  && gte (event_date e) today
  && match event_published e with
     | Some true => true
     | _ => false
     end.

Definition time_boost (e : Event) : float :=
  if String.eqb (event_time e) "" then 1.0%float
  else
    match py_int (nth 0 (Str.split (event_time e) ":") "") with
    | Some _ => 1.2%float
    | None => 1.0%float
    end.

Definition recommend (scores : Counter) (e : Event) : Recommendation :=
  let category_score :=
    match counter_get scores (event_category e) with
    | Some s => s
    | None => 0%float
    end in
  let rec_score := (category_score * time_boost e)%float in
  {| rec_event_id := event_id e;
     rec_title := event_title e;
     rec_category := event_category e;
     rec_date := event_date e;
     rec_time := event_time e;
     rec_location := event_location e;
     recommendation_score := round2 rec_score;
     reason := "Based on your interest in " ++ event_category e |}.

Definition upcoming_events (db : Database) (now : Datetime.datetime)
    (user : string) (scores : Counter) : list Event :=
  firstn 5
    (sort_by (fun y x => String.ltb (event_date y) (event_date x))
       (find (upcoming_query (top_categories scores) (center_of db user)
                             (Datetime.strftime_ymd now))
             (events db))).

Definition generate_recommendations (db : Database) (now : Datetime.datetime)
    (user : string) (scores : Counter) : list Recommendation :=
  firstn 3
    (sort_by (fun y x => (recommendation_score x <? recommendation_score y)%float)
       (map (recommend scores) (upcoming_events db now user scores))).

End Recommendations.

End InterestDetection.

(* ================================================================== *)
(** * Requests against the shared store *)

(** ** [create_reservation], one database access at a time

    The handler reads the event (with its count of reservations), then
    looks for an existing reservation, then inserts.  Nothing ties these
    accesses together: no lock, no transaction, no conditional write. *)

Module Interleaving.
Import Mongo EventService Reservations.

Record Request : Type := {
  now : Datetime.datetime;
  reservation_id : string;
  draw : nat -> nat;
  reservation_data : ReservationCreate;
  current_user : User
}.

(** Where a request stands: the value of its local variable [event] is
    carried from one access to the next. *)
Inductive Task : Type :=
| Start
| Loaded (event : EventView)
| Cleared (event : EventView)
| Done (r : Py.result SuccessResponse).

Section Steps.
Variable generate_qr_code : string -> string.

Definition step (db : Database) (req : Request) (t : Task) : Database * Task :=
  match t with
  | Start =>
      match get_event_by_id db (rc_event_id (reservation_data req)) with
      | None => (db, Done (Py.Raise (Py.HTTPException NOT_FOUND "Event not found")))
      | Some event =>
          if negb (match event_published (doc event) with
                   | Some b => b
                   | None => true
                   end)
          then (db, Done (Py.Raise (Py.HTTPException BAD_REQUEST
                                      "Event is not published")))
          else
            match Datetime.strptime_ymd (event_date (doc event)) with
            | None =>
                (db, Done (Py.Raise (Py.HTTPException INTERNAL_SERVER_ERROR
                                       "Failed to create reservation")))
            | Some event_day =>
                if Datetime.date_ltb event_day (Datetime.date_of (now req))
                then (db, Done (Py.Raise (Py.HTTPException BAD_REQUEST
                                            "Cannot reserve for past events")))
                else (db, Loaded event)
            end
      end
  | Loaded event =>
      match find_one (existing_query (rc_event_id (reservation_data req))
                        (Mongo.user_id (current_user req)))
                     (reservations db) with
      | Some _ =>
          (db, Done (Py.Raise (Py.HTTPException BAD_REQUEST
                                 "You already have a reservation for this event")))
      | None =>
          if (available_spots event <=? 0)%Z
          then (db, Done (Py.Raise (Py.HTTPException BAD_REQUEST
                                      "Event is fully booked")))
          else (db, Cleared event)
      end
  | Cleared event =>
      let checkin_code := QrCodes.generate_reservation_code (draw req) in
      let qr_code :=
        generate_qr_code
          (QrCodes.reservation_qr_data (reservation_id req) checkin_code) in
      let d := reservation_doc (reservation_id req) checkin_code qr_code
                 (Datetime.isoformat (now req)) (reservation_data req)
                 (current_user req) in
      (with_reservations db (insert_one d (reservations db)),
       Done (Py.Return {| message := "Reservation created successfully";
                          data := Some d |}))
  | Done r => (db, Done r)
  end.

(** The document a request inserts. *)
Definition inserted (req : Request) : Reservation :=
  let checkin_code := QrCodes.generate_reservation_code (draw req) in
  reservation_doc (reservation_id req) checkin_code
    (generate_qr_code
       (QrCodes.reservation_qr_data (reservation_id req) checkin_code))
    (Datetime.isoformat (now req)) (reservation_data req) (current_user req).

(** Two requests in flight; a schedule names, access by access, which of
    them runs next ([false]: the first, [true]: the second). *)
Record World : Type := {
  store : Database;
  first : Task;
  second : Task
}.

Definition advance (a b : Request) (w : World) (who : bool) : World :=
  if who
  then let '(db, t) := step (store w) b (second w) in
       {| store := db; first := first w; second := t |}
  else let '(db, t) := step (store w) a (first w) in
       {| store := db; first := t; second := second w |}.

Definition run (a b : Request) (schedule : list bool) (db : Database) : World :=
  fold_left (advance a b) schedule
            {| store := db; first := Start; second := Start |}.

End Steps.

End Interleaving.

(** ** The operations that write [reservations] *)

Module Operations.
Import Mongo.

Inductive Operation : Type :=
| CreateReservation (now : Datetime.datetime) (reservation_id : string)
    (draw : nat -> nat) (reservation_data : Reservations.ReservationCreate)
    (current_user : User)
| CancelReservation (now : Datetime.datetime) (reservation_id : string)
    (current_user : User)
| CheckInUser (now : Datetime.datetime) (request : Checkin.CheckInRequest)
    (admin_user : User)
| DeclineInvitation (now : Datetime.datetime) (payload : Invitations.Payload)
    (reason : option string)
| CleanupData (now : Datetime.datetime).

Section Apply.
Variable generate_qr_code : string -> string.
Variable regex_i : string -> option (string -> bool).
Variable other_filters : Json -> option (option string -> bool).

Definition apply (op : Operation) (db : Database) : Database :=
  match op with
  | CreateReservation now id draw data user =>
      fst (Reservations.create_reservation generate_qr_code db now id draw data user)
  | CancelReservation now id user =>
      fst (Reservations.cancel_reservation db now id user)
  | CheckInUser now request admin =>
      fst (Checkin.check_in_user regex_i db now request admin)
  | DeclineInvitation now payload reason =>
      fst (Invitations.decline_invitation_via_email other_filters db now
             payload reason)
  | CleanupData now => Admin.cleanup_data db now
  end.

End Apply.

(** The token of a declined invitation names its reservation by a text
    id; it gives the e-mail address as a text.  Every other operation
    passes. *)
Definition by_text_id (op : Operation) : Prop :=
  match op with
  | DeclineInvitation _ payload _ =>
      Invitations.is_text (Invitations.invitation_id payload) = true
  | _ => True
  end.

Definition by_text_email (op : Operation) : Prop :=
  match op with
  | DeclineInvitation _ payload _ =>
      Invitations.is_text (Invitations.user_email payload) = true
  | _ => True
  end.

(** A reservation that counts for the uniqueness rule, and its pair. *)
Definition active (r : Reservation) : bool :=
  negb (String.eqb (res_status r) "cancelled").

Definition pair_of (r : Reservation) : string * string :=
  (res_user_id r, res_event_id r).

(** At most one non-cancelled reservation per (user, event). *)
Definition unique_active (db : Database) : Prop :=
  NoDup (map pair_of (filter active (reservations db))).

(** Reservation ids are unique, as [uuid4] values are. *)
Definition unique_ids (db : Database) : Prop :=
  NoDup (map res_id (reservations db)).

(** The id a creation draws is not in use. *)
Definition fresh (op : Operation) (db : Database) : Prop :=
  match op with
  | CreateReservation _ id _ _ _ => ~ In id (map res_id (reservations db))
  | _ => True
  end.

(** A reservation as [create_reservation] writes it and as cancellations,
    check-ins and clean-ups leave it: one of the three statuses of the
    lifecycle, and no [user_email] (no handler stores that field). *)
Definition lifecycle_status (s : string) : Prop :=
  s = "confirmed" \/ s = "checked_in" \/ s = "cancelled".

Definition created_here (db : Database) : Prop :=
  Forall (fun r => res_user_email r = None /\ lifecycle_status (res_status r))
         (reservations db).

End Operations.

(* ================================================================== *)
(** * The rest of utils/qr_codes.py and utils/validation.py *)

Module QrFormats.
Import QrCodes.

(** [generate_event_qr_code] and [generate_check_in_qr_code]: the text
    encoded in the image. *)
Definition event_qr_data (event_id event_title : string) : string :=
  "CCB-EVENT:" ++ event_id ++ ":" ++ event_title.

Definition check_in_qr_data (reservation_id event_id user_id : string)
  : string :=
  "CCB-CHECKIN:" ++ reservation_id ++ ":" ++ event_id ++ ":" ++ user_id.

Definition validate_qr_code_data (qr_data : string) : bool :=
  match decode_qr_data qr_data with
  | Some _ => true
  | None => false
  end.

End QrFormats.

Module RequestValidation.

Definition validate_pagination (skip limit : Z) : Py.result (Z * Z) :=
  if (skip <? 0)%Z
  then Py.Raise (Py.HTTPException 400 "Skip parameter cannot be negative")
  else if (limit <? 1)%Z
  then Py.Raise (Py.HTTPException 400 "Limit parameter must be at least 1")
  else if (100 <? limit)%Z
  then Py.Raise (Py.HTTPException 400 "Limit parameter cannot exceed 100")
  else Py.Return (skip, limit).

(** [str.isspace] on ASCII text: tab to carriage return, the four
    separators and the space. *)
Definition is_space (c : ascii) : bool :=
  Nat.leb 9 (Str.code c) && Nat.leb (Str.code c) 13
  || Nat.leb 28 (Str.code c) && Nat.leb (Str.code c) 32.

Fixpoint lstrip (l : list ascii) : list ascii :=
  match l with
  | [] => []
  | c :: l' => if is_space c then lstrip l' else l
  end.

(** [s.strip()] *)
Definition strip (s : string) : string :=
  Str.of_chars (rev (lstrip (rev (lstrip (Str.chars s))))).

(** The character class of the sanitising pattern: the two angle
    brackets, both quotes, the backslash and the semicolon. *)
Definition is_harmful (c : ascii) : bool :=
  existsb (Ascii.eqb c) ["<"; ">"; "034"; "039"; "092"; ";"]%char.

(** [re.sub(pattern, '', s)] for a pattern that is one character class. *)
Definition remove (class : ascii -> bool) (s : string) : string :=
  Str.of_chars (filter (fun c => negb (class c)) (Str.chars s)).

(** Text whose characters are all ASCII: its [len] is its number of
    bytes, and [strip] removes the white space above and nothing else. *)
Definition ascii_text (s : string) : Prop :=
  Forall (fun c => Str.code c < 128) (Str.chars s).

Definition validate_search_query (query : option string)
  : Py.result (option string) :=
  match query with
  | None | Some "" => Py.Return None
  | Some query =>
      let sanitized := strip query in
      if Nat.ltb (String.length sanitized) 2
      then Py.Raise (Py.HTTPException 400
                       "Search query must be at least 2 characters long")
      else if Nat.ltb 100 (String.length sanitized)
      then Py.Raise (Py.HTTPException 400
                       "Search query cannot exceed 100 characters")
      else Py.Return (Some (remove is_harmful sanitized))
  end.

End RequestValidation.

(* ================================================================== *)
(** * api/reservations.py: the handlers that read *)

Module ReservationViews.
Import Mongo.
Local Open Scope py_scope.

(** [PaginatedResponse] *)
Record PaginatedResponse (A : Type) : Type := {
  items : list A;
  total : Z;
  page : Z;
  page_size : Z;
  total_pages : Z;
  has_next : bool;
  has_previous : bool
}.
Arguments items {A}.
Arguments total {A}.
Arguments page {A}.
Arguments page_size {A}.
Arguments total_pages {A}.
Arguments has_next {A}.
Arguments has_previous {A}.

(** A document the pipeline of [get_user_reservations] returns. *)
Record Listed : Type := {
  li_id : string;
  li_status : string;
  li_checkin_code : string;
  li_qr_code : string;
  li_created_at : string;
  li_notes : option string;
  li_event_id : string;
  li_event_title : string;
  li_event_date : string;
  li_event_time : string;
  li_event_location : string;
  li_event_category : string
}.

Definition listed (r : Reservation) (e : Event) : Listed :=
  {| li_id := res_id r;
     li_status := res_status r;
     li_checkin_code := res_checkin_code r;
     li_qr_code := res_qr_code r;
     li_created_at := res_created_at r;
     li_notes := res_notes r;
     li_event_id := event_id e;
     li_event_title := event_title e;
     li_event_date := event_date e;
     li_event_time := event_time e;
     li_event_location := event_location e;
     li_event_category := event_category e |}.

(** [{"user_id": u}], with [status] when a filter is given *)
Definition user_query (user : string) (status_filter : option string)
    (r : Reservation) : bool :=
  String.eqb (res_user_id r) user
  && match Checkin.given status_filter with
     | Some s => String.eqb (res_status r) s
     | None => true
     end.

(** [$lookup] of the event followed by [$unwind]: one document per
    matching event, none when the event is missing. *)
Definition with_event {B} (project : Reservation -> Event -> B)
    (db : Database) (rs : list Reservation) : list B :=
  flat_map
    (fun r =>
       map (project r)
           (find (fun e => String.eqb (event_id e) (res_event_id r))
                 (events db)))
    rs.

(** [{"$sort": {"created_at": -1}}] *)
Definition newest_first (y x : Listed) : bool :=
  String.ltb (li_created_at x) (li_created_at y).

Definition get_user_reservations (db : Database) (skip limit : Z)
    (status_filter : option string) (current_user : User)
  : Py.result (PaginatedResponse Listed) :=
  checked <- RequestValidation.validate_pagination skip limit ;;
  let '(skip, limit) := checked in
  let query := user_query (user_id current_user) status_filter in
  let reservations :=
    firstn (Z.to_nat limit)
      (skipn (Z.to_nat skip)
         (InterestDetection.sort_by newest_first
            (with_event listed db (find query (Mongo.reservations db))))) in
  let total := count_documents query (Mongo.reservations db) in
  Py.Return {| items := reservations;
               total := total;
               page := (skip / limit + 1)%Z;
               page_size := limit;
               total_pages := ((total + limit - 1) / limit)%Z;
               has_next := (skip + limit <? total)%Z;
               has_previous := (0 <? skip)%Z |}.

(** The document the pipeline of [get_reservation] returns. *)
Record Detailed : Type := {
  de_id : string;
  de_status : string;
  de_checkin_code : string;
  de_qr_code : string;
  de_created_at : string;
  de_notes : option string;
  de_event_id : string;
  de_event_title : string;
  de_event_date : string;
  de_event_time : string;
  de_event_location : string;
  de_user_id : string;
  de_user_name : string;
  de_user_email : string
}.

Definition detailed (r : Reservation) (e : Event) (u : User) : Detailed :=
  {| de_id := res_id r;
     de_status := res_status r;
     de_checkin_code := res_checkin_code r;
     de_qr_code := res_qr_code r;
     de_created_at := res_created_at r;
     de_notes := res_notes r;
     de_event_id := event_id e;
     de_event_title := event_title e;
     de_event_date := event_date e;
     de_event_time := event_time e;
     de_event_location := event_location e;
     de_user_id := user_id u;
     de_user_name := user_name u;
     de_user_email := user_email u |}.

Definition with_event_and_user (db : Database) (rs : list Reservation)
  : list Detailed :=
  flat_map
    (fun r =>
       flat_map
         (fun e =>
            map (detailed r e)
                (find (fun u => String.eqb (user_id u) (res_user_id r))
                      (users db)))
         (find (fun e => String.eqb (event_id e) (res_event_id r))
               (events db)))
    rs.

(** [SuccessResponse] with the retrieved document as [data]. *)
Record Retrieved : Type := {
  message : string;
  data : Detailed
}.

Definition get_reservation (db : Database) (reservation_id : string)
    (current_user : User) : Py.result Retrieved :=
  match with_event_and_user db
          (find (fun r => String.eqb (res_id r) reservation_id)
                (reservations db)) with
  | [] => Py.Raise (Py.HTTPException Reservations.NOT_FOUND
                      "Reservation not found")
  | reservation :: _ =>
      if negb (String.eqb (de_user_id reservation) (user_id current_user))
         && negb (Reservations.is_admin current_user)
      then Py.Raise (Py.HTTPException Reservations.FORBIDDEN
                       "Not authorized to access this reservation")
      else Py.Return {| message := "Reservation retrieved successfully";
                        data := reservation |}
  end.

End ReservationViews.

(* ================================================================== *)
(** * services/event_service.py: [delete_event] *)

Module EventAdmin.
Import Mongo EventService.

(** [collection.delete_one(query)] with its [deleted_count] *)
Fixpoint delete_one {A} (query : A -> bool) (coll : list A) : list A * nat :=
  match coll with
  | [] => ([], 0)
  | d :: rest =>
      if query d then (rest, 1)
      else let '(rest', n) := delete_one query rest in (d :: rest', n)
  end.

Definition with_events (db : Database) (es : list Event) : Database :=
  {| users := users db; events := es; reservations := reservations db;
     checkins := checkins db |}.

Definition delete_event (db : Database) (event_id : string)
  : Database * Py.result bool :=
  let reservation_count :=
    count_documents (active_for event_id) (reservations db) in
  if (0 <? reservation_count)%Z
  then (db, Py.Raise (Py.HTTPException 400
                        "Cannot delete event with active reservations"))
  else
    let '(es, deleted_count) :=
      delete_one (fun e => String.eqb (Mongo.event_id e) event_id)
                 (events db) in
    if Nat.ltb 0 deleted_count
    then (with_events db es, Py.Return true)
    else (with_events db es,
          Py.Raise (Py.HTTPException 404 "Event not found")).

End EventAdmin.

(* ================================================================== *)
(** * services/interest_detection_service.py: activity and engagement *)

Module Engagement.
Import Mongo.

(** A [Counter] of occurrences, in insertion order. *)
Definition Tally := list (string * nat).

(** [c[key] += 1] *)
Fixpoint tally_add (c : Tally) (key : string) : Tally :=
  match c with
  | [] => [(key, 1)]
  | (k, n) :: rest =>
      if String.eqb k key then (k, S n) :: rest
      else (k, n) :: tally_add rest key
  end.

(** [activity_summary] as [analyze_user_interests] returns it.  The set
    [categories_explored] becomes a list in an order Python does not
    fix: only its elements and their number mean something. *)
Record ActivitySummary : Type := {
  total_events : nat;
  total_reservations : nat;
  total_checkins : nat;
  categories_explored : list string;
  preferred_times : Tally;
  preferred_locations : Tally
}.

Definition time_slot (hour : Z) : string :=
  if (hour <? 12)%Z then "morning"
  else if (hour <? 18)%Z then "afternoon"
  else "evening".

(** The reservations and check-in records [analyze_user_interests] reads. *)
Definition reservations_of (db : Database) (user : string)
  : list Reservation :=
  find (fun r => String.eqb (res_user_id r) user
                 && negb (String.eqb (res_status r) "cancelled"))
       (reservations db).

Definition checkins_of (db : Database) (user : string) : list Checkin :=
  find (fun c => String.eqb (chk_user_id c) user) (checkins db).

(** The events of the reservations whose event still exists. *)
Definition events_of (db : Database) (rs : list Reservation) : list Event :=
  flat_map
    (fun r =>
       match find_one (fun e => String.eqb (event_id e) (res_event_id r))
                      (events db) with
       | Some e => [e]
       | None => []
       end)
    rs.

Section Summary.

(** Python's [int(text)] ([None]: [ValueError]). *)
Variable py_int : string -> option Z.

Definition activity_summary (db : Database) (user : string)
  : ActivitySummary :=
  let reservations := reservations_of db user in
  let attended := events_of db reservations in
  {| total_events :=
       List.length
         (nodup string_dec
            (filter (fun e => negb (String.eqb e ""))
                    (map res_event_id reservations)));
     total_reservations := List.length reservations;
     total_checkins := List.length (checkins_of db user);
     categories_explored := nodup string_dec (map event_category attended);
     preferred_times :=
       fold_left
         (fun acc e =>
            if String.eqb (event_time e) "" then acc
            else
              match py_int (nth 0 (Str.split (event_time e) ":") "") with
              | Some hour => tally_add acc (time_slot hour)
              | None => acc
              end)
         attended [];
     preferred_locations :=
       fold_left
         (fun acc e =>
            if String.eqb (event_location e) "" then acc
            else tally_add acc (event_location e))
         attended [] |}.

End Summary.

Definition calculate_engagement_level (activity_summary : ActivitySummary)
  : string :=
  let total_activity :=
    total_reservations activity_summary + total_checkins activity_summary in
  let categories_count :=
    List.length (categories_explored activity_summary) in
  if Nat.leb 10 total_activity && Nat.leb 4 categories_count then "high"
  else if Nat.leb 5 total_activity && Nat.leb 2 categories_count then "medium"
  else if Nat.leb 1 total_activity then "low"
  else "new".

End Engagement.

(* ================================================================== *)
(** * services/interest_detection_service.py: [get_similar_users] *)

Module SimilarUsers.
Import Mongo InterestDetection.

(** One entry of the list [get_similar_users] returns. *)
Record Similar : Type := {
  sim_user_id : string;
  sim_name : string;
  similarity_score : float;
  common_interests : list string
}.

(** The categories of [primary_interests] in the analysis of a user. *)
Definition primary_categories (db : Database) (now : Datetime.datetime)
    (user : string) : list string :=
  map fst (most_common (interest_scores db now user) 3).

(** Sets of categories, as lists without repetition (Python fixes no
    order for them). *)
Definition intersection (a b : list string) : list string :=
  nodup string_dec (filter (fun x => existsb (String.eqb x) b) a).

Definition union (a b : list string) : list string :=
  nodup string_dec (a ++ b).

Section Similarity.

(** Python's [round(x, 3)]. *)
Variable round3 : float -> float.

(** The body of the loop over the other users: the entry it appends,
    if any. *)
Definition compare_with (db : Database) (now : Datetime.datetime)
    (user_categories : list string) (other_user : User) : option Similar :=
  let other_categories := primary_categories db now (user_id other_user) in
  let common := intersection user_categories other_categories in
  let all := union user_categories other_categories in
  match all with
  | [] => None
  | _ =>
      let similarity :=
        (Py.float_of_nat (List.length common)
         / Py.float_of_nat (List.length all))%float in
      if (0.3 <? similarity)%float
      then Some {| sim_user_id := user_id other_user;
                   sim_name := user_name other_user;
                   similarity_score := round3 similarity;
                   common_interests := common |}
      else None
  end.

Definition get_similar_users (db : Database) (now : Datetime.datetime)
    (user : string) (limit : nat) : list Similar :=
  match nodup string_dec (primary_categories db now user) with
  | [] => []
  | user_categories =>
      let all_users :=
        find (fun u => negb (String.eqb (user_id u) user)
                       && ne_true (user_deleted u))
             (users db) in
      let similar_users :=
        flat_map
          (fun other_user =>
             match compare_with db now user_categories other_user with
             | Some entry => [entry]
             | None => []
             end)
          all_users in
      firstn limit
        (sort_by (fun y x => (similarity_score x <? similarity_score y)%float)
                 similar_users)
  end.

End Similarity.

End SimilarUsers.

(* ================================================================== *)
(** * The clock *)

Module Clock.
Import Datetime.
Local Open Scope Z_scope.

(** A value [datetime.utcnow()] can return: a date that exists, a time of
    day, and no [tzinfo]. *)
Definition naive_instant (dt : datetime) : Prop :=
  valid_date (year (on dt)) (month (on dt)) (day (on dt)) = true
  /\ 0 <= hour dt < 24
  /\ 0 <= minute dt < 60
  /\ 0 <= second dt < 60
  /\ 0 <= microsecond dt < 1000000
  /\ tzinfo dt = None.

End Clock.

(* ================================================================== *)
(** * Invariants of the store across the writing handlers *)

Module Invariants.
Import Mongo EventService Operations.

(** No event holds more active reservations than its capacity. *)
Definition within_capacity (db : Database) : Prop :=
  forall event_id event,
    get_event_by_id db event_id = Some event ->
    (count_documents (active_for event_id) (reservations db)
     <= event_capacity (doc event))%Z.

(** Every active reservation refers to an event of the store. *)
Definition referenced (db : Database) : Prop :=
  forall r,
    In r (reservations db) -> active r = true ->
    exists e, In e (events db) /\ event_id e = res_event_id r.

(** A write of a handler, or the deletion of an event. *)
Inductive Request : Type :=
| Write (op : Operation)
| DeleteEvent (event_id : string).

(** The request is no declined invitation with an id that is not a
    text. *)
Definition addressed_by_text (req : Request) : Prop :=
  match req with
  | Write op => by_text_id op
  | DeleteEvent _ => True
  end.

Section Perform.
Variable generate_qr_code : string -> string.
Variable regex_i : string -> option (string -> bool).
Variable other_filters : Json -> option (option string -> bool).

Definition perform (req : Request) (db : Database) : Database :=
  match req with
  | Write op => apply generate_qr_code regex_i other_filters op db
  | DeleteEvent event_id => fst (EventAdmin.delete_event db event_id)
  end.

(** The store after a sequence of writes, the first of the list first. *)
Definition history (ops : list Operation) (db : Database) : Database :=
  fold_left (fun d op => apply generate_qr_code regex_i other_filters op d)
            ops db.

End Perform.

End Invariants.

(* ================================================================== *)
(** * Concrete inputs used by the examples below *)

Module Samples.
Import Mongo.

(** A user with [r] reservations and no other activity. *)
Definition visitor (id : string) (r : float) : Segmentation.UserFeatures :=
  {| Segmentation.user_id := id;
     Segmentation.age := 25;
     Segmentation.days_since_registration := 30;
     Segmentation.total_events := 0;
     Segmentation.unique_sessions := 0;
     Segmentation.page_views := 0;
     Segmentation.event_bookings := 0;
     Segmentation.checkins := 0;
     Segmentation.days_active := 0;
     Segmentation.avg_events_per_day := 0;
     Segmentation.prefers_morning := 0;
     Segmentation.prefers_afternoon := 0;
     Segmentation.prefers_evening := 0;
     Segmentation.total_reservations := r;
     Segmentation.confirmed_reservations := r;
     Segmentation.checked_in_reservations := 0;
     Segmentation.cancelled_reservations := 0;
     Segmentation.checkin_rate := 0;
     Segmentation.cancellation_rate := 0;
     Segmentation.prefers_dominican_cinema := 0;
     Segmentation.prefers_classic_cinema := 0;
     Segmentation.prefers_general_cinema := 0;
     Segmentation.prefers_workshops := 0;
     Segmentation.prefers_concerts := 0;
     Segmentation.prefers_talks_conferences := 0;
     Segmentation.prefers_art_exhibitions := 0;
     Segmentation.prefers_3d_immersive_experiences := 0 |}.

Definition three_visitors : list Segmentation.UserFeatures :=
  [visitor "u1" 1; visitor "u2" 2; visitor "u3" 3].

Definition five_visitors : list Segmentation.UserFeatures :=
  [visitor "u1" 1; visitor "u2" 2; visitor "u3" 3; visitor "u4" 4;
   visitor "u5" 5].

(** Statistics of a cluster of occasional visitors who browse a lot. *)
Definition browsing : Segmentation.Characteristics :=
  {| Segmentation.size := 2;
     Segmentation.percentage := 40;
     Segmentation.avg_age := 25;
     Segmentation.avg_reservations := 1;
     Segmentation.avg_checkin_rate := 0.5;
     Segmentation.avg_events_per_day_ := 2;
     Segmentation.avg_days_since_registration := 20;
     Segmentation.cluster_id := None |}.

Definition browsing_data : Pandas.DataFrame :=
  [ ("user_id", Pandas.StrCol ["u1"; "u2"]);
    ("page_views", Pandas.NumCol [10; 6]%float);
    ("total_reservations", Pandas.NumCol [1; 1]%float) ].

(** Stand-ins for scikit-learn that give every row the label 0. *)
Definition identity_scaler (X : Segmentation.Matrix) : Segmentation.Matrix := X.
Definition identity_pca (n : nat) (X : Segmentation.Matrix)
  : Segmentation.Matrix := X.
Definition one_cluster (k : nat) (X : Segmentation.Matrix) : list nat :=
  repeat 0 (List.length (nth 0 X [])).
Definition no_silhouette (X : Segmentation.Matrix) (labels : list nat)
  : option float := None.

(** The store: three users, one published concert with a single seat. *)
Definition noon : Datetime.datetime :=
  {| Datetime.on := {| Datetime.year := 2024; Datetime.month := 6;
                       Datetime.day := 15 |};
     Datetime.hour := 12; Datetime.minute := 0; Datetime.second := 0;
     Datetime.microsecond := 0; Datetime.tzinfo := None |}.

Definition member (id email name : string) : User :=
  {| user_id := id; user_email := email; user_name := name;
     user_is_admin := None; user_deleted := None; user_center := None |}.

Definition alice : User := member "u1" "alice@example.com" "Alice".
Definition bob : User := member "u2" "bob@example.com" "Bob".
Definition staff : User :=
  {| user_id := "adm"; user_email := "staff@example.com"; user_name := "Staff";
     user_is_admin := Some true; user_deleted := None; user_center := None |}.

Definition show (id title category date : string) : Event :=
  {| event_id := id; event_title := title; event_category := category;
     event_date := date; event_time := "19:00"; event_location := "Sala A";
     event_capacity := 1; event_published := Some true;
     event_center := Some "santo-domingo" |}.

Definition concert : Event := show "e1" "Concierto" "Conciertos" "2024-06-20".
Definition last_year : Event := show "e0" "Taller" "Talleres" "2023-06-20".

Definition booking (id code user event status : string) : Reservation :=
  {| res_id := id; res_event_id := event; res_user_id := user;
     res_status := status; res_qr_code := ""; res_checkin_code := code;
     res_created_at := "2024-06-01T09:00:00"; res_notes := None;
     res_user_email := None; res_checked_in_at := None;
     res_checked_in_by := None; res_cancelled_at := None;
     res_decline_reason := None; res_declined_at := None;
     res_updated_at := None |}.

(** A reservation that carries the address of its invitation, which no
    handler writes. *)
Definition invited (id user event status email : string) : Reservation :=
  {| res_id := id; res_event_id := event; res_user_id := user;
     res_status := status; res_qr_code := ""; res_checkin_code := "IJ90KL12";
     res_created_at := "2024-06-01T09:00:00"; res_notes := None;
     res_user_email := Some email; res_checked_in_at := None;
     res_checked_in_by := None; res_cancelled_at := None;
     res_decline_reason := None; res_declined_at := None;
     res_updated_at := None |}.

Definition store (rs : list Reservation) : Database :=
  {| users := [alice; bob; staff]; events := [last_year; concert];
     reservations := rs; checkins := [] |}.

Definition qr_image (text : string) : string := "png:" ++ text.
Definition no_regex (pattern : string) : option (string -> bool) := None.
Definition no_operators (value : Json) : option (option string -> bool) :=
  None.

(** Decline tokens: one as the mail service would ask for it, and one
    whose id and address are operator documents. *)
Definition invitation (id email : Json) : Invitations.Payload :=
  {| Invitations.invitation_type := JString "event_invitation";
     Invitations.invitation_id := id;
     Invitations.user_email := email;
     Invitations.event_id := JString "e1" |}.

Definition not_empty : Json := JObject [("$ne", JString "")].

Definition mailed : Invitations.Payload :=
  invitation (JString "r1") (JString "alice@example.com").
Definition forged : Invitations.Payload := invitation not_empty not_empty.
Definition first_letters (i : nat) : nat := i.
Definition request (event : string) : Reservations.ReservationCreate :=
  {| Reservations.rc_event_id := event; Reservations.rc_notes := None |}.

(** Two members asking for the concert's only seat at the same time. *)
Definition asks (id : string) (who : User) : Interleaving.Request :=
  {| Interleaving.now := noon;
     Interleaving.reservation_id := id;
     Interleaving.draw := first_letters;
     Interleaving.reservation_data := request "e1";
     Interleaving.current_user := who |}.

Definition concert_view : EventService.EventView :=
  {| EventService.doc := concert; EventService.available_spots := 1 |}.

Definition concert_day : Datetime.date :=
  {| Datetime.year := 2024; Datetime.month := 6; Datetime.day := 20 |}.

(** Interest scores of a user, and stand-ins for [round] and [int]. *)
Definition tastes : InterestDetection.Counter :=
  [("Talleres", 3.0%float); ("Conciertos", 9.5%float)].

Definition keep (x : float) : float := x.
Definition hour_of (text : string) : option Z := Str.number (Str.chars text).

(** An event whose date was entered without leading zeros, and a day
    after it. *)
Definition mid_october : Datetime.datetime :=
  {| Datetime.on := {| Datetime.year := 2024; Datetime.month := 10;
                       Datetime.day := 15 |};
     Datetime.hour := 12; Datetime.minute := 0; Datetime.second := 0;
     Datetime.microsecond := 0; Datetime.tzinfo := None |}.

Definition september : Database :=
  {| users := [alice];
     events := [ show "e5" "Concierto" "Conciertos" "2024-9-1" ];
     reservations := [];
     checkins := [] |}.

Definition festival : Database :=
  {| users := [alice];
     events := [ show "e1" "Concierto" "Conciertos" "2024-06-20";
                 show "e2" "Taller" "Talleres" "2024-06-18";
                 show "e3" "Cine" "Cine General" "2024-06-19";
                 show "e0" "Taller" "Talleres" "2023-06-20" ];
     reservations := [];
     checkins := [] |}.

End Samples.

(* ================================================================== *)
(** * Properties *)

(** ** Segmentation *)

Section SegmentationFacts.
Import Pandas Segmentation.

Lemma len_extract (ufs : list UserFeatures) :
  len (extract_user_features ufs) = List.length ufs.
Proof.
  destruct ufs as [|u rest]; [reflexivity|].
  cbn [extract_user_features len col_len]. now rewrite length_map.
Qed.

Lemma empty_extract (ufs : list UserFeatures) :
  empty (extract_user_features ufs) = Nat.eqb (List.length ufs) 0.
Proof.
  destruct ufs as [|u rest]; [reflexivity|].
  unfold empty. rewrite len_extract. reflexivity.
Qed.

Lemma lookup_set_col (df : DataFrame) (name : string) (c : column) :
  lookup (set_col df name c) name = Some c.
Proof.
  induction df as [|[n c0] rest IH]; cbn.
  - now rewrite String.eqb_refl.
  - destruct (String.eqb n name) eqn:E; cbn; rewrite E; auto.
Qed.

End SegmentationFacts.

Section TrainingFacts.
Import Pandas Segmentation.
Variable scaler_fit_transform : Matrix -> Matrix.
Variable pca_fit_transform : nat -> Matrix -> Matrix.
Variable kmeans_labels : nat -> Matrix -> list nat.
Variable sk_silhouette_score : Matrix -> list nat -> option float.

Lemma feature_columns_extract (u : UserFeatures) (rest : list UserFeatures) :
  filter (fun nc : string * column => negb (String.eqb (fst nc) "user_id"))
         (extract_user_features (u :: rest))
  = map (fun ng => (fst ng, NumCol (fillna0 (map (snd ng) (u :: rest)))))
        feature_getters.
Proof. reflexivity. Qed.

Lemma feature_matrix_extract (ufs : list UserFeatures) :
  feature_matrix
    (map (fun ng : string * (UserFeatures -> float) =>
            (fst ng, NumCol (fillna0 (map (snd ng) ufs))))
         feature_getters)
  = Py.Return (extracted_matrix ufs).
Proof. reflexivity. Qed.

Lemma train_small (ufs : list UserFeatures) :
  1 <= List.length ufs < 5 ->
  train_segmentation_model scaler_fit_transform pca_fit_transform
    kmeans_labels sk_silhouette_score (extract_user_features ufs)
  = Py.Return (_simple_statistical_segmentation (extract_user_features ufs)).
Proof.
  intros H. unfold train_segmentation_model.
  rewrite empty_extract, len_extract.
  destruct (Nat.eqb_spec (List.length ufs) 0) as [E|_]; [lia|].
  destruct (Nat.ltb_spec (List.length ufs) min_users_for_ml) as [_|L].
  - reflexivity.
  - unfold min_users_for_ml in L. lia.
Qed.

Lemma train_large (ufs : list UserFeatures) :
  5 <= List.length ufs ->
  let n := List.length ufs in
  let components := Nat.max 1 (Nat.min 3 (Nat.min 26 (n - 1))) in
  let k := Nat.max 2 (Nat.min 5 (Nat.sqrt n)) in
  let X_pca := pca_fit_transform components
                 (scaler_fit_transform (extracted_matrix ufs)) in
  let labels := kmeans_labels k X_pca in
  exists df' results,
    train_segmentation_model scaler_fit_transform pca_fit_transform
      kmeans_labels sk_silhouette_score (extract_user_features ufs)
    = Py.Return (df', true, results)
    /\ lookup df' "cluster" = Some (NumCol (map Py.float_of_nat labels))
    /\ model_type results = "ml_clustering"
    /\ num_features results = Some 26
    /\ pca_components results = Some components
    /\ optimal_clusters results = Some k.
Proof.
  intros H n components k X_pca labels.
  unfold train_segmentation_model.
  rewrite empty_extract, len_extract.
  destruct (Nat.eqb_spec (List.length ufs) 0) as [E|_]; [lia|].
  destruct (Nat.ltb_spec (List.length ufs) min_users_for_ml) as [L|_];
    [unfold min_users_for_ml in L; lia|].
  destruct ufs as [|u rest]; [cbn in H; lia|].
  rewrite feature_columns_extract, length_map.
  change (List.length feature_getters) with 26.
  cbn [Nat.eqb]. rewrite feature_matrix_extract. cbn [Py.bind].
  assert (Hc : (if Nat.ltb (Nat.min 3 (Nat.min 26 (List.length (u :: rest) - 1))) 1
                then 1
                else Nat.min 3 (Nat.min 26 (List.length (u :: rest) - 1)))
               = components).
  { subst components n. cbn [List.length] in *.
    destruct (Nat.ltb_spec (Nat.min 3 (Nat.min 26 (S (List.length rest) - 1))) 1);
      lia. }
  rewrite Hc.
  eexists _, _. split; [reflexivity|].
  split; [apply lookup_set_col|]. repeat split.
Qed.

(** C3 (as amended).  [train_segmentation_model] branches on the number of
    users of the extracted feature set: with no user it raises
    [ValueError]; with 1 to 4 users it returns the result of
    [_simple_statistical_segmentation], whose [model_type] is
    ['statistical_segmentation']; with 5 users or more it scales the 26
    feature columns, applies PCA with [max(1, min(3, 26, n - 1))]
    components, runs KMeans with [max(2, min(5, floor(sqrt(n))))] clusters
    on the projected matrix, stores the labels in the column [cluster] and
    returns a result with [model_type] ['ml_clustering']. *)
Theorem train_segmentation_model_branches (ufs : list UserFeatures) :
  let df := extract_user_features ufs in
  let train := train_segmentation_model scaler_fit_transform pca_fit_transform
                 kmeans_labels sk_silhouette_score in
  match List.length ufs with
  | 0 => train df = Py.Raise (Py.ValueError "No user data available for training")
  | 1 | 2 | 3 | 4 =>
      train df = Py.Return (_simple_statistical_segmentation df)
      /\ model_type (snd (_simple_statistical_segmentation df))
         = "statistical_segmentation"
  | n =>
      let components := Nat.max 1 (Nat.min 3 (Nat.min 26 (n - 1))) in
      let k := Nat.max 2 (Nat.min 5 (Nat.sqrt n)) in
      let labels :=
        kmeans_labels k
          (pca_fit_transform components
             (scaler_fit_transform (extracted_matrix ufs))) in
      exists df' results,
        train df = Py.Return (df', true, results)
        /\ lookup df' "cluster" = Some (NumCol (map Py.float_of_nat labels))
        /\ model_type results = "ml_clustering"
        /\ num_features results = Some 26
        /\ pca_components results = Some components
        /\ optimal_clusters results = Some k
  end.
Proof.
  intros df train.
  destruct ufs as [|u1 [|u2 [|u3 [|u4 [|u5 rest]]]]];
    cbn [List.length];
    try (split; [apply train_small; cbn [List.length]; lia | reflexivity]).
  - reflexivity.
  - apply (train_large (u1 :: u2 :: u3 :: u4 :: u5 :: rest)).
    cbn [List.length]. lia.
Qed.

End TrainingFacts.

(** C3 as stated fails for a feature set with no user: the function raises
    instead of returning the statistical result. *)
Lemma train_segmentation_model_no_users :
  ~ (forall ufs : list Segmentation.UserFeatures,
        List.length ufs < 5 ->
        exists r,
          Segmentation.train_segmentation_model Samples.identity_scaler
            Samples.identity_pca Samples.one_cluster Samples.no_silhouette
            (Segmentation.extract_user_features ufs) = Py.Return r
          /\ Segmentation.model_type (snd r) = "statistical_segmentation").
Proof.
  intros H. destruct (H [] ltac:(cbn; lia)) as [r [E _]]. discriminate E.
Qed.

Section ClusterNames.
Import Pandas Segmentation.

(** C4.  [_determine_cluster_name] is a cascade of rules, earlier rules
    taking precedence: 'VIP Members' if avg_reservations > 3 and
    avg_checkin_rate > 0.8; else 'Regular Attendees' if avg_reservations > 1
    and avg_checkin_rate > 0.6; else 'New Users' if
    avg_days_since_registration < 7; else 'Browsers' if the mean of
    page_views exceeds 3 times the mean of total_reservations; else
    'At Risk' if avg_days_since_registration > 30 and avg_events_per_day <
    0.1; else 'Segment ' followed by the cluster id of the statistics (0
    when they carry none).  The cluster's rows must have the two numeric
    columns the fourth rule reads. *)
Theorem determine_cluster_name_cascade (ch : Characteristics)
    (cluster_data : DataFrame) (pv tr : Series) :
  num_col cluster_data "page_views" = Some pv ->
  num_col cluster_data "total_reservations" = Some tr ->
  let vip := (3 <? avg_reservations ch)%float
             && (0.8 <? avg_checkin_rate ch)%float in
  let regular := (1 <? avg_reservations ch)%float
                 && (0.6 <? avg_checkin_rate ch)%float in
  let new_users := (avg_days_since_registration ch <? 7)%float in
  let browsers := (mean tr * 3 <? mean pv)%float in
  let at_risk := (30 <? avg_days_since_registration ch)%float
                 && (avg_events_per_day_ ch <? 0.1)%float in
  let name := _determine_cluster_name ch cluster_data in
  (vip = true -> name = "VIP Members")
  /\ (vip = false -> regular = true -> name = "Regular Attendees")
  /\ (vip = false -> regular = false -> new_users = true ->
      name = "New Users")
  /\ (vip = false -> regular = false -> new_users = false ->
      browsers = true -> name = "Browsers")
  /\ (vip = false -> regular = false -> new_users = false ->
      browsers = false -> at_risk = true -> name = "At Risk")
  /\ (vip = false -> regular = false -> new_users = false ->
      browsers = false -> at_risk = false ->
      name = "Segment " ++ Py.str_of_Z (match cluster_id ch with
                                        | Some c => c
                                        | None => 0%Z
                                        end)).
Proof.
  intros Hpv Htr vip regular new_users browsers at_risk name.
  subst name. unfold _determine_cluster_name. rewrite Hpv, Htr.
  fold vip regular new_users browsers at_risk.
  destruct vip, regular, new_users, browsers, at_risk;
    repeat split; intros; try discriminate; reflexivity.
Qed.

Lemma determine_cluster_name_cascade_witness :
  num_col Samples.browsing_data "page_views" = Some [10; 6]%float
  /\ num_col Samples.browsing_data "total_reservations" = Some [1; 1]%float
  /\ _determine_cluster_name Samples.browsing Samples.browsing_data
     = "Browsers".
Proof.
  split; [reflexivity|]. split; [reflexivity|].
  apply (determine_cluster_name_cascade Samples.browsing Samples.browsing_data
           [10; 6]%float [1; 1]%float eq_refl eq_refl);
    reflexivity.
Defined.

(** Without the columns the fourth rule raises and the name is the
    fallback of the exception handler. *)
Lemma determine_cluster_name_missing_column (ch : Characteristics)
    (cluster_data : DataFrame) :
  (3 <? avg_reservations ch)%float && (0.8 <? avg_checkin_rate ch)%float
  = false ->
  (1 <? avg_reservations ch)%float && (0.6 <? avg_checkin_rate ch)%float
  = false ->
  (avg_days_since_registration ch <? 7)%float = false ->
  num_col cluster_data "page_views" = None ->
  _determine_cluster_name ch cluster_data = "Unknown Segment".
Proof.
  intros H1 H2 H3 Hpv. unfold _determine_cluster_name.
  now rewrite H1, H2, H3, Hpv.
Qed.

(** Where the program calls it: the statistics [_analyze_clusters] passes
    carry no cluster id yet, and the rows it passes are rows of an
    extracted frame, which has both columns. *)
Lemma characteristics_of_no_id (df : DataFrame) (clusters : list nat) (c : nat)
    (ch : Characteristics) :
  characteristics_of df clusters c = Some ch -> cluster_id ch = None.
Proof.
  unfold characteristics_of.
  set (cluster_data := select_rows (cluster_mask clusters c) df).
  destruct (num_col cluster_data "age"),
    (num_col cluster_data "total_reservations"),
    (num_col cluster_data "checkin_rate"),
    (num_col cluster_data "avg_events_per_day"),
    (num_col cluster_data "days_since_registration"); try discriminate.
  intros H. injection H as <-. reflexivity.
Qed.

Lemma cluster_rows_columns (u : UserFeatures) (rest : list UserFeatures)
    (labels : list nat) (mask : list bool) :
  let df := set_col (extract_user_features (u :: rest)) "cluster"
              (NumCol (map Py.float_of_nat labels)) in
  num_col (select_rows mask df) "page_views"
  = Some (select mask (fillna0 (map page_views (u :: rest))))
  /\ num_col (select_rows mask df) "total_reservations"
     = Some (select mask (fillna0 (map total_reservations (u :: rest)))).
Proof. split; reflexivity. Qed.

(** C5, at a frame of three users as [extract_user_features] builds it.
    The frame has no column [total_events_attended]; the default
    [pd.Series([0])] has the single label 0, so the sum is NaN for every
    user but the first, both percentiles are NaN and every user lands in
    cluster 2. *)
Theorem statistical_segmentation_missing_attendance :
  let df := extract_user_features Samples.three_visitors in
  let after := fst (fst (_simple_statistical_segmentation df)) in
  let results := snd (_simple_statistical_segmentation df) in
  lookup df "total_events_attended" = None
  /\ num_col df "total_reservations" = Some [1; 2; 3]%float
  /\ num_col after "engagement_score" = Some [0.4; nan; nan]%float
  /\ num_col after "cluster" = Some [2; 2; 2]%float
  /\ model_type results = "statistical_segmentation"
  /\ silhouette_score results = (-1)%float.
Proof. vm_compute. repeat split. Qed.

(** With the column present the scores and the buckets are the ones C5
    describes. *)
Lemma statistical_segmentation_with_attendance :
  let df := set_col (extract_user_features Samples.three_visitors)
              "total_events_attended" (NumCol [0; 0; 0]%float) in
  let after := fst (fst (_simple_statistical_segmentation df)) in
  num_col after "engagement_score"
  = Some [0.4 * 1 + 0.6 * 0; 0.4 * 2 + 0.6 * 0; 0.4 * 3 + 0.6 * 0]%float
  /\ num_col after "cluster" = Some [0; 1; 2]%float.
Proof. vm_compute. repeat split. Qed.

End ClusterNames.

(** ** Reservation codes *)

Section Codes.
Import QrCodes Validation.

Lemma chars_of_chars (l : list ascii) : Str.chars (Str.of_chars l) = l.
Proof. apply list_ascii_of_string_of_list_ascii. Qed.

Lemma length_of_chars (l : list ascii) :
  String.length (Str.of_chars l) = List.length l.
Proof. unfold Str.of_chars. induction l; cbn; congruence. Qed.

Lemma choices_length (population : list ascii) (k : nat) (draw : nat -> nat) :
  List.length (choices population k draw) = k.
Proof. unfold choices. now rewrite length_map, length_seq. Qed.

Lemma choices_from (population : list ascii) (k : nat) (draw : nat -> nat)
    (p : ascii -> bool) :
  population <> [] ->
  forallb p population = true ->
  forallb p (choices population k draw) = true.
Proof.
  intros Hne Hall. unfold choices. rewrite forallb_forall in *.
  intros c Hc. apply in_map_iff in Hc as [i [<- _]].
  apply Hall, nth_In, Nat.mod_upper_bound.
  destruct population; [congruence | discriminate].
Qed.

Lemma upper_code_char (c : ascii) :
  is_code_char c = true -> Str.upper_char c = c.
Proof.
  unfold is_code_char, Str.upper_char, Str.is_upper, Str.is_digit, Str.is_lower.
  intros H.
  destruct (Nat.leb_spec 97 (Str.code c)); [|reflexivity].
  apply orb_true_iff in H as [H|H]; apply andb_true_iff in H as [_ H];
    apply Nat.leb_le in H; lia.
Qed.

Lemma upper_code (l : list ascii) :
  forallb is_code_char l = true -> map Str.upper_char l = l.
Proof.
  induction l as [|c l IH]; cbn; [reflexivity|].
  intros H. apply andb_true_iff in H as [Hc Hl].
  now rewrite upper_code_char, IH.
Qed.

(** C9.  A generated code has exactly 8 characters, each an uppercase
    letter or a digit; it passes [validate_reservation_code], and the
    [reservation_code] path of [check_in_user] goes on to look it up
    instead of answering 'Invalid reservation code format'. *)
Theorem generate_reservation_code_valid (draw : nat -> nat) :
  let code := generate_reservation_code draw in
  String.length code = 8
  /\ Forall (fun c => Str.is_upper c = true \/ Str.is_digit c = true)
            (Str.chars code)
  /\ validate_reservation_code code = true
  /\ forall regex_i db event,
       Checkin.lookup_reservation regex_i db
         {| Checkin.method := "reservation_code"; Checkin.value := code;
            Checkin.event_id := event |}
       = Checkin.Found
           (Mongo.find_one
              (fun r => String.eqb (Mongo.res_checkin_code r) code)
              (Mongo.reservations db)).
Proof.
  intros code. subst code. unfold generate_reservation_code.
  set (cs := choices (Str.chars (ascii_uppercase ++ digits)) 8 draw).
  assert (Hlen : List.length cs = 8) by apply choices_length.
  assert (Hall : forallb is_code_char cs = true).
  { apply choices_from; [discriminate | reflexivity]. }
  assert (Hvalid : validate_reservation_code (Str.of_chars cs) = true).
  { unfold validate_reservation_code. rewrite chars_of_chars.
    rewrite firstn_all2 by lia. rewrite skipn_all2 by lia.
    now rewrite Hall, Hlen. }
  split; [now rewrite length_of_chars|].
  split.
  { rewrite chars_of_chars. apply Forall_forall. intros c Hc.
    rewrite forallb_forall in Hall. specialize (Hall c Hc).
    now apply orb_true_iff in Hall. }
  split; [exact Hvalid|].
  intros regex_i db event. unfold Checkin.lookup_reservation.
  cbn [Checkin.method Checkin.value]. rewrite Hvalid.
  change (String.eqb "reservation_code" "qr_code") with false.
  change (String.eqb "reservation_code" "reservation_code") with true.
  cbn [negb]. unfold Str.upper. rewrite chars_of_chars.
  now rewrite (upper_code cs Hall).
Qed.

End Codes.

(** ** Time weights *)

Section TimeWeights.
Import InterestDetection.

Lemma time_weight_naive (now activity_dt : Datetime.datetime)
    (activity_date : string) :
  Datetime.tzinfo now = None ->
  Datetime.fromisoformat (Str.replace activity_date "Z" "+00:00")
  = Some activity_dt ->
  Datetime.tzinfo activity_dt = None ->
  calculate_time_weight now activity_date
  = let days_ago := Datetime.days_between now activity_dt in
    if (days_ago <=? 30)%Z then 1.0%float
    else if (days_ago <=? 90)%Z then 0.7%float
    else 0.4%float.
Proof.
  intros Hn Hp Ha. unfold calculate_time_weight, Datetime.sub_days.
  now rewrite Hp, Hn, Ha.
Qed.

Lemma time_weight_unparseable (now : Datetime.datetime)
    (activity_date : string) :
  Datetime.fromisoformat (Str.replace activity_date "Z" "+00:00") = None ->
  calculate_time_weight now activity_date = 0.1%float.
Proof. intros Hp. unfold calculate_time_weight. now rewrite Hp. Qed.

(** A parseable date that carries a UTC offset gets the weight of an
    unparseable one, whatever its age. *)
Lemma time_weight_aware (now activity_dt : Datetime.datetime)
    (activity_date : string) (offset : Z) :
  Datetime.tzinfo now = None ->
  Datetime.fromisoformat (Str.replace activity_date "Z" "+00:00")
  = Some activity_dt ->
  Datetime.tzinfo activity_dt = Some offset ->
  calculate_time_weight now activity_date = 0.1%float.
Proof.
  intros Hn Hp Ha. unfold calculate_time_weight, Datetime.sub_days.
  now rewrite Hp, Hn, Ha.
Qed.

(** X24 (services/interest_detection_service.py).  Among dates without a
    UTC offset the weight never grows with age: of two such dates the
    older one never weighs more. *)
Lemma time_weight_naive_monotone (now older newer : Datetime.datetime)
    (s_older s_newer : string) :
  Datetime.tzinfo now = None ->
  Datetime.fromisoformat (Str.replace s_older "Z" "+00:00") = Some older ->
  Datetime.fromisoformat (Str.replace s_newer "Z" "+00:00") = Some newer ->
  Datetime.tzinfo older = None ->
  Datetime.tzinfo newer = None ->
  (Datetime.wall_us older <= Datetime.wall_us newer)%Z ->
  (calculate_time_weight now s_older <=? calculate_time_weight now s_newer)%float
  = true.
Proof.
  intros Hn Ho Hw Hto Htn Hle.
  rewrite (time_weight_naive now older s_older Hn Ho Hto).
  rewrite (time_weight_naive now newer s_newer Hn Hw Htn).
  cbv zeta. unfold Datetime.days_between.
  assert (Hd : ((Datetime.wall_us now - Datetime.wall_us newer) / 86400000000
                <= (Datetime.wall_us now - Datetime.wall_us older) / 86400000000)%Z).
  { apply Z.div_le_mono; lia. }
  destruct (Z.leb_spec ((Datetime.wall_us now - Datetime.wall_us older)
                        / 86400000000) 30);
  destruct (Z.leb_spec ((Datetime.wall_us now - Datetime.wall_us newer)
                        / 86400000000) 30);
  destruct (Z.leb_spec ((Datetime.wall_us now - Datetime.wall_us older)
                        / 86400000000) 90);
  destruct (Z.leb_spec ((Datetime.wall_us now - Datetime.wall_us newer)
                        / 86400000000) 90);
    try lia; reflexivity.
Qed.

(** C7, at a date written with the UTC suffix.  [replace('Z', '+00:00')]
    makes the date parse as an aware value; subtracting it from the naive
    [utcnow()] raises, and the handler for invalid dates answers 0.1.  A
    one-day-old activity stamped ['...Z'] so weighs less than the same
    instant without suffix (1.0) and less than an activity of the year
    before (0.4), and the score of a reservation follows. *)
Theorem calculate_time_weight_utc_suffix :
  Datetime.fromisoformat (Str.replace "2024-06-14T12:00:00Z" "Z" "+00:00")
  = Some {| Datetime.on := {| Datetime.year := 2024; Datetime.month := 6;
                              Datetime.day := 14 |};
            Datetime.hour := 12; Datetime.minute := 0; Datetime.second := 0;
            Datetime.microsecond := 0; Datetime.tzinfo := Some 0%Z |}
  /\ calculate_time_weight Samples.noon "2024-06-14T12:00:00Z" = 0.1%float
  /\ calculate_time_weight Samples.noon "2024-06-14T12:00:00" = 1.0%float
  /\ calculate_time_weight Samples.noon "2023-06-14T12:00:00" = 0.4%float
  /\ (weight_of "reservation"
      * calculate_time_weight Samples.noon "2024-06-14T12:00:00Z"
      <? weight_of "reservation"
         * calculate_time_weight Samples.noon "2023-06-14T12:00:00")%float
     = true.
Proof. vm_compute. repeat split. Qed.

End TimeWeights.

(** ** The store *)

Section StoreFacts.
Import Mongo Operations.
Local Open Scope list_scope.

Lemma find_one_some {A} (q : A -> bool) (l : list A) (x : A) :
  find_one q l = Some x -> In x l /\ q x = true.
Proof. apply find_some. Qed.

Lemma update_one_map {A B} (g : A -> B) (q : A -> bool) (f : A -> A)
    (l : list A) :
  (forall d, g (f d) = g d) ->
  map g (fst (update_one q f l)) = map g l.
Proof.
  intros Hg. induction l as [|d l IH]; cbn; [reflexivity|].
  destruct (q d); cbn.
  - now rewrite Hg.
  - destruct (update_one q f l) as [l' n]. cbn in *. now rewrite IH.
Qed.

Lemma update_one_count {A} (q : A -> bool) (f : A -> A) (l : list A) :
  snd (update_one q f l) = 0 -> fst (update_one q f l) = l.
Proof.
  induction l as [|d l IH]; cbn; [reflexivity|].
  destruct (q d); cbn; [discriminate|].
  destruct (update_one q f l) as [l' n]. cbn in *. intros H. now rewrite IH.
Qed.

(** With unique ids, an update addressed by the id of a stored document
    changes that document and no other. *)
(** [update_one] changes the document [find_one] returns. *)
Lemma update_one_found {A} (q : A -> bool) (f : A -> A) (l : list A) (r : A) :
  find_one q l = Some r ->
  exists before after,
    l = before ++ r :: after
    /\ Forall (fun x => q x = false) before
    /\ update_one q f l = (before ++ f r :: after, 1).
Proof.
  unfold find_one. induction l as [|d l IH]; cbn [List.find update_one];
    [discriminate|].
  destruct (q d) eqn:Hq.
  - intro H. injection H as ->. exists [], l. repeat split. constructor.
  - intro H. destruct (IH H) as (before & after & -> & Hb & ->).
    exists (d :: before), after. repeat split. now constructor.
Qed.

Lemma update_one_by_id (f : Reservation -> Reservation) (l : list Reservation)
    (r : Reservation) :
  NoDup (map res_id l) -> In r l ->
  exists before after,
    l = before ++ r :: after
    /\ fst (update_one (fun x => String.eqb (res_id x) (res_id r)) f l)
       = before ++ f r :: after.
Proof.
  induction l as [|d l IH]; intros Hnd Hin; [destruct Hin|].
  cbn in Hnd. inversion Hnd as [|? ? Hnotin Hnd']; subst.
  cbn. destruct (String.eqb (res_id d) (res_id r)) eqn:E.
  - apply String.eqb_eq in E. destruct Hin as [->|Hin].
    + exists [], l. now split.
    + exfalso. apply Hnotin. rewrite E. now apply in_map.
  - destruct Hin as [->|Hin]; [now rewrite String.eqb_refl in E|].
    destruct (IH Hnd' Hin) as [before [after [-> Hup]]].
    exists (d :: before), after. split; [reflexivity|].
    destruct (update_one _ f (before ++ r :: after)) as [l' n].
    cbn in *. now rewrite Hup.
Qed.

Lemma pairs_after_update (f : Reservation -> Reservation)
    (l : list Reservation) (r : Reservation) :
  NoDup (map res_id l) -> In r l ->
  active r = true -> active (f r) = true -> pair_of (f r) = pair_of r ->
  map pair_of
      (filter active
         (fst (update_one (fun x => String.eqb (res_id x) (res_id r)) f l)))
  = map pair_of (filter active l).
Proof.
  intros Hnd Hin Ha Hfa Hp.
  destruct (update_one_by_id f l r Hnd Hin) as [before [after [-> ->]]].
  rewrite !filter_app. cbn. rewrite Ha, Hfa.
  rewrite !map_app. cbn. now rewrite Hp.
Qed.

Lemma NoDup_map_filter {A B} (g : A -> B) (p : A -> bool) (l : list A) :
  NoDup (map g l) -> NoDup (map g (filter p l)).
Proof.
  induction l as [|d l IH]; cbn; intros H; [constructor|].
  inversion H as [|? ? Hnotin Hnd]; subst.
  destruct (p d); cbn; [constructor|]; auto.
  intros Hin. apply Hnotin. apply in_map_iff in Hin as [x [Hx Hin]].
  apply filter_In in Hin as [Hin _]. rewrite <- Hx. now apply in_map.
Qed.

(** Cancelling the addressed document can only shrink the list of active
    pairs. *)
Lemma pairs_after_cancel (q : Reservation -> bool) (t : string)
    (l : list Reservation) :
  NoDup (map pair_of (filter active l)) ->
  NoDup (map pair_of
           (filter active
              (fst (update_one q (Reservations.set_cancelled t) l)))).
Proof.
  induction l as [|d l IH]; cbn; intros H; [constructor|].
  destruct (q d); cbn.
  - destruct (active d); cbn in H; [now inversion H | exact H].
  - destruct (update_one q (Reservations.set_cancelled t) l) as [l' n] eqn:E.
    cbn in *. destruct (active d); cbn in *; [|now apply IH].
    inversion H as [|? ? Hnotin Hnd]; subst. constructor; [|now apply IH].
    intros Hin. apply Hnotin. clear - Hin E.
    revert l' n E Hin. induction l as [|x l IHl]; cbn; intros l' n E Hin.
    + inversion E; subst. destruct Hin.
    + destruct (q x).
      * inversion E; subst. cbn in Hin.
        destruct (active x); cbn; [right|]; exact Hin.
      * destruct (update_one q (Reservations.set_cancelled t) l) as [l'' m].
        inversion E; subst. cbn in Hin.
        destruct (active x); cbn in *.
        -- destruct Hin as [Hin|Hin]; [now left | right; eapply IHl; eauto].
        -- eapply IHl; eauto.
Qed.

Lemma pairs_after_insert (l : list Reservation) (d : Reservation) :
  NoDup (map pair_of (filter active l)) ->
  find_one (Reservations.existing_query (res_event_id d) (res_user_id d)) l
  = None ->
  NoDup (map pair_of (filter active (insert_one d l))).
Proof.
  intros Hnd Hnone. unfold insert_one. rewrite filter_app, map_app.
  assert (Hfresh : ~ In (pair_of d) (map pair_of (filter active l))).
  { intros Hin. apply in_map_iff in Hin as [x [Hx Hin]].
    apply filter_In in Hin as [Hin Hact].
    pose proof (find_none _ _ Hnone x Hin) as Hq.
    unfold Reservations.existing_query in Hq. unfold pair_of in Hx.
    injection Hx as Hu He. unfold active in Hact.
    rewrite He, Hu, !String.eqb_refl, Hact in Hq. discriminate Hq. }
  cbn. destruct (active d); cbn.
  - clear Hnone. induction (map pair_of (filter active l)) as [|p ps IH]; cbn.
    + constructor; [intros []|constructor].
    + inversion Hnd as [|? ? Hp Hps]; subst. constructor.
      * rewrite in_app_iff. intros [H|[H|[]]]; [now apply Hp|].
        apply Hfresh. left. now symmetry.
      * apply IH; [exact Hps|]. intros H. apply Hfresh. now right.
  - now rewrite app_nil_r.
Qed.

Lemma ids_after_insert (l : list Reservation) (d : Reservation) :
  NoDup (map res_id l) -> ~ In (res_id d) (map res_id l) ->
  NoDup (map res_id (insert_one d l)).
Proof.
  intros Hnd Hfresh. unfold insert_one. rewrite map_app. cbn.
  induction (map res_id l) as [|i ids IH]; cbn.
  - constructor; [intros []|constructor].
  - inversion Hnd as [|? ? Hi Hids]; subst. constructor.
    + rewrite in_app_iff. intros [H|[H|[]]]; [now apply Hi|].
      apply Hfresh. left. now symmetry.
    + apply IH; [exact Hids|]. intros H. apply Hfresh. now right.
Qed.

Lemma active_after_cleanup (q : Reservation -> bool) (l : list Reservation) :
  (forall r, q r = true -> active r = false) ->
  filter active (fst (delete_many q l)) = filter active l.
Proof.
  intros Hq. unfold delete_many. cbn. induction l as [|d l IH]; cbn;
    [reflexivity|].
  destruct (q d) eqn:E; cbn.
  - now rewrite (Hq d E).
  - now rewrite IH.
Qed.

End StoreFacts.

Section HandlerFacts.
Import Mongo Operations.
Local Open Scope list_scope.
Variable generate_qr_code : string -> string.
Variable regex_i : string -> option (string -> bool).

(** What [create_reservation] does to the store: nothing when it raises,
    one appended confirmed reservation when it returns. *)
Lemma create_reservation_effect (db : Database) (now : Datetime.datetime)
    (id : string) (draw : nat -> nat)
    (data : Reservations.ReservationCreate) (user : User) :
  let out := Reservations.create_reservation generate_qr_code db now id draw
               data user in
  (fst out = db /\ exists e, snd out = Py.Raise e)
  \/ (exists d,
        snd out = Py.Return
                    {| Reservations.message := "Reservation created successfully";
                       Reservations.data := Some d |}
        /\ fst out = with_reservations db (reservations db ++ [d])
        /\ res_id d = id
        /\ res_status d = "confirmed"%string
        /\ res_user_id d = user_id user
        /\ res_event_id d = Reservations.rc_event_id data
        /\ find_one (Reservations.existing_query
                       (Reservations.rc_event_id data) (user_id user))
                    (reservations db) = None).
Proof.
  unfold Reservations.create_reservation.
  destruct (EventService.get_event_by_id db (Reservations.rc_event_id data))
    as [event|]; [|left; cbn; eauto].
  destruct (negb _); [left; cbn; eauto|].
  destruct (Datetime.strptime_ymd _) as [day|]; [|left; cbn; eauto].
  destruct (Datetime.date_ltb _ _); [left; cbn; eauto|].
  destruct (find_one _ _) eqn:Hfind; [left; cbn; eauto|].
  destruct (Z.leb _ _); [left; cbn; eauto|].
  right. eexists. cbn. repeat split; reflexivity.
Qed.

(** A reservation the first part of [check_in_user] finds is a stored one. *)
Lemma pick_found (rs : list Reservation) (event : option string)
    (none_found : string) (r : Reservation) :
  Checkin.pick rs event none_found = Checkin.Found (Some r) -> In r rs.
Proof.
  unfold Checkin.pick. destruct rs as [|x rest]; [discriminate|].
  destruct (_ && _); [discriminate|].
  intros H. injection H as ->. now left.
Qed.

Lemma lookup_found (db : Database) (req : Checkin.CheckInRequest)
    (r : Reservation) :
  Checkin.lookup_reservation regex_i db req = Checkin.Found (Some r) ->
  In r (reservations db).
Proof.
  unfold Checkin.lookup_reservation.
  destruct (String.eqb (Checkin.method req) "qr_code").
  { destruct (QrCodes.decode_qr_data _) as [[rid code| |]|]; try discriminate.
    intros H. injection H as H. now apply find_one_some in H. }
  destruct (String.eqb (Checkin.method req) "reservation_code").
  { destruct (negb _); [discriminate|].
    intros H. injection H as H. now apply find_one_some in H. }
  destruct (String.eqb (Checkin.method req) "email").
  { destruct (find_one _ (users db)) as [u|]; [|discriminate].
    intros H. apply pick_found in H. unfold find in H.
    now apply filter_In in H. }
  destruct (String.eqb (Checkin.method req) "name"); [|discriminate].
  destruct (regex_i _) as [matches|]; [|discriminate].
  destruct (find _ (users db)) as [|u [|u' us]]; try discriminate.
  intros H. apply pick_found in H. unfold find in H.
  now apply filter_In in H.
Qed.

(** What [check_in_user] does to the store: nothing, or the status of one
    stored reservation that was neither checked in nor cancelled becomes
    [checked_in] (and a record may be added to [checkins]). *)
Lemma check_in_user_effect (db : Database) (now : Datetime.datetime)
    (req : Checkin.CheckInRequest) (admin : User) :
  let db' := fst (Checkin.check_in_user regex_i db now req admin) in
  db' = db
  \/ exists r,
       In r (reservations db)
       /\ res_status r <> "checked_in"%string
       /\ res_status r <> "cancelled"%string
       /\ reservations db'
          = fst (update_one
                   (fun x => String.eqb (res_id x) (res_id r))
                   (Checkin.set_checked_in (Datetime.isoformat now)
                                           (user_id admin))
                   (reservations db)).
Proof.
  unfold Checkin.check_in_user, Checkin.check_in_body.
  destruct (Checkin.lookup_reservation regex_i db req) as [m|[r|]|e] eqn:Hl;
    try (left; reflexivity).
  apply lookup_found in Hl.
  destruct (String.eqb (res_status r) "checked_in") eqn:E1; [left; reflexivity|].
  destruct (String.eqb (res_status r) "cancelled") eqn:E2; [left; reflexivity|].
  destruct (Checkin.reservation_details db (res_id r)) as [|details rest];
    [left; reflexivity|].
  apply String.eqb_neq in E1, E2.
  right. exists r. repeat split; try assumption.
  destruct (update_one _ _ (reservations db)) as [rs n].
  destruct (Nat.ltb 0 n).
  - destruct (Checkin.new_CheckInResponse true "Check-in successful"
                (Some details) (Some (Datetime.isoformat now)));
      reflexivity.
  - reflexivity.
Qed.

(** The dictionary the pipeline projects has no [center], so it never
    validates as [ReservationWithDetails]. *)
Lemma details_never_validate (db : Database) (id : string) (details : Checkin.Doc) :
  In details (Checkin.reservation_details db id) ->
  Checkin.validate_details details
  = Py.Raise (Py.ValidationError "CheckInResponse" "reservation.center").
Proof.
  unfold Checkin.reservation_details. intros H.
  apply in_flat_map in H as [r [_ H]].
  apply in_flat_map in H as [e [_ H]].
  apply in_map_iff in H as [u [<- _]].
  reflexivity.
Qed.

(** X6 (api/checkin.py, models/reservations.py).  [check_in_user] never
    answers [success = True]: the response that would say so is rejected
    by its own model. *)
Lemma check_in_user_never_succeeds (db : Database) (now : Datetime.datetime)
    (req : Checkin.CheckInRequest) (admin : User) :
  Checkin.success (snd (Checkin.check_in_user regex_i db now req admin))
  = false.
Proof.
  unfold Checkin.check_in_user, Checkin.check_in_body.
  destruct (Checkin.lookup_reservation regex_i db req) as [m|[r|]|e];
    try reflexivity.
  destruct (String.eqb (res_status r) "checked_in"); [reflexivity|].
  destruct (String.eqb (res_status r) "cancelled"); [reflexivity|].
  destruct (Checkin.reservation_details db (res_id r)) as [|details rest] eqn:Hd;
    [reflexivity|].
  assert (Hv := details_never_validate db (res_id r) details).
  rewrite Hd in Hv. specialize (Hv (or_introl eq_refl)).
  destruct (update_one _ _ (reservations db)) as [rs n].
  destruct (Nat.ltb 0 n); [|reflexivity].
  unfold Checkin.new_CheckInResponse. rewrite Hv. reflexivity.
Qed.

(** [check_in_user] leaves a reservation that is checked in or cancelled
    as it is (ids being unique). *)
Lemma check_in_user_keeps_terminal (db : Database) (now : Datetime.datetime)
    (req : Checkin.CheckInRequest) (admin : User) (r : Reservation) :
  unique_ids db ->
  In r (reservations db) ->
  res_status r = "checked_in"%string \/ res_status r = "cancelled"%string ->
  In r (reservations (fst (Checkin.check_in_user regex_i db now req admin))).
Proof.
  intros Hids Hin Hterm.
  destruct (check_in_user_effect db now req admin) as [ -> |[x [Hx [H1 [H2 ->]]]]];
    [exact Hin|].
  destruct (update_one_by_id
              (Checkin.set_checked_in (Datetime.isoformat now) (user_id admin))
              (reservations db) x Hids Hx) as [before [after [Hl ->]]].
  rewrite Hl in Hin. apply in_app_iff in Hin. apply in_app_iff.
  destruct Hin as [Hin|[->|Hin]]; [now left | | right; now right].
  destruct Hterm; contradiction.
Qed.

End HandlerFacts.

Section Uniqueness.
Import Mongo Operations.
Local Open Scope list_scope.
Variable generate_qr_code : string -> string.
Variable regex_i : string -> option (string -> bool).
Variable other_filters : Json -> option (option string -> bool).

Lemma cancel_reservation_effect (db : Database) (now : Datetime.datetime)
    (id : string) (user : User) :
  let db' := fst (Reservations.cancel_reservation db now id user) in
  db' = db
  \/ exists r,
       In r (reservations db)
       /\ res_id r = id
       /\ res_status r <> "cancelled"%string
       /\ db' = with_reservations db
                  (fst (update_one (fun x => String.eqb (res_id x) id)
                          (Reservations.set_cancelled (Datetime.isoformat now))
                          (reservations db))).
Proof.
  unfold Reservations.cancel_reservation.
  destruct (find_one _ (reservations db)) as [r|] eqn:Hf; [|left; reflexivity].
  apply find_one_some in Hf as [Hin Hid]. apply String.eqb_eq in Hid.
  destruct (_ && _); [left; reflexivity|].
  destruct (String.eqb (res_status r) "cancelled") eqn:Hs; [left; reflexivity|].
  apply String.eqb_neq in Hs.
  assert (Hright :
            forall out : Database * Py.result Reservations.SuccessResponse,
              fst out = with_reservations db
                          (fst (update_one (fun x => String.eqb (res_id x) id)
                                  (Reservations.set_cancelled
                                     (Datetime.isoformat now))
                                  (reservations db))) ->
              fst out = db
              \/ exists r0,
                   In r0 (reservations db) /\ res_id r0 = id
                   /\ res_status r0 <> "cancelled"%string
                   /\ fst out = with_reservations db
                                  (fst (update_one
                                          (fun x => String.eqb (res_id x) id)
                                          (Reservations.set_cancelled
                                             (Datetime.isoformat now))
                                          (reservations db)))).
  { intros out Hout. right. exists r. now repeat split. }
  destruct (EventService.get_event_by_id db (res_event_id r)) as [event|].
  - destruct (Datetime.strptime_ymd _) as [day|]; [|left; reflexivity].
    destruct (Datetime.date_ltb _ _); [left; reflexivity|].
    apply Hright.
    destruct (update_one _ _ (reservations db)) as [rs n].
    destruct (Nat.ltb 0 n); reflexivity.
  - apply Hright.
    destruct (update_one _ _ (reservations db)) as [rs n].
    destruct (Nat.ltb 0 n); reflexivity.
Qed.

(** What [decline_invitation_via_email] does to the store, whatever the
    token: nothing, or some reservation that is confirmed or pending
    satisfies the conditions on [id] and [user_email], and the first
    document that satisfies the condition on [id] is set to declined. *)
Lemma decline_invitation_effect (db : Database) (now : Datetime.datetime)
    (payload : Invitations.Payload) (reason : option string) :
  let db' := fst (Invitations.decline_invitation_via_email other_filters db
                    now payload reason) in
  db' = db
  \/ exists by_id by_email r hit why,
       field_filter other_filters (Invitations.invitation_id payload)
       = Some by_id
       /\ field_filter other_filters (Invitations.user_email payload)
          = Some by_email
       /\ In r (reservations db)
       /\ by_id (Some (res_id r)) = true
       /\ by_email (res_user_email r) = true
       /\ (res_status r = "confirmed"%string \/ res_status r = "pending"%string)
       /\ find_one (fun x => by_id (Some (res_id x))) (reservations db)
          = Some hit
       /\ db' = with_reservations db
                  (fst (update_one
                          (fun x => by_id (Some (res_id x)))
                          (Invitations.set_declined why (Datetime.isoformat now))
                          (reservations db))).
Proof.
  unfold Invitations.decline_invitation_via_email.
  destruct (negb _); [left; reflexivity|].
  destruct (Invitations.equals_text _ "event_invitation"); [|left; reflexivity].
  destruct (field_filter other_filters (Invitations.invitation_id payload))
    as [by_id|]; [|left; reflexivity].
  destruct (field_filter other_filters (Invitations.user_email payload))
    as [by_email|]; [|left; reflexivity].
  destruct (find_one _ (reservations db)) as [r|] eqn:Hf; [|left; reflexivity].
  apply find_one_some in Hf as [Hin Hq].
  unfold Invitations.invitation_query in Hq.
  apply andb_true_iff in Hq as [Hq Hst]. apply andb_true_iff in Hq as [Hid Hem].
  assert (Hhit : exists hit,
             find_one (fun x => by_id (Some (res_id x))) (reservations db)
             = Some hit).
  { destruct (find_one (fun x => by_id (Some (res_id x))) (reservations db))
      as [hit|] eqn:Hh; [eauto|].
    pose proof (find_none _ _ Hh r Hin) as Hn. cbv beta in Hn. congruence. }
  destruct Hhit as [hit Hhit].
  right. exists by_id, by_email, r, hit.
  exists (if Invitations.truthy reason then Invitations.text reason
          else "Declined via email"%string).
  repeat (split; [first [reflexivity|assumption]|]).
  split.
  { apply orb_true_iff in Hst as [H|H]; apply String.eqb_eq in H; auto. }
  split; [exact Hhit|].
  destruct (update_one _ _ (reservations db)) as [rs n].
  rewrite Hhit.
  destruct (Nat.eqb _ 0); [reflexivity|].
  destruct (field_filter other_filters (Invitations.event_id payload));
    reflexivity.
Qed.

(** With a text id in the token, the reservation that is set to declined
    is the one that was found: it carries that id (the first one to carry
    it) and was confirmed or pending. *)
Lemma decline_by_text_id_effect (db : Database) (now : Datetime.datetime)
    (payload : Invitations.Payload) (reason : option string) :
  Invitations.is_text (Invitations.invitation_id payload) = true ->
  let db' := fst (Invitations.decline_invitation_via_email other_filters db
                    now payload reason) in
  db' = db
  \/ exists r declined,
       In r (reservations db)
       /\ (res_status r = "confirmed"%string \/ res_status r = "pending"%string)
       /\ res_status (declined r) = "declined"%string
       /\ pair_of (declined r) = pair_of r
       /\ (forall d, res_id (declined d) = res_id d)
       /\ db' = with_reservations db
                  (fst (update_one
                          (fun x => String.eqb (res_id x) (res_id r))
                          declined (reservations db))).
Proof.
  intros Htext db'. subst db'.
  destruct (decline_invitation_effect db now payload reason)
    as [H|(by_id & by_email & r & hit & why & Hby & _ & Hin & Hid & _ & Hst
           & _ & Hdb)]; [now left|].
  right. exists r, (Invitations.set_declined why (Datetime.isoformat now)).
  destruct (Invitations.invitation_id payload) as [| | | |id| |];
    try discriminate.
  cbn [field_filter] in Hby. injection Hby as <-.
  cbn [eq_field] in Hid, Hdb. apply String.eqb_eq in Hid. subst id.
  repeat (split; [first [reflexivity|assumption]|]). exact Hdb.
Qed.

(** With a text address in the token, nothing is declined on a store
    whose reservations have no [user_email]. *)
Lemma decline_by_text_email_unchanged (db : Database)
    (now : Datetime.datetime) (payload : Invitations.Payload)
    (reason : option string) :
  Invitations.is_text (Invitations.user_email payload) = true ->
  Forall (fun r => res_user_email r = None) (reservations db) ->
  fst (Invitations.decline_invitation_via_email other_filters db now payload
         reason) = db.
Proof.
  intros Htext Hnone.
  destruct (decline_invitation_effect db now payload reason)
    as [H|(by_id & by_email & r & hit & why & _ & Hby & Hin & _ & Hem & _)];
    [exact H|].
  exfalso.
  destruct (Invitations.user_email payload) as [| | | |email| |];
    try discriminate.
  cbn [field_filter] in Hby. injection Hby as <-.
  rewrite Forall_forall in Hnone. rewrite (Hnone r Hin) in Hem.
  discriminate Hem.
Qed.

Lemma active_status (r : Reservation) (s : string) :
  res_status r = s -> s <> "cancelled"%string -> active r = true.
Proof.
  intros Hs H. unfold active. rewrite Hs.
  apply negb_true_iff. now apply String.eqb_neq.
Qed.

(** Every operation keeps ids unique and keeps the active (user, event)
    pairs unique. *)
Lemma apply_preserves (op : Operation) (db : Database) :
  by_text_id op -> fresh op db -> unique_ids db -> unique_active db ->
  unique_ids (apply generate_qr_code regex_i other_filters op db)
  /\ unique_active (apply generate_qr_code regex_i other_filters op db).
Proof.
  unfold unique_ids, unique_active.
  intros Htext Hfresh Hids Hact.
  destruct op as [now id draw data user | now id user
                                          | now req admin | now payload reason
                                          | now]; cbn [apply].
  - (* create_reservation *)
    destruct (create_reservation_effect generate_qr_code db now id draw data user)
      as [[-> _]|[d [_ [-> [Hid [_ [Hu [He Hnone]]]]]]]]; [now split|].
    cbn [reservations with_reservations]. split.
    + apply ids_after_insert; [exact Hids|]. rewrite Hid. exact Hfresh.
    + apply pairs_after_insert; [exact Hact|]. now rewrite Hu, He.
  - (* cancel_reservation *)
    destruct (cancel_reservation_effect db now id user)
      as [ -> |[r [_ [_ [_ ->]]]]]; [now split|].
    cbn [reservations with_reservations]. split.
    + rewrite update_one_map; [exact Hids | reflexivity].
    + now apply pairs_after_cancel.
  - (* check_in_user *)
    destruct (check_in_user_effect regex_i db now req admin)
      as [ -> |[r [Hin [H1 [H2 ->]]]]]; [now split|].
    split.
    + rewrite update_one_map; [exact Hids | reflexivity].
    + rewrite pairs_after_update; try assumption; try reflexivity.
      now apply (active_status r (res_status r)).
  - (* decline_invitation_via_email *)
    destruct (decline_by_text_id_effect db now payload reason Htext)
      as [ -> |[r [declined [Hin [Hst [Hd [Hp [Hi ->]]]]]]]]; [now split|].
    cbn [reservations with_reservations]. split.
    + rewrite update_one_map; [exact Hids | exact Hi].
    + rewrite pairs_after_update; try assumption.
      * destruct Hst as [H|H];
          apply (active_status r _ H); discriminate.
      * apply (active_status _ _ Hd). discriminate.
  - (* cleanup_data *)
    unfold Admin.cleanup_data. cbn [reservations with_reservations]. split.
    + unfold delete_many. cbn [fst]. now apply NoDup_map_filter.
    + rewrite active_after_cleanup; [exact Hact|].
      intros r Hq. apply andb_true_iff in Hq as [Hq _].
      unfold active. now rewrite Hq.
Qed.

(** C2 (as amended).  At most one non-cancelled reservation exists per
    (user, event) pair, enforced by the handlers: when a reservation with
    the same event and user and a status other than cancelled exists,
    [create_reservation] raises and inserts nothing, and the error is the
    400 'You already have a reservation for this event' once the event
    checks before it pass (the event exists, is published, has a
    well-formed date and is not past); it inserts one new reservation, with
    status confirmed, exactly when it returns, and nothing when it raises;
    and the operations that write reservations, run one after the other
    with fresh ids, keep the (user, event) pairs of non-cancelled
    reservations distinct, a declined invitation too when its token names
    the reservation by a text id.  A token whose id is an operator
    document does not: it sets a cancelled reservation to declined beside
    the confirmed one of the same user and event. *)
Theorem reservations_stay_unique :
  (forall db now id draw data user r,
      In r (reservations db) ->
      Reservations.existing_query (Reservations.rc_event_id data)
        (user_id user) r = true ->
      let out := Reservations.create_reservation generate_qr_code db now id
                   draw data user in
      fst out = db
      /\ (exists e, snd out = Py.Raise e)
      /\ (forall event day,
             EventService.get_event_by_id db (Reservations.rc_event_id data)
             = Some event ->
             event_published (EventService.doc event) <> Some false ->
             Datetime.strptime_ymd (event_date (EventService.doc event))
             = Some day ->
             Datetime.date_ltb day (Datetime.date_of now) = false ->
             snd out = Py.Raise
                         (Py.HTTPException 400
                            "You already have a reservation for this event")))
  /\ (forall db now id draw data user,
         let out := Reservations.create_reservation generate_qr_code db now id
                      draw data user in
         (fst out = db /\ exists e, snd out = Py.Raise e)
         \/ (exists d response,
               snd out = Py.Return response
               /\ reservations (fst out) = reservations db ++ [d]
               /\ res_status d = "confirmed"%string
               /\ res_user_id d = user_id user
               /\ res_event_id d = Reservations.rc_event_id data))
  /\ (forall op db,
         by_text_id op -> fresh op db -> unique_ids db -> unique_active db ->
         unique_ids (apply generate_qr_code regex_i other_filters op db)
         /\ unique_active (apply generate_qr_code regex_i other_filters op db))
  /\ (exists db now payload reason,
         let db' := apply generate_qr_code regex_i other_filters
                      (DeclineInvitation now payload reason) db in
         Invitations.invitation_id payload = JObject [("$ne"%string, JString "")]
         /\ unique_ids db /\ unique_active db /\ created_here db
         /\ map res_status (reservations db)
            = ["cancelled"%string; "confirmed"%string]
         /\ map pair_of (reservations db)
            = [("u1"%string, "e1"%string); ("u1"%string, "e1"%string)]
         /\ map res_status (reservations db')
            = ["declined"%string; "confirmed"%string]
         /\ map pair_of (reservations db') = map pair_of (reservations db)
         /\ ~ unique_active db').
Proof.
  split; [|split; [|split]].
  - intros db now id draw data user r Hin Hq out.
    assert (Hsome : exists x, find_one (Reservations.existing_query
                                          (Reservations.rc_event_id data)
                                          (user_id user))
                                       (reservations db) = Some x).
    { destruct (find_one _ (reservations db)) as [x|] eqn:Hf; [eauto|].
      pose proof (find_none _ _ Hf r Hin) as Hn. congruence. }
    destruct Hsome as [x Hx].
    destruct (create_reservation_effect generate_qr_code db now id draw data user)
      as [[H1 H2]|[d [_ [_ [_ [_ [_ [_ Hnone]]]]]]]]; [|congruence].
    split; [exact H1|]. split; [exact H2|].
    intros event day He Hpub Hday Hpast. subst out.
    unfold Reservations.create_reservation. rewrite He.
    destruct (event_published (EventService.doc event)) as [[|]|];
      try congruence; cbn [negb]; now rewrite Hday, Hpast, Hx.
  - intros db now id draw data user out.
    destruct (create_reservation_effect generate_qr_code db now id draw data user)
      as [H|[d [Hr [Hdb [_ [Hs [Hu [He _]]]]]]]]; [now left|].
    right. exists d. eexists. split; [exact Hr|].
    fold out in Hdb. rewrite Hdb. now repeat split.
  - exact apply_preserves.
  - exists (Samples.store
              [Samples.booking "r1" "AB12CD34" "u1" "e1" "cancelled";
               Samples.booking "r2" "EF56GH78" "u1" "e1" "confirmed"]),
           Samples.noon, Samples.forged, None.
    cbv zeta. split; [reflexivity|].
    split; [|split; [|split; [|split; [|split; [|split; [|split]]]]]];
      try reflexivity.
    + unfold unique_ids. cbn. repeat constructor; cbn; intuition discriminate.
    + unfold unique_active. cbn. repeat constructor. intros [].
    + unfold created_here, lifecycle_status.
      repeat (apply Forall_cons || apply Forall_nil);
        (split; [reflexivity|]); cbn;
        first [now left | now (right; left) | now (right; right)].
    + unfold unique_active. cbn. intro H. inversion H as [|? ? Hnotin _].
      apply Hnotin. now left.
Qed.

End Uniqueness.

Section Lifecycle.
Import Mongo Operations.
Local Open Scope list_scope.
Variable generate_qr_code : string -> string.
Variable regex_i : string -> option (string -> bool).
Variable other_filters : Json -> option (option string -> bool).

Lemma same_id_same_document (l : list Reservation) (a b : Reservation) :
  NoDup (map res_id l) -> In a l -> In b l -> res_id a = res_id b -> a = b.
Proof.
  induction l as [|d l IH]; cbn; intros Hnd Ha Hb Hid; [destruct Ha|].
  inversion Hnd as [|? ? Hnotin Hnd']; subst.
  destruct Ha as [->|Ha], Hb as [->|Hb]; try reflexivity.
  - exfalso. apply Hnotin. rewrite Hid. now apply in_map.
  - exfalso. apply Hnotin. rewrite <- Hid. now apply in_map.
  - now apply IH.
Qed.

(** After an update addressed by id, a document with the id of a stored
    one is that one, or the updated version of it. *)
Lemma after_update_by_id (f : Reservation -> Reservation)
    (l : list Reservation) (target r r' : Reservation) :
  (forall d, res_id (f d) = res_id d) ->
  NoDup (map res_id l) -> In target l -> In r l ->
  In r' (fst (update_one (fun x => String.eqb (res_id x) (res_id target)) f l)) ->
  res_id r' = res_id r ->
  r' = r \/ (r = target /\ r' = f target).
Proof.
  intros Hf Hnd Ht Hr Hr' Hid.
  destruct (update_one_by_id f l target Hnd Ht) as [before [after [Hl Hup]]].
  rewrite Hup in Hr'. apply in_app_iff in Hr'.
  destruct Hr' as [Hb|[<-|Ha]].
  - left. apply (same_id_same_document l); try assumption.
    rewrite Hl. apply in_app_iff. now left.
  - right. split; [|reflexivity].
    apply (same_id_same_document l); try assumption.
    now rewrite <- Hid, Hf.
  - left. apply (same_id_same_document l); try assumption.
    rewrite Hl. apply in_app_iff. right. now right.
Qed.

(** After an update, a document with the id of a stored one is that one,
    or the updated version of the document the update hit. *)
Lemma after_update_one (q : Reservation -> bool)
    (f : Reservation -> Reservation) (l : list Reservation)
    (hit r r' : Reservation) :
  (forall d, res_id (f d) = res_id d) ->
  NoDup (map res_id l) -> find_one q l = Some hit -> In r l ->
  In r' (fst (update_one q f l)) ->
  res_id r' = res_id r ->
  r' = r \/ (r = hit /\ r' = f hit).
Proof.
  intros Hf Hnd Hhit Hr Hr' Hid.
  destruct (update_one_found q f l hit Hhit) as (before & after & Hl & _ & Hup).
  assert (Ht : In hit l) by (rewrite Hl; apply in_app_iff; right; now left).
  rewrite Hup in Hr'. cbn [fst] in Hr'. apply in_app_iff in Hr'.
  destruct Hr' as [Hb|[<-|Ha]].
  - left. apply (same_id_same_document l); try assumption.
    rewrite Hl. apply in_app_iff. now left.
  - right. split; [|reflexivity].
    apply (same_id_same_document l); try assumption.
    now rewrite <- Hid, Hf.
  - left. apply (same_id_same_document l); try assumption.
    rewrite Hl. apply in_app_iff. right. now right.
Qed.

(** X11 (api/reservations.py, api/checkin.py, api/invitations.py,
    api/admin.py).  The lifecycle the handlers implement, on a store they
    wrote themselves:
    an operation leaves the status of a reservation alone, or
    [check_in_user] takes it from confirmed to checked_in, or
    [cancel_reservation] takes it to cancelled from any other status,
    checked_in included, or [decline_invitation_via_email] takes it to
    declined from any status, which needs a token whose [user_email] is
    not a text. *)
Lemma status_transitions (op : Operation) (db : Database)
    (r r' : Reservation) :
  fresh op db -> unique_ids db -> created_here db ->
  In r (reservations db) ->
  In r' (reservations (apply generate_qr_code regex_i other_filters op db)) ->
  res_id r' = res_id r ->
  res_status r' = res_status r
  \/ (res_status r = "confirmed"%string /\ res_status r' = "checked_in"%string
      /\ exists now request admin, op = CheckInUser now request admin)
  \/ (res_status r <> "cancelled"%string /\ res_status r' = "cancelled"%string
      /\ exists now id user, op = CancelReservation now id user)
  \/ (res_status r' = "declined"%string
      /\ exists now payload reason,
           op = DeclineInvitation now payload reason
           /\ Invitations.is_text (Invitations.user_email payload) = false).
Proof.
  unfold unique_ids, created_here.
  intros Hfresh Hids Hown Hr Hr' Hid.
  destruct op as [now id draw data user | now id user | now req admin
                 | now payload reason | now]; cbn [apply] in Hr'.
  - (* create_reservation *)
    left. f_equal.
    destruct (create_reservation_effect generate_qr_code db now id draw data user)
      as [[Hdb _]|[d [_ [Hdb [Hd _]]]]]; rewrite Hdb in Hr'.
    + now apply (same_id_same_document (reservations db)).
    + cbn [reservations with_reservations] in Hr'.
      apply in_app_iff in Hr' as [Hr'|[<-|[]]].
      * now apply (same_id_same_document (reservations db)).
      * exfalso. apply Hfresh. cbn [fresh]. rewrite <- Hd, Hid.
        now apply in_map.
  - (* cancel_reservation *)
    destruct (cancel_reservation_effect db now id user)
      as [Hdb|[t [Ht [Htid [Hts Hdb]]]]]; rewrite Hdb in Hr'.
    + left. f_equal. now apply (same_id_same_document (reservations db)).
    + cbn [reservations with_reservations] in Hr'. rewrite <- Htid in Hr'.
      destruct (after_update_by_id
                  (Reservations.set_cancelled (Datetime.isoformat now))
                  (reservations db) t r r' (fun d => eq_refl) Hids Ht Hr Hr' Hid)
        as [->|[-> ->]]; [now left|].
      right. right. left. split; [exact Hts|]. split; [reflexivity|]. eauto.
  - (* check_in_user *)
    destruct (check_in_user_effect regex_i db now req admin)
      as [Hdb|[t [Ht [H1 [H2 Hdb]]]]]; rewrite Hdb in Hr'.
    + left. f_equal. now apply (same_id_same_document (reservations db)).
    + destruct (after_update_by_id
                  (Checkin.set_checked_in (Datetime.isoformat now) (user_id admin))
                  (reservations db) t r r' (fun d => eq_refl) Hids Ht Hr Hr' Hid)
        as [->|[-> ->]]; [now left|].
      right. left. split; [|split; [reflexivity|eauto]].
      rewrite Forall_forall in Hown.
      destruct (Hown t Ht) as [_ [H|[H|H]]]; congruence.
  - (* decline_invitation_via_email *)
    destruct (Invitations.is_text (Invitations.user_email payload)) eqn:Htext.
    + rewrite (decline_by_text_email_unchanged other_filters db now payload
                 reason Htext) in Hr'.
      * left. f_equal. now apply (same_id_same_document (reservations db)).
      * eapply Forall_impl; [|exact Hown]. now intros a [Ha _].
    + destruct (decline_invitation_effect other_filters db now payload reason)
        as [Hdb|(by_id & by_email & found & hit & why & _ & _ & _ & _ & _ & _
                 & Hhit & Hdb)]; rewrite Hdb in Hr'.
      * left. f_equal. now apply (same_id_same_document (reservations db)).
      * cbn [reservations with_reservations] in Hr'.
        destruct (after_update_one _
                    (Invitations.set_declined why (Datetime.isoformat now))
                    _ hit r r' (fun d => eq_refl) Hids Hhit Hr Hr' Hid)
          as [->|[-> ->]]; [now left|].
        right. right. right. split; [reflexivity|]. eauto.
  - (* cleanup_data *)
    left. f_equal. unfold Admin.cleanup_data, delete_many in Hr'.
    cbn [reservations with_reservations fst] in Hr'.
    apply filter_In in Hr' as [Hr' _].
    now apply (same_id_same_document (reservations db)).
Qed.

Lemma Forall_update_one {A} (P : A -> Prop) (q : A -> bool) (f : A -> A)
    (l : list A) :
  (forall d, P d -> P (f d)) -> Forall P l -> Forall P (fst (update_one q f l)).
Proof.
  intros Hf. induction l as [|d l IH]; cbn; intros H; [constructor|].
  inversion H as [|? ? Hd Hl]; subst.
  destruct (q d); cbn; [constructor; auto|].
  destruct (update_one q f l) as [l' n]. cbn in *. constructor; auto.
Qed.

(** The handlers keep the store in the shape they write, a declined
    invitation too when its token gives the address as a text. *)
Lemma created_here_preserved (op : Operation) (db : Database) :
  by_text_email op ->
  created_here db ->
  created_here (apply generate_qr_code regex_i other_filters op db).
Proof.
  unfold created_here. intros Htext Hown.
  destruct op as [now id draw data user | now id user | now req admin
                 | now payload reason | now]; cbn [apply].
  - destruct (create_reservation_effect generate_qr_code db now id draw data user)
      as [[-> _]|[d [Hret [-> _]]]]; [exact Hown|].
    cbn [reservations with_reservations]. apply Forall_app. split; [exact Hown|].
    unfold Reservations.create_reservation in Hret.
    destruct (EventService.get_event_by_id _ _); [|discriminate].
    destruct (negb _); [discriminate|].
    destruct (Datetime.strptime_ymd _); [|discriminate].
    destruct (Datetime.date_ltb _ _); [discriminate|].
    destruct (find_one _ _); [discriminate|].
    destruct (Z.leb _ _); [discriminate|].
    cbn in Hret. injection Hret as <-.
    constructor; [|constructor]. split; [reflexivity|]. now left.
  - destruct (cancel_reservation_effect db now id user)
      as [ -> |[t [_ [_ [_ ->]]]]]; [exact Hown|].
    cbn [reservations with_reservations].
    apply Forall_update_one; [|exact Hown].
    intros d [He _]. split; [exact He|]. right. now right.
  - destruct (check_in_user_effect regex_i db now req admin)
      as [ -> |[t [_ [_ [_ ->]]]]]; [exact Hown|].
    apply Forall_update_one; [|exact Hown].
    intros d [He _]. split; [exact He|]. right. now left.
  - rewrite (decline_by_text_email_unchanged other_filters db now payload
               reason Htext); [exact Hown|].
    eapply Forall_impl; [|exact Hown]. now intros a [Ha _].
  - unfold Admin.cleanup_data, delete_many.
    cbn [reservations with_reservations fst].
    rewrite Forall_forall in *. intros r Hr.
    apply filter_In in Hr as [Hr _]. now apply Hown.
Qed.

(** Whatever the tokens, no handler stores a [user_email], and the only
    status a handler adds to the three of the lifecycle is declined. *)
Lemma stored_statuses_preserved (op : Operation) (db : Database) :
  let written r :=
    res_user_email r = None
    /\ (lifecycle_status (res_status r) \/ res_status r = "declined"%string) in
  Forall written (reservations db) ->
  Forall written
    (reservations (apply generate_qr_code regex_i other_filters op db)).
Proof.
  intros written Hown. subst written.
  destruct op as [now id draw data user | now id user | now req admin
                 | now payload reason | now]; cbn [apply].
  - destruct (create_reservation_effect generate_qr_code db now id draw data user)
      as [[-> _]|[d [Hret [-> _]]]]; [exact Hown|].
    cbn [reservations with_reservations]. apply Forall_app. split; [exact Hown|].
    unfold Reservations.create_reservation in Hret.
    destruct (EventService.get_event_by_id _ _); [|discriminate].
    destruct (negb _); [discriminate|].
    destruct (Datetime.strptime_ymd _); [|discriminate].
    destruct (Datetime.date_ltb _ _); [discriminate|].
    destruct (find_one _ _); [discriminate|].
    destruct (Z.leb _ _); [discriminate|].
    cbn in Hret. injection Hret as <-.
    constructor; [|constructor]. split; [reflexivity|]. left. now left.
  - destruct (cancel_reservation_effect db now id user)
      as [ -> |[t [_ [_ [_ ->]]]]]; [exact Hown|].
    cbn [reservations with_reservations].
    apply Forall_update_one; [|exact Hown].
    intros d [He _]. split; [exact He|]. left. right. now right.
  - destruct (check_in_user_effect regex_i db now req admin)
      as [ -> |[t [_ [_ [_ ->]]]]]; [exact Hown|].
    apply Forall_update_one; [|exact Hown].
    intros d [He _]. split; [exact He|]. left. right. now left.
  - destruct (decline_invitation_effect other_filters db now payload reason)
      as [ -> |(by_id & by_email & found & hit & why & _ & _ & _ & _ & _ & _
                & _ & ->)]; [exact Hown|].
    cbn [reservations with_reservations].
    apply Forall_update_one; [|exact Hown].
    intros d [He _]. split; [exact He|]. now right.
  - unfold Admin.cleanup_data, delete_many.
    cbn [reservations with_reservations fst].
    rewrite Forall_forall in *. intros r Hr.
    apply filter_In in Hr as [Hr _]. now apply Hown.
Qed.

End Lifecycle.

Section StoreExamples.
Import Mongo Operations.
Local Open Scope list_scope.

(** C2 as stated fails when an earlier check fires first: for a past event
    the request of a user who already holds a reservation is rejected with
    'Cannot reserve for past events', not with 'You already have a
    reservation for this event'. *)
Lemma create_reservation_duplicate_for_past_event :
  let held := Samples.booking "r0" "AB12CD34" "u1" "e0" "confirmed" in
  let out := Reservations.create_reservation Samples.qr_image
               (Samples.store [held]) Samples.noon "r9" Samples.first_letters
               (Samples.request "e0") Samples.alice in
  Reservations.existing_query "e0" "u1" held = true
  /\ snd out = Py.Raise (Py.HTTPException 400 "Cannot reserve for past events")
  /\ snd out <> Py.Raise (Py.HTTPException 400
                            "You already have a reservation for this event").
Proof.
  vm_compute. repeat split. discriminate.
Qed.

Lemma reservations_stay_unique_witness :
  let db := Samples.store
              [Samples.invited "r1" "u1" "e1" "confirmed" "alice@example.com"] in
  let op := DeclineInvitation Samples.noon Samples.mailed None in
  by_text_id op /\ fresh op db /\ unique_ids db /\ unique_active db
  /\ map res_status
         (reservations (apply Samples.qr_image Samples.no_regex
                          Samples.no_operators op db))
     = ["declined"%string]
  /\ unique_ids (apply Samples.qr_image Samples.no_regex
                   Samples.no_operators op db)
  /\ unique_active (apply Samples.qr_image Samples.no_regex
                      Samples.no_operators op db).
Proof.
  intros db op.
  assert (Ht : by_text_id op) by reflexivity.
  assert (Hf : fresh op db) by exact I.
  assert (Hi : unique_ids db).
  { unfold unique_ids. cbn. constructor; [intros []|constructor]. }
  assert (Ha : unique_active db).
  { unfold unique_active. cbn. constructor; [intros []|constructor]. }
  split; [exact Ht|]. split; [exact Hf|]. split; [exact Hi|].
  split; [exact Ha|]. split; [reflexivity|].
  exact (proj1 (proj2 (proj2 (reservations_stay_unique Samples.qr_image
                                Samples.no_regex Samples.no_operators)))
               op db Ht Hf Hi Ha).
Defined.

(** C1, at a reservation that is already checked in.  [cancel_reservation]
    only refuses a reservation that is already cancelled: the owner of a
    checked-in reservation for an event that is not past cancels it, and
    its status goes from [checked_in] to [cancelled]. *)
Theorem cancel_reservation_after_check_in :
  let attended := Samples.booking "r1" "AB12CD34" "u1" "e1" "checked_in" in
  let out := Reservations.cancel_reservation (Samples.store [attended])
               Samples.noon "r1" Samples.alice in
  snd out = Py.Return {| Reservations.message := "Reservation cancelled successfully";
                         Reservations.data := None |}
  /\ map res_status (reservations (fst out)) = ["cancelled"%string].
Proof. vm_compute. split; reflexivity. Qed.

(** C10, at a confirmed reservation looked up by its code.  The handler
    sets the status to [checked_in] and inserts the [checkins] record; the
    response it then builds is rejected (the projected reservation has no
    [center]), the exception handler answers [success = False], and the
    store stays changed. *)
Theorem check_in_user_failure_after_write :
  let held := Samples.booking "r1" "AB12CD34" "u1" "e1" "confirmed" in
  let db := Samples.store [held] in
  let out := Checkin.check_in_user Samples.no_regex db Samples.noon
               {| Checkin.method := "reservation_code";
                  Checkin.value := "AB12CD34";
                  Checkin.event_id := None |}
               Samples.staff in
  Checkin.success (snd out) = false
  /\ Checkin.message (snd out)
     = ("Check-in failed: "
        ++ Py.str_of_exn (Py.ValidationError "CheckInResponse"
                                             "reservation.center"))%string
  /\ map res_status (reservations db) = ["confirmed"%string]
  /\ map res_status (reservations (fst out)) = ["checked_in"%string]
  /\ checkins db = []
  /\ map chk_reservation_id (checkins (fst out)) = ["r1"%string].
Proof. vm_compute. repeat split. Qed.

End StoreExamples.

(** ** Two requests for the last seat *)

Section Race.
Import Mongo EventService Reservations Interleaving.
Local Open Scope list_scope.
Variable generate_qr_code : string -> string.

(** Run alone, the three accesses of a request are [create_reservation]. *)
Lemma steps_are_create_reservation (db : Database) (req : Request) :
  let '(db1, t1) := step generate_qr_code db req Start in
  let '(db2, t2) := step generate_qr_code db1 req t1 in
  let '(db3, t3) := step generate_qr_code db2 req t2 in
  let out := create_reservation generate_qr_code db (now req)
               (reservation_id req) (draw req) (reservation_data req)
               (current_user req) in
  db3 = fst out /\ t3 = Done (snd out).
Proof.
  unfold create_reservation. cbn [step].
  destruct (get_event_by_id db _) as [event|]; [|now split].
  destruct (negb _); [now split|].
  destruct (Datetime.strptime_ymd _) as [day|]; [|now split].
  destruct (Datetime.date_ltb _ _); [now split|].
  cbn [step].
  destruct (find_one _ _); [now split|].
  destruct (Z.leb _ _); now split.
Qed.

Lemma count_after_two (event : string) (l : list Reservation)
    (x y : Reservation) :
  active_for event x = true -> active_for event y = true ->
  count_documents (active_for event) (l ++ [x; y])
  = (count_documents (active_for event) l + 2)%Z.
Proof.
  intros Hx Hy. unfold count_documents. rewrite filter_app, length_app.
  cbn. rewrite Hx, Hy. cbn. lia.
Qed.

(** C8.  Two requests by different users for an event with exactly one
    available spot, neither user holding a reservation: when each request
    reads the event before the other inserts, both pass the capacity check
    and both reservations are inserted, one more than the capacity. *)
Theorem create_reservation_double_booking (db : Database) (a b : Request)
    (event : EventView) (day : Datetime.date) :
  let eid := rc_event_id (reservation_data a) in
  rc_event_id (reservation_data b) = eid ->
  Mongo.user_id (current_user a) <> Mongo.user_id (current_user b) ->
  get_event_by_id db eid = Some event ->
  available_spots event = 1%Z ->
  event_published (doc event) <> Some false ->
  Datetime.strptime_ymd (event_date (doc event)) = Some day ->
  Datetime.date_ltb day (Datetime.date_of (now a)) = false ->
  Datetime.date_ltb day (Datetime.date_of (now b)) = false ->
  find_one (existing_query eid (Mongo.user_id (current_user a)))
           (reservations db) = None ->
  find_one (existing_query eid (Mongo.user_id (current_user b)))
           (reservations db) = None ->
  exists schedule,
    let w := run generate_qr_code a b schedule db in
    first w = Done (Py.Return {| message := "Reservation created successfully";
                                 data := Some (inserted generate_qr_code a) |})
    /\ second w = Done (Py.Return {| message := "Reservation created successfully";
                                     data := Some (inserted generate_qr_code b) |})
    /\ reservations (store w) = reservations db
                                   ++ [inserted generate_qr_code a;
                                       inserted generate_qr_code b]
    /\ (count_documents (active_for eid) (reservations (store w))
        = event_capacity (doc event) + 1)%Z.
Proof.
  intros eid Hb Hdiff Hev Hspots Hpub Hday Hna Hnb Hxa Hxb.
  exists [false; true; false; true; false; true].
  assert (Hp : negb (match event_published (doc event) with
                     | Some p => p
                     | None => true
                     end) = false).
  { destruct (event_published (doc event)) as [[|]|]; cbn; congruence. }
  set (ia := inserted generate_qr_code a).
  set (ib := inserted generate_qr_code b).
  set (ok := fun d => Done (Py.Return
                              {| message := "Reservation created successfully";
                                 data := Some d |})).
  set (db1 := with_reservations db (insert_one ia (reservations db))).
  set (db2 := with_reservations db1 (insert_one ib (reservations db1))).
  assert (H1 : advance generate_qr_code a b
                 {| store := db; first := Start; second := Start |} false
               = {| store := db; first := Loaded event; second := Start |}).
  { unfold advance. cbn [store first second step]. fold eid.
    now rewrite Hev, Hp, Hday, Hna. }
  assert (H2 : advance generate_qr_code a b
                 {| store := db; first := Loaded event; second := Start |} true
               = {| store := db; first := Loaded event;
                    second := Loaded event |}).
  { unfold advance. cbn [store first second step].
    now rewrite Hb, Hev, Hp, Hday, Hnb. }
  assert (H3 : advance generate_qr_code a b
                 {| store := db; first := Loaded event;
                    second := Loaded event |} false
               = {| store := db; first := Cleared event;
                    second := Loaded event |}).
  { unfold advance. cbn [store first second step]. fold eid.
    now rewrite Hxa, Hspots. }
  assert (H4 : advance generate_qr_code a b
                 {| store := db; first := Cleared event;
                    second := Loaded event |} true
               = {| store := db; first := Cleared event;
                    second := Cleared event |}).
  { unfold advance. cbn [store first second step].
    now rewrite Hb, Hxb, Hspots. }
  assert (H5 : advance generate_qr_code a b
                 {| store := db; first := Cleared event;
                    second := Cleared event |} false
               = {| store := db1; first := ok ia; second := Cleared event |})
    by reflexivity.
  assert (H6 : advance generate_qr_code a b
                 {| store := db1; first := ok ia; second := Cleared event |} true
               = {| store := db2; first := ok ia; second := ok ib |})
    by reflexivity.
  unfold run. cbn [fold_left]. rewrite H1, H2, H3, H4, H5, H6.
  cbn [store first second].
  split; [reflexivity|]. split; [reflexivity|].
  assert (Hrs : reservations db2 = reservations db ++ [ia; ib]).
  { subst db2 db1. cbn [reservations with_reservations]. unfold insert_one.
    now rewrite <- app_assoc. }
  rewrite Hrs. split; [reflexivity|]. subst ia ib.
  rewrite count_after_two.
  - assert (Hget := Hev). unfold get_event_by_id in Hget.
    destruct (find_one _ (events db)) as [e|]; [|discriminate].
    injection Hget as <-. cbn [available_spots doc] in *. lia.
  - unfold active_for, inserted, reservation_doc. cbn [res_event_id res_status].
    fold eid. now rewrite String.eqb_refl.
  - unfold active_for, inserted, reservation_doc. cbn [res_event_id res_status].
    now rewrite Hb, String.eqb_refl.
Qed.

End Race.

Lemma create_reservation_double_booking_witness :
  let db := Samples.store [] in
  let a := Samples.asks "r1" Samples.alice in
  let b := Samples.asks "r2" Samples.bob in
  exists schedule,
    let w := Interleaving.run Samples.qr_image a b schedule db in
    Mongo.reservations (Interleaving.store w)
    = [Interleaving.inserted Samples.qr_image a;
       Interleaving.inserted Samples.qr_image b]
    /\ (Mongo.count_documents (EventService.active_for "e1")
          (Mongo.reservations (Interleaving.store w))
        = Mongo.event_capacity Samples.concert + 1)%Z.
Proof.
  intros db a b.
  destruct (create_reservation_double_booking Samples.qr_image db a b
              Samples.concert_view Samples.concert_day)
    as [schedule [_ [_ [Hrs Hcount]]]];
    try reflexivity; try discriminate.
  exists schedule. split; [exact Hrs | exact Hcount].
Defined.

(** Run one after the other, the same two requests fill the seat once:
    the second is told the event is fully booked. *)
Lemma create_reservation_one_after_the_other :
  let w := Interleaving.run Samples.qr_image
             (Samples.asks "r1" Samples.alice) (Samples.asks "r2" Samples.bob)
             [false; false; false; true; true; true] (Samples.store []) in
  Interleaving.second w
  = Interleaving.Done (Py.Raise (Py.HTTPException 400 "Event is fully booked"))
  /\ List.length (Mongo.reservations (Interleaving.store w)) = 1.
Proof. vm_compute. split; reflexivity. Qed.

(** ** Recommendations *)

Section Orders.

(** [<] on floats is asymmetric, NaN included. *)
Lemma SFcompare_antisym (x y : spec_float) :
  SFcompare y x = match SFcompare x y with
                  | Some c => Some (CompOpp c)
                  | None => None
                  end.
Proof.
  destruct x as [sx|sx| |sx mx ex], y as [sy|sy| |sy my ey]; cbn;
    try reflexivity; try (destruct sx; reflexivity);
    try (destruct sy; reflexivity); try (destruct sx, sy; reflexivity).
  destruct sx, sy; try reflexivity; f_equal;
    rewrite (Z.compare_antisym ex ey);
    destruct (Z.compare ex ey); cbn; try reflexivity.
  - f_equal. symmetry. exact (Pos.compare_cont_antisym mx my Eq).
  - symmetry. exact (Pos.compare_cont_antisym mx my Eq).
Qed.

Lemma float_ltb_asym (x y : float) :
  (x <? y)%float = true -> (y <? x)%float = false.
Proof.
  rewrite !FloatAxioms.ltb_spec. unfold SFltb.
  rewrite (SFcompare_antisym (Prim2SF x) (Prim2SF y)).
  destruct (SFcompare (Prim2SF x) (Prim2SF y)) as [[]|]; cbn; congruence.
Qed.

Lemma string_ltb_asym (x y : string) :
  String.ltb x y = true -> String.ltb y x = false.
Proof.
  unfold String.ltb. rewrite (String.compare_antisym x y).
  destruct (String.compare y x); cbn; congruence.
Qed.

End Orders.

Section SortFacts.
Import InterestDetection.
Context {A : Type} (precedes : A -> A -> bool).
Hypothesis asym : forall a b, precedes a b = true -> precedes b a = false.

Lemma insert_by_In (x y : A) (l : list A) :
  In y (insert_by precedes x l) <-> y = x \/ In y l.
Proof.
  induction l as [|z l IH]; cbn.
  - intuition.
  - destruct (precedes z x); cbn; rewrite ?IH; intuition.
Qed.

Lemma sort_by_In (y : A) (l : list A) :
  In y (sort_by precedes l) <-> In y l.
Proof.
  induction l as [|x l IH]; cbn; [reflexivity|].
  rewrite insert_by_In, IH. intuition.
Qed.

Lemma insert_by_HdRel (a x : A) (l : list A) :
  after precedes a x -> HdRel (after precedes) a l ->
  HdRel (after precedes) a (insert_by precedes x l).
Proof.
  intros Hx Hl. destruct l as [|z l]; cbn; [now constructor|].
  destruct (precedes z x); constructor; [|exact Hx].
  now inversion Hl.
Qed.

Lemma insert_by_Sorted (x : A) (l : list A) :
  Sorted (after precedes) l -> Sorted (after precedes) (insert_by precedes x l).
Proof.
  induction l as [|z l IH]; cbn; intros Hs.
  - repeat constructor.
  - apply Sorted_inv in Hs as [Hs Hz].
    destruct (precedes z x) eqn:E.
    + constructor; [now apply IH|].
      apply insert_by_HdRel; [|exact Hz]. unfold after. now apply asym.
    + constructor; [now constructor|]. constructor. exact E.
Qed.

Lemma sort_by_Sorted (l : list A) :
  Sorted (after precedes) (sort_by precedes l).
Proof.
  induction l as [|x l IH]; cbn; [constructor|].
  now apply insert_by_Sorted.
Qed.

End SortFacts.

Section ListFacts.
Context {A : Type}.

Lemma firstn_incl (n : nat) (l : list A) (x : A) :
  In x (firstn n l) -> In x l.
Proof.
  revert l. induction n as [|n IH]; intros [|y l]; cbn; try tauto.
  intros [->|H]; [now left | right; now apply IH].
Qed.

Lemma firstn_at_most (n : nat) (l : list A) : List.length (firstn n l) <= n.
Proof.
  revert l. induction n as [|n IH]; intros [|y l]; cbn; try lia.
  specialize (IH l). lia.
Qed.

Lemma firstn_Sorted (R : A -> A -> Prop) (n : nat) (l : list A) :
  Sorted R l -> Sorted R (firstn n l).
Proof.
  revert l. induction n as [|n IH]; intros [|y l] Hs; cbn; try constructor.
  - apply IH. now apply Sorted_inv in Hs.
  - apply Sorted_inv in Hs as [_ Hy].
    destruct n, l; cbn; constructor. now inversion Hy.
Qed.

End ListFacts.

Section FloatOrder.

Lemma not_nan_spec (x : float) :
  PrimFloat.is_nan x = false -> Prim2SF x <> S754_nan.
Proof.
  unfold PrimFloat.is_nan. rewrite FloatAxioms.eqb_spec. unfold SFeqb.
  intros H E. rewrite E in H. discriminate H.
Qed.

(** On floats that are not NaN, "not less than" is "greater or equal". *)
Lemma float_not_ltb_leb (x y : float) :
  PrimFloat.is_nan x = false -> PrimFloat.is_nan y = false ->
  (x <? y)%float = false -> (y <=? x)%float = true.
Proof.
  intros Hx Hy. apply not_nan_spec in Hx, Hy.
  rewrite FloatAxioms.ltb_spec, FloatAxioms.leb_spec. unfold SFltb, SFleb.
  rewrite (SFcompare_antisym (Prim2SF x) (Prim2SF y)).
  destruct (SFcompare (Prim2SF x) (Prim2SF y)) as [[]|] eqn:E; cbn;
    try congruence.
  destruct (Prim2SF x), (Prim2SF y); cbn in E; congruence.
Qed.

End FloatOrder.

Section RecommendationFacts.
Import Mongo InterestDetection.
Variable round2 : float -> float.
Variable py_int : string -> option Z.

Lemma insert_by_nonempty {A} (precedes : A -> A -> bool) (x : A) (l : list A) :
  insert_by precedes x l <> [].
Proof. destruct l as [|y l]; cbn; [|destruct (precedes y x)]; discriminate. Qed.

Lemma most_common_In (scores : Counter) (n : nat) (entry : string * float) :
  In entry (most_common scores n) -> In entry scores.
Proof.
  unfold most_common. intros H. apply firstn_incl in H.
  now apply sort_by_In in H.
Qed.

(** The categories the query asks for: the fallback list for a user
    without scores, else the (at most three) top categories. *)
Lemma top_categories_cases (scores : Counter) :
  (scores = [] /\ top_categories scores = fallback_categories)
  \/ (scores <> []
      /\ top_categories scores = map fst (most_common scores 3)
      /\ List.length (top_categories scores) <= 3
      /\ forall c, In c (top_categories scores) -> In c (map fst scores)).
Proof.
  destruct scores as [|entry rest]; [left; now split|].
  right. split; [discriminate|].
  assert (Htop : top_categories (entry :: rest)
                 = map fst (most_common (entry :: rest) 3)).
  { unfold top_categories, most_common. cbn [sort_by fold_right].
    pose proof (insert_by_nonempty
                  (fun y x : string * float => (snd x <? snd y)%float) entry
                  (fold_right
                     (insert_by (fun y x : string * float => (snd x <? snd y)%float))
                     [] rest)) as Hne.
    destruct (insert_by _ entry _) as [|first more]; [congruence|].
    reflexivity. }
  split; [exact Htop|]. rewrite Htop. split.
  - rewrite length_map. apply firstn_at_most.
  - intros c Hc. apply in_map_iff in Hc as [e [<- He]].
    apply in_map. now apply most_common_In in He.
Qed.

Lemma upcoming_events_spec (db : Database) (now : Datetime.datetime)
    (user : string) (scores : Counter) (e : Event) :
  In e (upcoming_events db now user scores) ->
  In e (events db)
  /\ In (event_category e) (top_categories scores)
  /\ event_center e = Some (center_of db user)
  /\ gte (event_date e) (Datetime.strftime_ymd now) = true
  /\ event_published e = Some true.
Proof.
  unfold upcoming_events. intros H. apply firstn_incl in H.
  apply sort_by_In in H. unfold find in H. apply filter_In in H as [Hin Hq].
  unfold upcoming_query in Hq.
  apply andb_true_iff in Hq as [Hq Hpub].
  apply andb_true_iff in Hq as [Hq Hdate].
  apply andb_true_iff in Hq as [Hcat Hcenter].
  split; [exact Hin|]. split.
  { apply existsb_exists in Hcat as [c [Hc Heq]].
    apply String.eqb_eq in Heq. now rewrite Heq. }
  split.
  { unfold eq_field in Hcenter. destruct (event_center e) as [c|];
      [|discriminate]. apply String.eqb_eq in Hcenter. now rewrite Hcenter. }
  split; [exact Hdate|].
  destruct (event_published e) as [[|]|]; congruence.
Qed.

(** The part of C6 that holds.  The list [generate_recommendations]
    returns has at most 3 entries; no entry is followed by one with a
    strictly larger [recommendation_score] (so, the scores not being NaN,
    each score is at most the one before it); and every entry is built
    from a stored event that is published, whose date text is not below
    today's 'YYYY-MM-DD' text in the order of strings, of the user's
    center ('santo-domingo' when the user is missing or has no center)
    and of one of the requested categories: the at most three top-scored
    categories of the user, or the fallback list for a user without
    scores. *)
Theorem generate_recommendations_sound (db : Database)
    (now : Datetime.datetime) (user : string) (scores : Counter) :
  let recs := generate_recommendations round2 py_int db now user scores in
  List.length recs <= 3
  /\ Sorted (fun a b => (recommendation_score a <? recommendation_score b)%float
                        = false) recs
  /\ (Forall (fun r => PrimFloat.is_nan (recommendation_score r) = false) recs ->
      Sorted (fun a b => (recommendation_score b <=? recommendation_score a)%float
                         = true) recs)
  /\ Forall (fun r =>
               exists e,
                 In e (events db)
                 /\ r = recommend round2 py_int scores e
                 /\ gte (event_date e) (Datetime.strftime_ymd now) = true
                 /\ event_published e = Some true
                 /\ event_center e = Some (center_of db user)
                 /\ In (event_category e) (top_categories scores)) recs
  /\ (center_of db user = default_center
      \/ exists u, find_one (fun u => String.eqb (user_id u) user) (users db)
                   = Some u
                   /\ user_center u = Some (center_of db user))
  /\ ((scores = [] /\ top_categories scores = fallback_categories)
      \/ (scores <> []
          /\ top_categories scores = map fst (most_common scores 3)
          /\ List.length (top_categories scores) <= 3)).
Proof.
  intros recs.
  assert (Hsorted :
            Sorted (fun a b => (recommendation_score a <? recommendation_score b)%float
                               = false) recs).
  { subst recs. unfold generate_recommendations. apply firstn_Sorted.
    apply (sort_by_Sorted
             (fun y x : Recommendation =>
                (recommendation_score x <? recommendation_score y)%float)).
    intros a b. apply float_ltb_asym. }
  split; [apply firstn_at_most|]. split; [exact Hsorted|]. split.
  { intros Hnan. clear - Hsorted Hnan.
    induction Hsorted as [|a l Hl IH Hhd]; [constructor|].
    inversion Hnan as [|? ? Ha Hrest]; subst.
    constructor; [now apply IH|].
    destruct Hhd as [|b l' Hab]; constructor.
    inversion Hrest; subst. now apply float_not_ltb_leb. }
  split.
  { apply Forall_forall. intros r Hr. subst recs.
    unfold generate_recommendations in Hr. apply firstn_incl in Hr.
    apply sort_by_In in Hr. apply in_map_iff in Hr as [e [<- He]].
    apply upcoming_events_spec in He as [Hin [Hcat [Hcen [Hdate Hpub]]]].
    exists e. repeat split; assumption. }
  split.
  { unfold center_of.
    destruct (find_one _ (users db)) as [u|] eqn:Hu; [|now left].
    destruct (user_center u) as [c|] eqn:Hc; [|now left].
    right. exists u. now split. }
  destruct (top_categories_cases scores) as [H|[H1 [H2 [H3 _]]]];
    [now left | right; now repeat split].
Qed.

End RecommendationFacts.

Lemma generate_recommendations_sound_witness :
  let recs := InterestDetection.generate_recommendations Samples.keep
                Samples.hour_of Samples.festival Samples.noon "u1"
                Samples.tastes in
  map InterestDetection.rec_event_id recs = ["e1"; "e2"]
  /\ Forall (fun r => PrimFloat.is_nan
                        (InterestDetection.recommendation_score r) = false)
            recs
  /\ Sorted (fun a b => (InterestDetection.recommendation_score b
                         <=? InterestDetection.recommendation_score a)%float
                        = true) recs.
Proof.
  intros recs.
  assert (Hnan : Forall (fun r => PrimFloat.is_nan
                                    (InterestDetection.recommendation_score r)
                                  = false) recs).
  { vm_compute. repeat constructor. }
  split; [reflexivity|]. split; [exact Hnan|].
  exact (proj1 (proj2 (proj2 (generate_recommendations_sound
                                Samples.keep Samples.hour_of
                                Samples.festival Samples.noon "u1"
                                Samples.tastes)))
               Hnan).
Defined.

(** C6, at an event whose date was stored without leading zeros.  The
    query compares the date texts, and '2024-9-1' is above '2024-10-15':
    on 15 October 2024 the concert of 1 September is recommended as an
    upcoming event.  [strptime], which accepts this date when the event is
    created, reads it as a day that is past, and [create_reservation]
    refuses the same event as past. *)
Theorem generate_recommendations_past_event :
  let recs := InterestDetection.generate_recommendations Samples.keep
                Samples.hour_of Samples.september Samples.mid_october "u1"
                Samples.tastes in
  map InterestDetection.rec_event_id recs = ["e5"]
  /\ map InterestDetection.rec_date recs = ["2024-9-1"]
  /\ Datetime.strftime_ymd Samples.mid_october = "2024-10-15"
  /\ Mongo.gte "2024-9-1" "2024-10-15" = true
  /\ (exists day,
         Datetime.strptime_ymd "2024-9-1" = Some day
         /\ Datetime.date_ltb day (Datetime.date_of Samples.mid_october)
            = true)
  /\ snd (Reservations.create_reservation Samples.qr_image Samples.september
            Samples.mid_october "r1" Samples.first_letters
            (Samples.request "e5") Samples.alice)
     = Py.Raise (Py.HTTPException 400 "Cannot reserve for past events").
Proof.
  intro recs.
  split; [reflexivity|]. split; [reflexivity|]. split; [reflexivity|].
  split; [reflexivity|]. split; [|reflexivity].
  eexists. split; reflexivity.
Qed.

(* ================================================================== *)
(** ** QR texts *)

Section SplitFacts.
Local Open Scope list_scope.

Lemma chars_append (a b : string) :
  Str.chars (a ++ b)%string = Str.chars a ++ Str.chars b.
Proof.
  unfold Str.chars. induction a as [|c a IH]; simpl; [reflexivity|].
  now rewrite IH.
Qed.

Lemma of_chars_chars (s : string) : Str.of_chars (Str.chars s) = s.
Proof. apply string_of_list_ascii_of_string. Qed.

Lemma split_chars_last (sep : ascii) (l cur : list ascii) :
  ~ In sep l -> Str.split_chars sep l cur = [rev cur ++ l].
Proof.
  revert cur. induction l as [|c l IH]; intros cur Hn; simpl.
  - now rewrite app_nil_r.
  - destruct (Ascii.eqb_spec c sep) as [->|Hc].
    + exfalso. apply Hn. now left.
    + rewrite IH by (intro H; apply Hn; now right).
      simpl. now rewrite <- app_assoc.
Qed.

Lemma split_chars_first (sep : ascii) (l1 l2 cur : list ascii) :
  ~ In sep l1 ->
  Str.split_chars sep (l1 ++ sep :: l2) cur
  = (rev cur ++ l1) :: Str.split_chars sep l2 [].
Proof.
  revert cur. induction l1 as [|c l1 IH]; intros cur Hn; simpl.
  - rewrite Ascii.eqb_refl. now rewrite app_nil_r.
  - destruct (Ascii.eqb_spec c sep) as [->|Hc].
    + exfalso. apply Hn. now left.
    + rewrite IH by (intro H; apply Hn; now right).
      simpl. now rewrite <- app_assoc.
Qed.

(** [(a + sep + rest).split(sep)] when [a] has no separator. *)
Lemma split_first (a rest : string) (sep : ascii) :
  ~ In sep (Str.chars a) ->
  Str.split (a ++ String sep rest) sep = a :: Str.split rest sep.
Proof.
  intro Hn. unfold Str.split. rewrite chars_append.
  change (Str.chars (String sep rest)) with (sep :: Str.chars rest).
  rewrite split_chars_first by assumption. simpl.
  now rewrite of_chars_chars.
Qed.

Lemma split_last (a : string) (sep : ascii) :
  ~ In sep (Str.chars a) -> Str.split a sep = [a].
Proof.
  intro Hn. unfold Str.split. rewrite split_chars_last by assumption.
  simpl. now rewrite of_chars_chars.
Qed.

Lemma split_nonempty (s : string) (sep : ascii) : Str.split s sep <> [].
Proof.
  unfold Str.split. generalize (@nil ascii) as cur.
  induction (Str.chars s) as [|c l IH]; intro cur; simpl; [discriminate|].
  destruct (Ascii.eqb c sep); [discriminate|apply IH].
Qed.

End SplitFacts.

Section QrTexts.
Import Mongo QrCodes QrFormats.
Local Open Scope list_scope.

Lemma split_chars_length (sep : ascii) (l cur : list ascii) :
  List.length (Str.split_chars sep l cur)
  = S (List.length (filter (Ascii.eqb sep) l)).
Proof.
  revert cur. induction l as [|c l IH]; intro cur; simpl; [reflexivity|].
  rewrite (Ascii.eqb_sym sep c).
  destruct (Ascii.eqb c sep); simpl; now rewrite IH.
Qed.

Lemma split_length (s : string) (sep : ascii) :
  List.length (Str.split s sep)
  = S (List.length (filter (Ascii.eqb sep) (Str.chars s))).
Proof. unfold Str.split. rewrite length_map. apply split_chars_length. Qed.

Lemma split_after (a rest : string) (sep : ascii) :
  2 <= List.length (Str.split (a ++ String sep rest) sep)
  /\ List.length (Str.split rest sep)
     < List.length (Str.split (a ++ String sep rest) sep).
Proof.
  rewrite !split_length, chars_append, filter_app, length_app.
  change (Str.chars (String sep rest)) with (sep :: Str.chars rest).
  simpl. rewrite Ascii.eqb_refl. simpl. lia.
Qed.

(** What [decode_qr_data] makes of a text with one of the three
    prefixes, whatever follows. *)
Lemma decode_reservation_text (rest : string) :
  let parts := Str.split rest ":" in
  decode_qr_data ("CCB-RESERVATION:" ++ rest)
  = if Nat.leb 2 (List.length parts)
    then Some (QrReservation (nth 0 parts "") (nth 1 parts ""))%string
    else None.
Proof.
  intro parts. unfold decode_qr_data.
  change (Str.startswith ("CCB-RESERVATION:" ++ rest) "CCB-") with true.
  change ("CCB-RESERVATION:" ++ rest)%string
    with ("CCB-RESERVATION" ++ String ":" rest)%string.
  rewrite split_first by (vm_compute; intuition discriminate).
  fold parts. cbn [negb nth List.length].
  change (Str.replace "CCB-RESERVATION" "CCB-" "") with "RESERVATION"%string.
  cbn [String.eqb Ascii.eqb Bool.eqb andb Nat.ltb Nat.leb].
  destruct (List.length parts) as [|[|n]]; reflexivity.
Qed.

Lemma decode_event_text (rest : string) :
  let parts := Str.split rest ":" in
  decode_qr_data ("CCB-EVENT:" ++ rest)
  = if Nat.leb 2 (List.length parts)
    then Some (QrEvent (nth 0 parts "") (nth 1 parts ""))%string
    else None.
Proof.
  intro parts. unfold decode_qr_data.
  change (Str.startswith ("CCB-EVENT:" ++ rest) "CCB-") with true.
  change ("CCB-EVENT:" ++ rest)%string
    with ("CCB-EVENT" ++ String ":" rest)%string.
  rewrite split_first by (vm_compute; intuition discriminate).
  fold parts. cbn [negb nth List.length].
  change (Str.replace "CCB-EVENT" "CCB-" "") with "EVENT"%string.
  cbn [String.eqb Ascii.eqb Bool.eqb andb Nat.ltb Nat.leb].
  destruct (List.length parts) as [|[|n]]; reflexivity.
Qed.

Lemma decode_checkin_text (rest : string) :
  let parts := Str.split rest ":" in
  decode_qr_data ("CCB-CHECKIN:" ++ rest)
  = if Nat.leb 3 (List.length parts)
    then Some (QrCheckin (nth 0 parts "") (nth 1 parts "")
                         (nth 2 parts ""))%string
    else None.
Proof.
  intro parts. unfold decode_qr_data.
  change (Str.startswith ("CCB-CHECKIN:" ++ rest) "CCB-") with true.
  change ("CCB-CHECKIN:" ++ rest)%string
    with ("CCB-CHECKIN" ++ String ":" rest)%string.
  rewrite split_first by (vm_compute; intuition discriminate).
  fold parts. cbn [negb nth List.length].
  change (Str.replace "CCB-CHECKIN" "CCB-" "") with "CHECKIN"%string.
  cbn [String.eqb Ascii.eqb Bool.eqb andb Nat.ltb Nat.leb].
  destruct (List.length parts) as [|[|[|n]]]; reflexivity.
Qed.

(** X18 (utils/qr_codes.py): [decode_qr_data] inverts the three generators.
    When the fields contain no colon, the text of a reservation, event or
    check-in QR code decodes to the dictionary of that type with exactly
    the fields it was generated from. *)
Theorem decode_qr_data_round_trip (a b c : string) :
  ~ In ":"%char (Str.chars a) ->
  ~ In ":"%char (Str.chars b) ->
  ~ In ":"%char (Str.chars c) ->
  decode_qr_data (reservation_qr_data a b) = Some (QrReservation a b)
  /\ decode_qr_data (event_qr_data a b) = Some (QrEvent a b)
  /\ decode_qr_data (check_in_qr_data a b c) = Some (QrCheckin a b c).
Proof.
  intros Ha Hb Hc.
  unfold reservation_qr_data, event_qr_data, check_in_qr_data.
  rewrite decode_reservation_text, decode_event_text, decode_checkin_text.
  change (":" ++ b)%string with (String ":" b).
  change (":" ++ b ++ ":" ++ c)%string with (String ":" (b ++ String ":" c)).
  rewrite !split_first by assumption.
  rewrite !split_last by assumption.
  repeat split; reflexivity.
Qed.

Lemma decode_qr_data_round_trip_witness :
  decode_qr_data (reservation_qr_data "r1" "AB12CD34")
  = Some (QrReservation "r1" "AB12CD34")
  /\ decode_qr_data (event_qr_data "r1" "AB12CD34")
     = Some (QrEvent "r1" "AB12CD34")
  /\ decode_qr_data (check_in_qr_data "r1" "AB12CD34" "u1")
     = Some (QrCheckin "r1" "AB12CD34" "u1").
Proof.
  apply (decode_qr_data_round_trip "r1" "AB12CD34" "u1");
    vm_compute; intuition discriminate.
Defined.

(** X19 (utils/qr_codes.py): an event title is cut at its first colon.
    The text [generate_event_qr_code] encodes for a title that contains a
    colon decodes to the part of the title before it: the round trip
    loses the rest. *)
Theorem decode_qr_data_cuts_event_title (id head tail : string) :
  ~ In ":"%char (Str.chars id) ->
  ~ In ":"%char (Str.chars head) ->
  decode_qr_data (event_qr_data id (head ++ ":" ++ tail))
  = Some (QrEvent id head).
Proof.
  intros Hid Hhead. unfold event_qr_data. rewrite decode_event_text.
  change (":" ++ head ++ ":" ++ tail)%string
    with (String ":" (head ++ String ":" tail)).
  rewrite !split_first by assumption.
  reflexivity.
Qed.

Lemma decode_qr_data_cuts_event_title_witness :
  decode_qr_data (event_qr_data "e1" "Taller: pintura")
  = Some (QrEvent "e1" "Taller").
Proof.
  apply (decode_qr_data_cuts_event_title "e1" "Taller" " pintura");
    vm_compute; intuition discriminate.
Defined.

End QrTexts.

Section QrCheckIn.
Import Mongo QrCodes QrFormats Checkin.
Local Open Scope list_scope.

(** X8 (api/checkin.py, utils/qr_codes.py): a QR check-in looks the
    reservation up by the id in the QR text alone.  Whatever code follows
    the id, the lookup is [find_one] on that id: the code part of the QR
    text is never compared with the stored [checkin_code]. *)
Theorem check_in_by_qr_code_ignores_code
    (regex_i : string -> option (string -> bool)) (db : Database)
    (id code : string) (event : option string) :
  ~ In ":"%char (Str.chars id) ->
  lookup_reservation regex_i db
    {| method := "qr_code"; value := reservation_qr_data id code;
       event_id := event |}
  = Found (find_one (fun r => String.eqb (res_id r) id) (reservations db)).
Proof.
  intro Hid. unfold lookup_reservation. cbn [method value String.eqb].
  change (String.eqb "qr_code" "qr_code") with true. cbv iota.
  unfold reservation_qr_data. rewrite decode_reservation_text.
  change (":" ++ code)%string with (String ":" code).
  rewrite split_first by assumption.
  destruct (Str.split code ":") as [|p ps] eqn:Hs.
  - now apply split_nonempty in Hs.
  - reflexivity.
Qed.

Lemma check_in_by_qr_code_ignores_code_witness :
  lookup_reservation Samples.no_regex
    (Samples.store [Samples.booking "r1" "AB12CD34" "u1" "e1" "confirmed"])
    {| method := "qr_code"; value := reservation_qr_data "r1" "WRONG000";
       event_id := None |}
  = Found (Some (Samples.booking "r1" "AB12CD34" "u1" "e1" "confirmed")).
Proof.
  apply (check_in_by_qr_code_ignores_code Samples.no_regex
           (Samples.store [Samples.booking "r1" "AB12CD34" "u1" "e1" "confirmed"])
           "r1" "WRONG000" None).
  vm_compute; intuition discriminate.
Defined.

(** X9 (api/checkin.py, utils/qr_codes.py): the check-in endpoint takes
    reservation QR codes only.  The texts of [generate_event_qr_code] and
    of [generate_check_in_qr_code] are valid QR data for
    [validate_qr_code_data], whatever their fields, and [check_in_user]
    answers both with "Invalid QR code format". *)
Theorem check_in_rejects_other_qr_codes
    (regex_i : string -> option (string -> bool)) (db : Database)
    (a b c : string) (event : option string) :
  validate_qr_code_data (event_qr_data a b) = true
  /\ validate_qr_code_data (check_in_qr_data a b c) = true
  /\ lookup_reservation regex_i db
       {| method := "qr_code"; value := event_qr_data a b; event_id := event |}
     = Respond "Invalid QR code format"
  /\ lookup_reservation regex_i db
       {| method := "qr_code"; value := check_in_qr_data a b c;
          event_id := event |}
     = Respond "Invalid QR code format".
Proof.
  assert (He : exists x y, decode_qr_data (event_qr_data a b)
                           = Some (QrEvent x y)).
  { unfold event_qr_data. rewrite decode_event_text.
    change (":" ++ b)%string with (String ":" b).
    destruct (split_after a b ":") as [H _].
    apply Nat.leb_le in H. rewrite H. eauto. }
  assert (Hc : exists x y z, decode_qr_data (check_in_qr_data a b c)
                             = Some (QrCheckin x y z)).
  { unfold check_in_qr_data. rewrite decode_checkin_text.
    change (":" ++ b ++ ":" ++ c)%string with (String ":" (b ++ String ":" c)).
    destruct (split_after a (b ++ String ":" c) ":") as [_ H1].
    destruct (split_after b c ":") as [H2 _].
    assert (H : 3 <= List.length
                       (Str.split (a ++ String ":" (b ++ String ":" c)) ":"))
      by lia.
    apply Nat.leb_le in H. rewrite H. eauto. }
  destruct He as (x & y & He). destruct Hc as (x' & y' & z' & Hc).
  unfold validate_qr_code_data, lookup_reservation.
  cbn [method value]. change (String.eqb "qr_code" "qr_code") with true.
  cbv iota. rewrite He, Hc. repeat split; reflexivity.
Qed.

End QrCheckIn.

(* ================================================================== *)
(** ** Validation of codes, search queries and pages *)

Section CodeCase.
Import Mongo Validation Checkin.
Local Open Scope list_scope.

Lemma lower_is_no_code_char (c : ascii) :
  Str.is_lower c = true -> is_code_char c = false.
Proof.
  unfold is_code_char, Str.is_upper, Str.is_digit, Str.is_lower.
  intro H. apply andb_true_iff in H as [H1 H2].
  apply Nat.leb_le in H1. apply Nat.leb_le in H2.
  apply orb_false_iff. split; apply andb_false_iff; right;
    apply Nat.leb_gt; lia.
Qed.

Lemma validated_code_shape (value : string) :
  validate_reservation_code value = true ->
  forallb is_code_char (firstn 8 (Str.chars value)) = true
  /\ (skipn 8 (Str.chars value) = []
      \/ skipn 8 (Str.chars value) = ["010"%char]).
Proof.
  unfold validate_reservation_code. intro H.
  apply andb_true_iff in H as [H Hrest].
  apply andb_true_iff in H as [Hall _]. split; [exact Hall|].
  destruct (skipn 8 (Str.chars value)) as [|c [|c' rest]];
    [now left| |discriminate].
  right. now apply Ascii.eqb_eq in Hrest as ->.
Qed.

(** X10 (utils/validation.py, api/checkin.py): check-in by reservation
    code is case-sensitive.  A value that passes
    [validate_reservation_code] is unchanged by [upper()], so the lookup
    compares the stored code with the value as typed; a value that
    contains a lower-case letter is answered with "Invalid reservation
    code format" instead of being normalised. *)
Theorem check_in_by_code_is_case_sensitive
    (regex_i : string -> option (string -> bool)) (db : Database)
    (value : string) (event : option string) :
  let request := {| method := "reservation_code"; value := value;
                    event_id := event |} in
  (validate_reservation_code value = true ->
   Str.upper value = value
   /\ lookup_reservation regex_i db request
      = Found (find_one (fun r => String.eqb (res_checkin_code r) value)
                        (reservations db)))
  /\ (forall c, In c (Str.chars value) -> Str.is_lower c = true ->
      validate_reservation_code value = false
      /\ lookup_reservation regex_i db request
         = Respond "Invalid reservation code format").
Proof.
  intro request. subst request. split.
  - intro Hv.
    assert (Hup : Str.upper value = value).
    { destruct (validated_code_shape value Hv) as [Hall Hrest].
      unfold Str.upper.
      rewrite <- (firstn_skipn 8 (Str.chars value)) at 1.
      rewrite map_app, (upper_code _ Hall).
      assert (Hr : map Str.upper_char (skipn 8 (Str.chars value))
                   = skipn 8 (Str.chars value))
        by (destruct Hrest as [-> | ->]; reflexivity).
      rewrite Hr, firstn_skipn. apply of_chars_chars. }
    split; [exact Hup|].
    unfold lookup_reservation. cbn [method Checkin.value].
    change (String.eqb "reservation_code" "qr_code") with false.
    change (String.eqb "reservation_code" "reservation_code") with true.
    rewrite Hv, Hup. reflexivity.
  - intros c Hin Hlow.
    assert (Hv : validate_reservation_code value = false).
    { destruct (validate_reservation_code value) eqn:Hv; [|reflexivity].
      exfalso. destruct (validated_code_shape value Hv) as [Hall Hrest].
      rewrite <- (firstn_skipn 8 (Str.chars value)) in Hin.
      apply in_app_or in Hin as [Hin|Hin].
      + rewrite forallb_forall in Hall. specialize (Hall c Hin).
        rewrite (lower_is_no_code_char c Hlow) in Hall. discriminate.
      + destruct Hrest as [Hr|Hr]; rewrite Hr in Hin; simpl in Hin;
          [contradiction|].
        destruct Hin as [<-|[]]. discriminate. }
    split; [exact Hv|].
    unfold lookup_reservation. cbn [method Checkin.value].
    change (String.eqb "reservation_code" "qr_code") with false.
    change (String.eqb "reservation_code" "reservation_code") with true.
    now rewrite Hv.
Qed.

End CodeCase.

Section SearchQueries.
Import RequestValidation.
Local Open Scope list_scope.

Lemma lstrip_shorter (l : list ascii) :
  List.length (lstrip l) <= List.length l.
Proof.
  induction l as [|c l IH]; simpl; [lia|].
  destruct (is_space c); simpl; lia.
Qed.

Lemma remove_chars (class : ascii -> bool) (s : string) :
  Str.chars (remove class s)
  = filter (fun c => negb (class c)) (Str.chars s).
Proof. unfold remove. apply chars_of_chars. Qed.

Lemma filter_shorter {A} (p : A -> bool) (l : list A) :
  List.length (filter p l) <= List.length l.
Proof.
  induction l as [|x l IH]; simpl; [lia|]. destruct (p x); simpl; lia.
Qed.

(** X20 (utils/validation.py): what [validate_search_query] lets through.
    A query it accepts comes back without any of the characters of the
    sanitising pattern and with at most 100 characters, neither longer
    than the query itself; it is refused with status 400 exactly when
    the stripped query has fewer than 2 or more than 100 characters. *)
Theorem validate_search_query_sanitized (query : string) :
  ascii_text query -> query <> ""%string ->
  let stripped := String.length (strip query) in
  match validate_search_query (Some query) with
  | Py.Return (Some sanitized) =>
      2 <= stripped <= 100
      /\ Forall (fun c => is_harmful c = false) (Str.chars sanitized)
      /\ String.length sanitized <= stripped
      /\ stripped <= String.length query
  | Py.Return None => False
  | Py.Raise e =>
      (stripped < 2 \/ 100 < stripped)
      /\ exists detail, e = Py.HTTPException 400 detail
  end.
Proof.
  intros _ Hne stripped. subst stripped.
  assert (Hv : validate_search_query (Some query)
               = if Nat.ltb (String.length (strip query)) 2
                 then Py.Raise (Py.HTTPException 400
                        "Search query must be at least 2 characters long")
                 else if Nat.ltb 100 (String.length (strip query))
                 then Py.Raise (Py.HTTPException 400
                        "Search query cannot exceed 100 characters")
                 else Py.Return (Some (remove is_harmful (strip query))))
    by (destruct query; [congruence|reflexivity]).
  rewrite Hv. clear Hv.
  destruct (Nat.ltb_spec (String.length (strip query)) 2) as [H2|H2].
  { split; [now left|eauto]. }
  destruct (Nat.ltb_spec 100 (String.length (strip query))) as [H100|H100].
  { split; [now right|eauto]. }
  split; [lia|]. split; [|split].
  - rewrite remove_chars. apply Forall_forall. intros c Hc.
    apply filter_In in Hc as [_ Hc]. now apply negb_true_iff in Hc.
  - unfold remove. rewrite length_of_chars.
    rewrite <- (of_chars_chars (strip query)) at 2.
    rewrite length_of_chars. apply filter_shorter.
  - unfold strip. rewrite length_of_chars, length_rev.
    etransitivity; [apply lstrip_shorter|]. rewrite length_rev.
    etransitivity; [apply lstrip_shorter|].
    rewrite <- (of_chars_chars query) at 2. now rewrite length_of_chars.
Qed.

Lemma validate_search_query_sanitized_witness :
  let query := "  <b>Jazz</b>; 'live'  "%string in
  let stripped := String.length (strip query) in
  match validate_search_query (Some query) with
  | Py.Return (Some sanitized) =>
      2 <= stripped <= 100
      /\ Forall (fun c => is_harmful c = false) (Str.chars sanitized)
      /\ String.length sanitized <= stripped
      /\ stripped <= String.length query
  | Py.Return None => False
  | Py.Raise e =>
      (stripped < 2 \/ 100 < stripped)
      /\ exists detail, e = Py.HTTPException 400 detail
  end.
Proof.
  apply (validate_search_query_sanitized "  <b>Jazz</b>; 'live'  ").
  - unfold ascii_text. repeat constructor.
  - discriminate.
Defined.

End SearchQueries.
(* ================================================================== *)
(** ** Capacity, authorisation and the store's invariants *)

Section CountFacts.
Import Mongo EventService Operations.
Local Open Scope list_scope.

Lemma count_as_pairs (event : string) (l : list Reservation) :
  count_documents (active_for event) l
  = Z.of_nat (List.length
                (filter (fun p => String.eqb (snd p) event)
                        (map pair_of (filter active l)))).
Proof.
  unfold count_documents. f_equal.
  induction l as [|r l IH]; [reflexivity|].
  cbn [filter]. unfold active_for at 1, active at 1.
  destruct (String.eqb (res_status r) "cancelled"); cbn [negb].
  - rewrite andb_false_r. exact IH.
  - rewrite andb_true_r. cbn [map filter pair_of snd].
    destruct (String.eqb (res_event_id r) event); cbn [List.length];
      now rewrite IH.
Qed.

Lemma count_after_insert (event : string) (l : list Reservation)
    (d : Reservation) :
  count_documents (active_for event) (insert_one d l)
  = (count_documents (active_for event) l
     + if active_for event d then 1 else 0)%Z.
Proof.
  unfold count_documents, insert_one. rewrite filter_app, length_app.
  cbn [filter]. destruct (active_for event d); cbn [List.length]; lia.
Qed.

Lemma count_after_update (q p : Reservation -> bool)
    (f : Reservation -> Reservation) (l : list Reservation) :
  (forall d, q (f d) = true -> q d = true) ->
  (count_documents q (fst (update_one p f l)) <= count_documents q l)%Z.
Proof.
  intro Hf. unfold count_documents. apply inj_le.
  induction l as [|d l IH]; cbn [update_one]; [cbn; lia|].
  destruct (p d).
  - cbn [fst filter]. specialize (Hf d).
    destruct (q (f d)), (q d); cbn [List.length]; lia.
  - destruct (update_one p f l) as [rest n]. cbn [fst filter] in *.
    destruct (q d); cbn [List.length]; lia.
Qed.

End CountFacts.

Section Capacity.
Import Mongo EventService Reservations Operations Invariants.
Local Open Scope list_scope.
Variable generate_qr_code : string -> string.
Variable regex_i : string -> option (string -> bool).
Variable other_filters : Json -> option (option string -> bool).

Lemma create_reservation_success (db : Database) (now : Datetime.datetime)
    (id : string) (draw : nat -> nat) (data : ReservationCreate) (user : User)
    (response : SuccessResponse) :
  let out := create_reservation generate_qr_code db now id draw data user in
  snd out = Py.Return response ->
  exists event d,
    get_event_by_id db (rc_event_id data) = Some event
    /\ (0 < available_spots event)%Z
    /\ fst out = with_reservations db (insert_one d (reservations db))
    /\ active_for (rc_event_id data) d = true
    /\ active d = true.
Proof.
  intro out. subst out. unfold create_reservation.
  destruct (get_event_by_id db (rc_event_id data)) as [event|] eqn:He;
    [|discriminate].
  destruct (negb _); [discriminate|].
  destruct (Datetime.strptime_ymd _) as [day|]; [|discriminate].
  destruct (Datetime.date_ltb _ _); [discriminate|].
  destruct (find_one _ _); [discriminate|].
  destruct (Z.leb_spec (available_spots event) 0) as [|Hspots]; [discriminate|].
  intros _. eexists event, _. split; [reflexivity|]. split; [exact Hspots|].
  split; [reflexivity|].
  unfold active_for, active, reservation_doc. cbn.
  now rewrite String.eqb_refl.
Qed.

Lemma event_of_view (db : Database) (id : string) (event : EventView) :
  get_event_by_id db id = Some event ->
  find_one (fun e => String.eqb (Mongo.event_id e) id) (events db)
  = Some (doc event)
  /\ available_spots event
     = Z.max 0 (event_capacity (doc event)
                - count_documents (active_for id) (reservations db)).
Proof.
  unfold get_event_by_id.
  destruct (find_one _ (events db)) as [e|]; [|discriminate].
  intro H. injection H as <-. split; reflexivity.
Qed.

(** X1 (api/reservations.py, services/event_service.py): a reservation
    created by a request that runs alone never overbooks.  When
    [create_reservation] returns, the event had a free seat, the count of
    its active reservations has grown by exactly one, and it does not
    exceed the capacity. *)
Theorem create_reservation_respects_capacity (db : Database)
    (now : Datetime.datetime) (id : string) (draw : nat -> nat)
    (data : ReservationCreate) (user : User) (response : SuccessResponse) :
  let out := create_reservation generate_qr_code db now id draw data user in
  let booked d := count_documents (active_for (rc_event_id data))
                                  (reservations d) in
  snd out = Py.Return response ->
  exists event,
    get_event_by_id db (rc_event_id data) = Some event
    /\ (0 < available_spots event)%Z
    /\ booked (fst out) = (booked db + 1)%Z
    /\ (booked (fst out) <= event_capacity (doc event))%Z.
Proof.
  intros out booked Hout. subst out booked.
  destruct (create_reservation_success db now id draw data user response Hout)
    as (event & d & He & Hspots & -> & Hd & _).
  exists event. split; [exact He|]. split; [exact Hspots|].
  cbn [with_reservations reservations]. rewrite count_after_insert, Hd.
  split; [reflexivity|].
  apply event_of_view in He as [_ Hs]. lia.
Qed.

Lemma apply_keeps_events (op : Operation) (db : Database) :
  events (apply generate_qr_code regex_i other_filters op db) = events db.
Proof.
  destruct op as [now id draw data user|now id user|now req admin
                  |now payload reason|now]; cbn [apply].
  - destruct (create_reservation_effect generate_qr_code db now id draw data
                user) as [[-> _]|(d & _ & -> & _)]; reflexivity.
  - destruct (cancel_reservation_effect db now id user)
      as [->|(r & _ & _ & _ & ->)]; reflexivity.
  - unfold Checkin.check_in_user, Checkin.check_in_body.
    destruct (Checkin.lookup_reservation regex_i db req) as [m|[r|]|e];
      try reflexivity.
    destruct (String.eqb (res_status r) "checked_in"); [reflexivity|].
    destruct (String.eqb (res_status r) "cancelled"); [reflexivity|].
    destruct (Checkin.reservation_details db (res_id r)); [reflexivity|].
    destruct (update_one _ _ (reservations db)) as [rs n].
    destruct (Nat.ltb 0 n); [|reflexivity].
    destruct (Checkin.new_CheckInResponse true "Check-in successful"
                (Some d) (Some (Datetime.isoformat now)));
      reflexivity.
  - destruct (decline_invitation_effect other_filters db now payload reason)
      as [->|(by_id & by_email & r & hit & why & _ & _ & _ & _ & _ & _ & _
              & ->)]; reflexivity.
  - reflexivity.
Qed.

(** The count of active reservations of an event after a write that is
    not a creation: it has not grown. *)
Lemma booked_not_raised (op : Operation) (db : Database) (event : string) :
  by_text_id op ->
  unique_ids db ->
  (forall now id draw data user,
      op <> CreateReservation now id draw data user) ->
  (count_documents (active_for event)
     (reservations (apply generate_qr_code regex_i other_filters op db))
   <= count_documents (active_for event) (reservations db))%Z.
Proof.
  intros Htext Hids Hop.
  destruct op as [now id draw data user|now id user|now req admin
                  |now payload reason|now]; cbn [apply].
  - now elim (Hop now id draw data user).
  - destruct (cancel_reservation_effect db now id user)
      as [->|(r & _ & _ & _ & ->)]; [lia|].
    cbn [with_reservations reservations]. apply count_after_update.
    intros d Hd. unfold active_for, Reservations.set_cancelled in Hd.
    cbn in Hd. now rewrite andb_false_r in Hd.
  - destruct (check_in_user_effect regex_i db now req admin)
      as [->|(r & Hin & _ & Hnc & ->)]; [lia|].
    rewrite !count_as_pairs, pairs_after_update; try assumption; try lia;
      try reflexivity.
    now apply (active_status r (res_status r)).
  - destruct (decline_by_text_id_effect other_filters db now payload reason
                Htext)
      as [->|(r & f & Hin & Hst & Hf & Hp & _ & ->)]; [lia|].
    cbn [with_reservations reservations].
    rewrite !count_as_pairs, pairs_after_update; try assumption; try lia.
    + apply (active_status r (res_status r)); [reflexivity|].
      destruct Hst as [-> | ->]; discriminate.
    + apply (active_status (f r) "declined"); [assumption|discriminate].
  - unfold Admin.cleanup_data. cbn [with_reservations reservations].
    rewrite !count_as_pairs, active_after_cleanup; [lia|].
    intros r Hr. apply andb_true_iff in Hr as [Hr _].
    unfold active. now rewrite Hr.
Qed.

(** X2 (api/reservations.py, api/checkin.py, api/invitations.py,
    api/admin.py): requests that run one after the other keep every event
    within its capacity.  If no event holds more active reservations than
    its capacity, the same is true after any creation, cancellation,
    check-in or clean-up, and after a declined invitation whose token
    names the reservation by a text id. *)
Theorem capacity_is_kept (op : Operation) (db : Database) :
  by_text_id op -> unique_ids db -> within_capacity db ->
  within_capacity (apply generate_qr_code regex_i other_filters op db).
Proof.
  intros Htext Hids Hcap event view Hview.
  assert (Hbefore : exists view0,
             get_event_by_id db event = Some view0 /\ doc view0 = doc view).
  { apply event_of_view in Hview as [Hfind _].
    rewrite apply_keeps_events in Hfind. unfold get_event_by_id.
    rewrite Hfind. eexists. split; reflexivity. }
  destruct Hbefore as (view0 & Hview0 & <-).
  specialize (Hcap event view0 Hview0).
  destruct op as [now id draw data user|now id user|now req admin
                  |now payload reason|now] eqn:Hop;
    try (rewrite <- Hop;
         etransitivity; [apply booked_not_raised|exact Hcap];
         [now rewrite Hop | assumption | intros; subst op; discriminate]).
  cbn [apply].
  destruct (Reservations.create_reservation generate_qr_code db now id draw
              data user) as [db' [response|e]] eqn:Hout.
  - destruct (create_reservation_success db now id draw data user response)
      as (view1 & d & Hview1 & Hspots & Hdb' & Hd & _);
      [now rewrite Hout|].
    rewrite Hout in Hdb'. cbn [fst] in *. subst db'.
    cbn [with_reservations reservations]. rewrite count_after_insert.
    destruct (active_for event d) eqn:Hed; [|lia].
    assert (event = rc_event_id data).
    { unfold active_for in Hed, Hd.
      apply andb_true_iff in Hed as [Hed _]. apply andb_true_iff in Hd as [Hd _].
      apply String.eqb_eq in Hed, Hd. congruence. }
    subst event. rewrite Hview1 in Hview0. injection Hview0 as ->.
    apply event_of_view in Hview1 as [_ Hs]. lia.
  - destruct (create_reservation_effect generate_qr_code db now id draw data
                user) as [[Hdb _]|(d & Hr & _)]; rewrite Hout in *.
    + cbn [fst] in *. now subst db'.
    + discriminate.
Qed.

(** X3 (api/reservations.py): who can cancel, and what a cancellation
    changes.  When [cancel_reservation] raises, the store is unchanged.
    When it returns, the requester owns the reservation or is an
    administrator, the reservation was not cancelled, its event (if it
    still exists) is not in the past, and the only change to the store
    is that this reservation is now cancelled, with [cancelled_at] set
    to the time of the request. *)
Theorem cancel_reservation_outcome (db : Database) (now : Datetime.datetime)
    (id : string) (user : User) :
  let out := cancel_reservation db now id user in
  match snd out with
  | Py.Raise _ => fst out = db
  | Py.Return _ =>
      exists r before after,
        reservations db = before ++ r :: after
        /\ Forall (fun x => res_id x <> id) before
        /\ res_id r = id
        /\ (res_user_id r = user_id user \/ user_is_admin user = Some true)
        /\ res_status r <> "cancelled"%string
        /\ (forall event day,
               get_event_by_id db (res_event_id r) = Some event ->
               Datetime.strptime_ymd (event_date (doc event)) = Some day ->
               Datetime.date_ltb day (Datetime.date_of now) = false)
        /\ fst out
           = with_reservations db
               (before ++ set_cancelled (Datetime.isoformat now) r :: after)
  end.
Proof.
  intro out. subst out. unfold cancel_reservation.
  destruct (find_one _ (reservations db)) as [r|] eqn:Hfind; [|reflexivity].
  destruct (negb (String.eqb (res_user_id r) (user_id user))
            && negb (is_admin user)) eqn:Hauth; [reflexivity|].
  destruct (String.eqb (res_status r) "cancelled") eqn:Hst; [reflexivity|].
  destruct (update_one_found _ (set_cancelled (Datetime.isoformat now)) _ _
              Hfind) as (before & after & Hl & Hb & Hup).
  assert (Hok : res_id r = id
                /\ (res_user_id r = user_id user
                    \/ user_is_admin user = Some true)
                /\ res_status r <> "cancelled"%string).
  { apply find_one_some in Hfind as [_ Hid]. apply String.eqb_eq in Hid.
    split; [exact Hid|]. split; [|now apply String.eqb_neq].
    apply andb_false_iff in Hauth as [H|H]; apply negb_false_iff in H.
    - left. now apply String.eqb_eq.
    - right. unfold is_admin in H.
      destruct (user_is_admin user) as [[|]|]; congruence. }
  destruct Hok as (Hid & Hwho & Hnc).
  assert (Hbefore : Forall (fun x => res_id x <> id) before).
  { eapply Forall_impl; [|exact Hb]. intros x Hx. now apply String.eqb_neq. }
  destruct (get_event_by_id db (res_event_id r)) as [event|] eqn:He.
  - destruct (Datetime.strptime_ymd (event_date (doc event))) as [day|] eqn:Hd;
      [|reflexivity].
    destruct (Datetime.date_ltb day (Datetime.date_of now)) eqn:Hpast;
      [reflexivity|].
    rewrite Hup. cbn [Nat.ltb Nat.leb snd fst].
    exists r, before, after. repeat split; try assumption.
    intros event' day' Hev Hday. rewrite He in Hev. injection Hev as <-.
    congruence.
  - rewrite Hup. cbn [Nat.ltb Nat.leb snd fst].
    exists r, before, after. repeat split; try assumption.
    intros event' day' Hev. rewrite He in Hev. discriminate.
Qed.

End Capacity.

Lemma create_reservation_respects_capacity_witness :
  let out := Reservations.create_reservation Samples.qr_image
               (Samples.store []) Samples.noon "r1" Samples.first_letters
               (Samples.request "e1") Samples.alice in
  let booked d := Mongo.count_documents (EventService.active_for "e1")
                                        (Mongo.reservations d) in
  exists event,
    EventService.get_event_by_id (Samples.store []) "e1" = Some event
    /\ (0 < EventService.available_spots event)%Z
    /\ booked (fst out) = (booked (Samples.store []) + 1)%Z
    /\ (booked (fst out) <= Mongo.event_capacity (EventService.doc event))%Z.
Proof.
  exact (create_reservation_respects_capacity Samples.qr_image
           (Samples.store []) Samples.noon "r1" Samples.first_letters
           (Samples.request "e1") Samples.alice _ eq_refl).
Defined.

Lemma capacity_is_kept_witness :
  let db := Samples.store [Samples.booking "r1" "AB12CD34" "u1" "e1" "confirmed"] in
  let op := Operations.CreateReservation Samples.noon "r2"
              Samples.first_letters (Samples.request "e1") Samples.bob in
  Invariants.within_capacity (Operations.apply Samples.qr_image
                                Samples.no_regex Samples.no_operators op db).
Proof.
  apply (capacity_is_kept Samples.qr_image Samples.no_regex
           Samples.no_operators).
  - exact I.
  - unfold Operations.unique_ids. cbn. repeat constructor. intros [].
  - intros event view H.
    unfold EventService.get_event_by_id, Mongo.find_one in H.
    change (Mongo.events (Samples.store
              [Samples.booking "r1" "AB12CD34" "u1" "e1" "confirmed"]))
      with [Samples.last_year; Samples.concert] in H.
    cbn [List.find] in H.
    change (Mongo.event_id Samples.last_year) with "e0"%string in H.
    change (Mongo.event_id Samples.concert) with "e1"%string in H.
    destruct (String.eqb_spec "e0" event) as [<-|_].
    { injection H as <-. vm_compute. discriminate. }
    destruct (String.eqb_spec "e1" event) as [<-|_]; [|discriminate].
    injection H as <-. vm_compute. discriminate.
Defined.

Section Integrity.
Import Mongo EventService Reservations Operations Invariants EventAdmin.
Local Open Scope list_scope.
Variable generate_qr_code : string -> string.
Variable regex_i : string -> option (string -> bool).
Variable other_filters : Json -> option (option string -> bool).

Lemma delete_one_keeps {A} (q : A -> bool) (l : list A) (x : A) :
  In x l -> q x = false -> In x (fst (delete_one q l)).
Proof.
  induction l as [|d l IH]; cbn [delete_one]; [intros []|].
  intros [->|Hin] Hq.
  - rewrite Hq. destruct (delete_one q l). now left.
  - destruct (q d); [exact Hin|].
    specialize (IH Hin Hq). destruct (delete_one q l). now right.
Qed.

Lemma delete_one_none {A} (q : A -> bool) (l : list A) :
  snd (delete_one q l) = 0 -> fst (delete_one q l) = l.
Proof.
  induction l as [|d l IH]; cbn [delete_one]; [reflexivity|].
  destruct (q d); [discriminate|].
  destruct (delete_one q l) as [rest n]. cbn [fst snd] in *.
  intro H. now rewrite IH.
Qed.

Lemma no_active_for (event : string) (l : list Reservation) (r : Reservation) :
  (count_documents (active_for event) l <= 0)%Z ->
  In r l -> active r = true -> res_event_id r <> event.
Proof.
  unfold count_documents. intros Hc Hin Ha He.
  assert (Hr : In r (filter (active_for event) l)).
  { apply filter_In. split; [exact Hin|]. unfold active_for.
    unfold active in Ha. rewrite Ha. subst event.
    now rewrite String.eqb_refl. }
  destruct (filter (active_for event) l); [destruct Hr|].
  cbn [List.length] in Hc. lia.
Qed.

(** What [delete_event] does to the store: nothing when it raises for
    active reservations; otherwise only [events] changes, to the list
    [delete_one] leaves. *)
Lemma delete_event_effect (db : Database) (event : string) :
  let db' := fst (delete_event db event) in
  db' = db
  \/ ((count_documents (active_for event) (reservations db) <= 0)%Z
      /\ db' = with_events db
                 (fst (delete_one (fun e => String.eqb (Mongo.event_id e) event)
                                  (events db)))).
Proof.
  unfold delete_event.
  destruct (Z.ltb_spec 0 (count_documents (active_for event) (reservations db)))
    as [|Hc]; [now left|].
  right. split; [exact Hc|].
  destruct (delete_one _ (events db)) as [es n].
  destruct (Nat.ltb 0 n); reflexivity.
Qed.

(** The active reservations after a write: each is one that was active
    before, possibly updated with its event unchanged, or the one just
    created for an event of the store. *)
Lemma active_after_write (op : Operation) (db : Database) (r' : Reservation) :
  by_text_id op ->
  unique_ids db ->
  In r' (reservations (apply generate_qr_code regex_i other_filters op db)) ->
  active r' = true ->
  (exists r, In r (reservations db) /\ active r = true
             /\ res_event_id r' = res_event_id r)
  \/ exists e, In e (events db) /\ Mongo.event_id e = res_event_id r'.
Proof.
  intros Htext Hids Hin Hact.
  destruct op as [now id draw data user|now id user|now req admin
                  |now payload reason|now]; cbn [apply] in Hin.
  - destruct (create_reservation generate_qr_code db now id draw data user)
      as [db' [response|e]] eqn:Hout.
    + destruct (create_reservation_success generate_qr_code db now id draw
                  data user response)
        as (view & d & Hview & _ & Hdb' & Hd & _); [now rewrite Hout|].
      rewrite Hout in Hdb'. cbn [fst] in *. subst db'.
      cbn [with_reservations reservations] in Hin.
      apply in_app_iff in Hin as [Hin|[<-|[]]]; [left; eauto|].
      right. apply event_of_view in Hview as [Hfind _].
      apply find_one_some in Hfind as [He Hid]. exists (doc view).
      split; [exact He|]. apply String.eqb_eq in Hid.
      unfold active_for in Hd. apply andb_true_iff in Hd as [Hd _].
      apply String.eqb_eq in Hd. congruence.
    + destruct (create_reservation_effect generate_qr_code db now id draw
                  data user) as [[Hdb _]|(d & Hr & _)]; rewrite Hout in *;
        [|discriminate].
      cbn [fst] in *. subst db'. left. eauto.
  - destruct (cancel_reservation_effect db now id user)
      as [Hdb|(t & Ht & Htid & _ & Hdb)]; rewrite Hdb in Hin;
      [left; eauto|].
    cbn [with_reservations reservations] in Hin. rewrite <- Htid in Hin.
    destruct (update_one_by_id
                (set_cancelled (Datetime.isoformat now)) (reservations db) t
                Hids Ht) as (before & after & Hl & Hup).
    rewrite Hup in Hin. left.
    apply in_app_iff in Hin as [Hin|[<-|Hin]].
    + exists r'. repeat split; try assumption.
      rewrite Hl. apply in_app_iff. now left.
    + discriminate Hact.
    + exists r'. repeat split; try assumption.
      rewrite Hl. apply in_app_iff. right. now right.
  - destruct (check_in_user_effect regex_i db now req admin)
      as [Hdb|(t & Ht & _ & Hnc & Hdb)]; rewrite Hdb in Hin;
      [left; eauto|].
    destruct (update_one_by_id
                (Checkin.set_checked_in (Datetime.isoformat now)
                   (user_id admin)) (reservations db) t
                Hids Ht) as (before & after & Hl & Hup).
    rewrite Hup in Hin. left.
    apply in_app_iff in Hin as [Hin|[<-|Hin]].
    + exists r'. repeat split; try assumption.
      rewrite Hl. apply in_app_iff. now left.
    + exists t. repeat split; try assumption.
      now apply (active_status t (res_status t)).
    + exists r'. repeat split; try assumption.
      rewrite Hl. apply in_app_iff. right. now right.
  - destruct (decline_by_text_id_effect other_filters db now payload reason
                Htext)
      as [Hdb|(t & f & Ht & Hst & _ & Hp & _ & Hdb)]; rewrite Hdb in Hin;
      [left; eauto|].
    cbn [with_reservations reservations] in Hin.
    destruct (update_one_by_id f (reservations db) t Hids Ht)
      as (before & after & Hl & Hup).
    rewrite Hup in Hin. left.
    apply in_app_iff in Hin as [Hin|[<-|Hin]].
    + exists r'. repeat split; try assumption.
      rewrite Hl. apply in_app_iff. now left.
    + exists t. split; [exact Ht|]. split.
      * apply (active_status t (res_status t)); [reflexivity|].
        destruct Hst as [-> | ->]; discriminate.
      * unfold pair_of in Hp. congruence.
    + exists r'. repeat split; try assumption.
      rewrite Hl. apply in_app_iff. right. now right.
  - unfold Admin.cleanup_data, delete_many in Hin.
    cbn [with_reservations reservations fst] in Hin.
    apply filter_In in Hin as [Hin _]. left. eauto.
Qed.

(** X4 (services/event_service.py, api/reservations.py, api/checkin.py,
    api/invitations.py): an active reservation never loses its event.  If
    every non-cancelled reservation refers to an event of the store, this
    is still so after a creation, cancellation, check-in or clean-up,
    after a declined invitation whose token names the reservation by a
    text id, and after [delete_event]: a creation needs the event to
    exist, an event that still has active reservations is not deleted,
    and no such write makes a cancelled reservation active again. *)
Theorem active_reservations_keep_their_event (req : Request) (db : Database) :
  addressed_by_text req -> unique_ids db -> referenced db ->
  referenced (perform generate_qr_code regex_i other_filters req db).
Proof.
  intros Htext Hids Href r' Hin Hact.
  destruct req as [op|event]; cbn [perform addressed_by_text] in *.
  - rewrite apply_keeps_events.
    destruct (active_after_write op db r' Htext Hids Hin Hact)
      as [(r & Hr & Ha & ->)|He]; [now apply Href|exact He].
  - destruct (delete_event_effect db event) as [Hdb|[Hc Hdb]];
      rewrite Hdb in *; [now apply Href|].
    cbn [with_events reservations events] in *.
    destruct (Href r' Hin Hact) as (e & He & Hid).
    exists e. split; [|exact Hid].
    apply delete_one_keeps; [exact He|].
    apply String.eqb_neq. rewrite Hid.
    now apply (no_active_for event (reservations db)).
Qed.

End Integrity.

Lemma active_reservations_keep_their_event_witness :
  let db := Samples.store [Samples.booking "r1" "AB12CD34" "u1" "e1" "confirmed"] in
  Invariants.referenced
    (Invariants.perform Samples.qr_image Samples.no_regex Samples.no_operators
       (Invariants.DeleteEvent "e1") db)
  /\ Mongo.events (Invariants.perform Samples.qr_image Samples.no_regex
                     Samples.no_operators (Invariants.DeleteEvent "e1") db)
     = [Samples.last_year; Samples.concert].
Proof.
  split; [|reflexivity].
  apply (active_reservations_keep_their_event Samples.qr_image
           Samples.no_regex Samples.no_operators).
  - exact I.
  - unfold Operations.unique_ids. cbn. repeat constructor. intros [].
  - intros r [<-|[]] _. exists Samples.concert. split; [|reflexivity].
    right. now left.
Defined.

Section Writes.
Import Mongo Operations Invariants.
Local Open Scope list_scope.
Variable generate_qr_code : string -> string.
Variable regex_i : string -> option (string -> bool).
Variable other_filters : Json -> option (option string -> bool).

Lemma update_one_hits {A} (q : A -> bool) (f : A -> A) (l : list A) (x : A) :
  In x l -> q x = true -> snd (update_one q f l) = 1.
Proof.
  induction l as [|d l IH]; cbn [update_one]; [intros []|].
  intros Hin Hq. destruct (q d) eqn:Hd; [reflexivity|].
  destruct Hin as [->|Hin]; [congruence|].
  specialize (IH Hin Hq). destruct (update_one q f l). exact IH.
Qed.

(** X5 (api/checkin.py): a check-in writes the reservation and its
    record together.  Ids being unique, [check_in_user] either leaves
    the store as it is, or it marks exactly the reservation it looked up
    (which was neither checked in nor cancelled) as checked in, with the
    time and the administrator, and appends exactly one record to
    [checkins] that names this reservation, its event and user, the
    administrator, the method and the same time. *)
Theorem check_in_user_writes_together (db : Database) (now : Datetime.datetime)
    (req : Checkin.CheckInRequest) (admin : User) :
  unique_ids db ->
  let db' := fst (Checkin.check_in_user regex_i db now req admin) in
  db' = db
  \/ exists r before after,
       Checkin.lookup_reservation regex_i db req = Checkin.Found (Some r)
       /\ reservations db = before ++ r :: after
       /\ res_status r <> "checked_in"%string
       /\ res_status r <> "cancelled"%string
       /\ reservations db'
          = before
            ++ Checkin.set_checked_in (Datetime.isoformat now) (user_id admin) r
            :: after
       /\ checkins db'
          = checkins db
            ++ [{| chk_reservation_id := res_id r;
                   chk_event_id := res_event_id r;
                   chk_user_id := res_user_id r;
                   chk_checked_in_by := user_id admin;
                   chk_method := Checkin.method req;
                   chk_timestamp := Datetime.isoformat now |}]
       /\ users db' = users db
       /\ events db' = events db.
Proof.
  intros Hids db'. subst db'.
  unfold Checkin.check_in_user, Checkin.check_in_body.
  destruct (Checkin.lookup_reservation regex_i db req) as [m|[r|]|e] eqn:Hl;
    try (left; reflexivity).
  pose proof (lookup_found regex_i db req r Hl) as Hin.
  destruct (String.eqb (res_status r) "checked_in") eqn:E1; [left; reflexivity|].
  destruct (String.eqb (res_status r) "cancelled") eqn:E2; [left; reflexivity|].
  destruct (Checkin.reservation_details db (res_id r)) as [|details rest];
    [left; reflexivity|].
  apply String.eqb_neq in E1, E2.
  destruct (update_one_by_id
              (Checkin.set_checked_in (Datetime.isoformat now) (user_id admin))
              (reservations db) r Hids Hin) as (before & after & Hb & Hup).
  pose proof (update_one_hits
                (fun x => String.eqb (res_id x) (res_id r))
                (Checkin.set_checked_in (Datetime.isoformat now) (user_id admin))
                (reservations db) r Hin (String.eqb_refl _)) as Hn.
  destruct (update_one _ _ (reservations db)) as [rs n].
  cbn [fst snd] in Hup, Hn. subst rs n. cbn [Nat.ltb Nat.leb].
  right. exists r, before, after.
  destruct (Checkin.new_CheckInResponse true "Check-in successful"
              (Some details) (Some (Datetime.isoformat now)));
    cbn; repeat split; assumption.
Qed.

(** X12 (api/admin.py, api/reservations.py, api/checkin.py,
    api/invitations.py): a cancelled reservation is final for every write
    that names its reservation by a text.  Ids being unique and new ids
    fresh, after a creation, cancellation, check-in or clean-up, and after
    a declined invitation whose token carries a text id, a document that
    carries the id of a cancelled reservation is that very document,
    unchanged (the clean-up may delete it; none of these revives it). *)
Theorem cancelled_is_final (op : Operation) (db : Database)
    (r r' : Reservation) :
  by_text_id op -> fresh op db -> unique_ids db ->
  In r (reservations db) -> res_status r = "cancelled"%string ->
  In r' (reservations (apply generate_qr_code regex_i other_filters op db)) ->
  res_id r' = res_id r ->
  r' = r.
Proof.
  unfold unique_ids. intros Htext Hfresh Hids Hr Hst Hr' Hid.
  destruct op as [now id draw data user|now id user|now req admin
                  |now payload reason|now]; cbn [apply] in Hr'.
  - destruct (create_reservation_effect generate_qr_code db now id draw data
                user) as [[Hdb _]|(d & _ & Hdb & Hd & _)]; rewrite Hdb in Hr'.
    + now apply (same_id_same_document (reservations db)).
    + cbn [reservations with_reservations] in Hr'.
      apply in_app_iff in Hr' as [Hr'|[<-|[]]].
      * now apply (same_id_same_document (reservations db)).
      * exfalso. apply Hfresh. rewrite <- Hd, Hid. now apply in_map.
  - destruct (cancel_reservation_effect db now id user)
      as [Hdb|(t & Ht & Htid & Hts & Hdb)]; rewrite Hdb in Hr'.
    + now apply (same_id_same_document (reservations db)).
    + cbn [reservations with_reservations] in Hr'. rewrite <- Htid in Hr'.
      destruct (after_update_by_id
                  (Reservations.set_cancelled (Datetime.isoformat now))
                  (reservations db) t r r' (fun d => eq_refl) Hids Ht Hr Hr' Hid)
        as [->|[-> _]]; [reflexivity|contradiction].
  - destruct (check_in_user_effect regex_i db now req admin)
      as [Hdb|(t & Ht & _ & Hts & Hdb)]; rewrite Hdb in Hr'.
    + now apply (same_id_same_document (reservations db)).
    + destruct (after_update_by_id
                  (Checkin.set_checked_in (Datetime.isoformat now)
                     (user_id admin))
                  (reservations db) t r r' (fun d => eq_refl) Hids Ht Hr Hr' Hid)
        as [->|[-> _]]; [reflexivity|contradiction].
  - destruct (decline_by_text_id_effect other_filters db now payload reason
                Htext)
      as [Hdb|(t & f & Ht & Hts & _ & _ & Hf & Hdb)]; rewrite Hdb in Hr'.
    + now apply (same_id_same_document (reservations db)).
    + cbn [reservations with_reservations] in Hr'.
      destruct (after_update_by_id f (reservations db) t r r' Hf Hids Ht Hr
                  Hr' Hid) as [->|[-> _]]; [reflexivity|].
      destruct Hts as [Hts|Hts]; rewrite Hts in Hst; discriminate.
  - unfold Admin.cleanup_data, delete_many in Hr'.
    cbn [reservations with_reservations fst] in Hr'.
    apply filter_In in Hr' as [Hr' _].
    now apply (same_id_same_document (reservations db)).
Qed.

(** X13 (api/reservations.py, api/checkin.py, api/invitations.py,
    api/admin.py): the statuses the handlers ever store.  Starting from
    a store without reservations, after any sequence of creations,
    cancellations, check-ins, declined invitations and clean-ups no
    reservation carries a [user_email] and every reservation is
    confirmed, checked in, cancelled or declined (never pending); and
    none is declined when every invitation token of the sequence gives
    the address as a text. *)
Theorem statuses_after_any_history (ops : list Operation) (db : Database) :
  reservations db = [] ->
  let after :=
    reservations (history generate_qr_code regex_i other_filters ops db) in
  Forall (fun r => res_user_email r = None
                   /\ (res_status r = "confirmed"%string
                       \/ res_status r = "checked_in"%string
                       \/ res_status r = "cancelled"%string
                       \/ res_status r = "declined"%string))
         after
  /\ (Forall by_text_email ops ->
      Forall (fun r => res_user_email r = None
                       /\ (res_status r = "confirmed"%string
                           \/ res_status r = "checked_in"%string
                           \/ res_status r = "cancelled"%string))
             after).
Proof.
  intros Hempty after. subst after. split.
  - assert (H : Forall (fun r => res_user_email r = None
                                 /\ (lifecycle_status (res_status r)
                                     \/ res_status r = "declined"%string))
                       (reservations
                          (history generate_qr_code regex_i other_filters
                             ops db))).
    { assert (H : Forall (fun r => res_user_email r = None
                                   /\ (lifecycle_status (res_status r)
                                       \/ res_status r = "declined"%string))
                         (reservations db))
        by (rewrite Hempty; constructor).
      clear Hempty. revert db H. unfold history.
      induction ops as [|op ops IH]; intros db H; cbn [fold_left];
        [exact H|].
      apply IH.
      exact (stored_statuses_preserved generate_qr_code regex_i
               other_filters op db H). }
    eapply Forall_impl; [|exact H].
    unfold lifecycle_status. intros r [He Hs]. split; [exact He|]. tauto.
  - intro Htext.
    assert (H : created_here db)
      by (unfold created_here; rewrite Hempty; constructor).
    clear Hempty. revert db H. unfold history.
    induction Htext as [|op ops Hop _ IH]; intros db H; cbn [fold_left].
    + exact H.
    + apply IH. now apply created_here_preserved.
Qed.

(** X14 (api/invitations.py): whom a declined invitation reaches, on a
    store whose reservations are as the handlers write them (no
    [user_email] field).  A token that gives the address as a text never
    applies: the store is unchanged and the answer is an error (status
    400 or 404, or the error page when the id is refused as a filter).
    A token whose id and address are [{"$ne": text}] documents applies as
    soon as some reservation with another id than that text is
    confirmed: the first stored reservation with such an id is set to
    declined, whatever its status and whoever holds it, and a page is
    returned. *)
Theorem decline_invitation_reach (db : Database) (now : Datetime.datetime)
    (payload : Invitations.Payload) (reason : option string) :
  created_here db ->
  let out := Invitations.decline_invitation_via_email other_filters db now
               payload reason in
  (Invitations.is_text (Invitations.user_email payload) = true ->
   fst out = db
   /\ (snd out = Py.Return 500
       \/ exists status detail,
            snd out = Py.Raise (Py.HTTPException status detail)
            /\ (status = 400 \/ status = 404)))
  /\ (forall id email r,
         Invitations.invitation_type payload = JString "event_invitation" ->
         Invitations.invitation_id payload = JObject [("$ne"%string, JString id)] ->
         Invitations.user_email payload = JObject [("$ne"%string, JString email)] ->
         In r (reservations db) ->
         res_id r <> id -> res_status r = "confirmed"%string ->
         exists before hit after why,
           reservations db = before ++ hit :: after
           /\ Forall (fun x => res_id x = id) before
           /\ res_id hit <> id
           /\ fst out
              = with_reservations db
                  (before
                   ++ Invitations.set_declined why (Datetime.isoformat now) hit
                   :: after)
           /\ exists code, snd out = Py.Return code).
Proof.
  intros Hown out. subst out. unfold created_here in Hown. split.
  - intro Htext.
    unfold Invitations.decline_invitation_via_email.
    destruct (negb _);
      [split; [reflexivity|right; exists 400; eexists; split;
                           [reflexivity|now left]]|].
    destruct (Invitations.equals_text _ "event_invitation");
      [|split; [reflexivity|right; exists 400; eexists; split;
                            [reflexivity|now left]]].
    destruct (field_filter other_filters (Invitations.invitation_id payload))
      as [by_id|]; [|split; [reflexivity|now left]].
    destruct (Invitations.user_email payload) as [| | | |address| |];
      try discriminate.
    cbn [field_filter].
    destruct (find_one _ (reservations db)) as [r|] eqn:Hfind;
      [|split; [reflexivity|right; exists 404; eexists; split;
                            [reflexivity|now right]]].
    exfalso. apply find_one_some in Hfind as [Hin Hq].
    rewrite Forall_forall in Hown. destruct (Hown r Hin) as [Hnone _].
    unfold Invitations.invitation_query in Hq. rewrite Hnone in Hq.
    cbn [eq_field] in Hq. now rewrite andb_false_r in Hq.
  - intros id email r Htype Hid Hemail Hin Hrid Hst.
    unfold Invitations.decline_invitation_via_email.
    rewrite Htype, Hid, Hemail.
    cbn [Invitations.json_truthy Invitations.equals_text andb negb
         field_filter].
    change (String.eqb "event_invitation" "") with false.
    change (String.eqb "event_invitation" "event_invitation") with true.
    change (String.eqb "$ne" "$ne") with true. cbn [andb negb]. cbv iota.
    rewrite Forall_forall in Hown.
    assert (Hrid' : negb (String.eqb (res_id r) id) = true)
      by (apply negb_true_iff; now apply String.eqb_neq).
    assert (Hfound : exists found,
               find_one (Invitations.invitation_query
                           (fun f => negb (eq_field f id))
                           (fun f => negb (eq_field f email)))
                        (reservations db) = Some found).
    { destruct (find_one _ (reservations db)) as [found|] eqn:Hf; [eauto|].
      pose proof (find_none _ _ Hf r Hin) as Hn.
      unfold Invitations.invitation_query in Hn.
      destruct (Hown r Hin) as [Hnone _]. rewrite Hnone, Hst in Hn.
      cbn [eq_field] in Hn. rewrite Hrid' in Hn. discriminate Hn. }
    destruct Hfound as [found ->].
    assert (Hhit : exists hit,
               find_one (fun x => negb (eq_field (Some (res_id x)) id))
                        (reservations db) = Some hit).
    { destruct (find_one (fun x => negb (eq_field (Some (res_id x)) id))
                         (reservations db)) as [hit|] eqn:Hf; [eauto|].
      pose proof (find_none _ _ Hf r Hin) as Hn. cbn [eq_field] in Hn.
      congruence. }
    destruct Hhit as [hit Hhit].
    set (why := if Invitations.truthy reason then Invitations.text reason
                else "Declined via email"%string).
    destruct (update_one_found _
                (Invitations.set_declined why (Datetime.isoformat now)) _ _
                Hhit) as (before & after & Hl & Hbefore & Hup).
    rewrite Hup, Hhit.
    pose proof Hhit as Hq. apply find_one_some in Hq as [Hhin Hq].
    cbn [eq_field] in Hq. apply negb_true_iff, String.eqb_neq in Hq.
    assert (Hfresh : Invitations.already_declined why (Datetime.isoformat now)
                       hit = false).
    { unfold Invitations.already_declined.
      destruct (Hown hit Hhin) as [_ [Hs|[Hs|Hs]]]; rewrite Hs; reflexivity. }
    rewrite Hfresh. cbn [Nat.eqb].
    exists before, hit, after, why.
    split; [exact Hl|]. split.
    { eapply Forall_impl; [|exact Hbefore]. intros x Hx. cbn [eq_field] in Hx.
      apply negb_false_iff in Hx. now apply String.eqb_eq. }
    split; [exact Hq|].
    destruct (field_filter other_filters (Invitations.event_id payload));
      cbn [fst snd]; split; eauto.
Qed.

End Writes.

Lemma check_in_user_writes_together_witness :
  let held := Samples.booking "r1" "AB12CD34" "u1" "e1" "confirmed" in
  let db := Samples.store [held] in
  let req := {| Checkin.method := "reservation_code";
                Checkin.value := "AB12CD34"; Checkin.event_id := None |} in
  let db' := fst (Checkin.check_in_user Samples.no_regex db Samples.noon req
                    Samples.staff) in
  db' = db
  \/ exists r before after,
       Checkin.lookup_reservation Samples.no_regex db req
       = Checkin.Found (Some r)
       /\ Mongo.reservations db = (before ++ r :: after)%list
       /\ Mongo.res_status r <> "checked_in"
       /\ Mongo.res_status r <> "cancelled"
       /\ Mongo.reservations db'
          = (before
             ++ Checkin.set_checked_in (Datetime.isoformat Samples.noon)
                  (Mongo.user_id Samples.staff) r
             :: after)%list
       /\ Mongo.checkins db'
          = (Mongo.checkins db
             ++ [{| Mongo.chk_reservation_id := Mongo.res_id r;
                    Mongo.chk_event_id := Mongo.res_event_id r;
                    Mongo.chk_user_id := Mongo.res_user_id r;
                    Mongo.chk_checked_in_by := Mongo.user_id Samples.staff;
                    Mongo.chk_method := Checkin.method req;
                    Mongo.chk_timestamp := Datetime.isoformat Samples.noon |}])%list
       /\ Mongo.users db' = Mongo.users db
       /\ Mongo.events db' = Mongo.events db.
Proof.
  apply (check_in_user_writes_together Samples.no_regex).
  unfold Operations.unique_ids. cbn. repeat constructor. intros [].
Defined.

Lemma cancelled_is_final_witness :
  let gone := Samples.invited "r1" "u1" "e1" "cancelled" "alice@example.com" in
  let db := Samples.store [gone] in
  let op := Operations.DeclineInvitation Samples.noon Samples.mailed None in
  In gone (Mongo.reservations db)
  /\ In gone (Mongo.reservations
                (Operations.apply Samples.qr_image Samples.no_regex
                   Samples.no_operators op db))
  /\ gone = gone.
Proof.
  split; [now left|]. split; [now left|].
  apply (cancelled_is_final Samples.qr_image Samples.no_regex
           Samples.no_operators
           (Operations.DeclineInvitation Samples.noon Samples.mailed None)
           (Samples.store [Samples.invited "r1" "u1" "e1" "cancelled"
                             "alice@example.com"])).
  - reflexivity.
  - exact I.
  - unfold Operations.unique_ids. cbn. repeat constructor. intros [].
  - now left.
  - reflexivity.
  - now left.
  - reflexivity.
Defined.

Lemma statuses_after_any_history_witness :
  let ops := [Operations.CreateReservation Samples.noon "r1"
                Samples.first_letters (Samples.request "e1") Samples.alice;
              Operations.DeclineInvitation Samples.noon Samples.mailed None;
              Operations.CancelReservation Samples.noon "r1" Samples.alice] in
  map Mongo.res_status
      (Mongo.reservations
         (Invariants.history Samples.qr_image Samples.no_regex
            Samples.no_operators ops (Samples.store [])))
  = ["cancelled"]
  /\ Forall (fun r => Mongo.res_user_email r = None
                      /\ (Mongo.res_status r = "confirmed"
                          \/ Mongo.res_status r = "checked_in"
                          \/ Mongo.res_status r = "cancelled"))
       (Mongo.reservations
          (Invariants.history Samples.qr_image Samples.no_regex
             Samples.no_operators ops (Samples.store []))).
Proof.
  intro ops. split; [reflexivity|].
  apply (statuses_after_any_history Samples.qr_image Samples.no_regex
           Samples.no_operators ops (Samples.store []) eq_refl).
  repeat constructor.
Defined.

Lemma decline_invitation_reach_witness :
  let db := Samples.store
              [Samples.booking "r1" "AB12CD34" "u1" "e1" "cancelled";
               Samples.booking "r2" "EF56GH78" "u1" "e1" "confirmed"] in
  let mailed := Invitations.decline_invitation_via_email Samples.no_operators
                  db Samples.noon Samples.mailed None in
  let forged := Invitations.decline_invitation_via_email Samples.no_operators
                  db Samples.noon Samples.forged None in
  fst mailed = db
  /\ snd mailed = Py.Raise (Py.HTTPException 404
                              "Invitation not found or already processed")
  /\ map Mongo.res_status (Mongo.reservations (fst forged))
     = ["declined"; "confirmed"]
  /\ snd forged = Py.Return 200
  /\ exists before hit after why,
       Mongo.reservations db = (before ++ hit :: after)%list
       /\ Forall (fun x => Mongo.res_id x = "") before
       /\ Mongo.res_id hit <> ""
       /\ fst forged
          = Mongo.with_reservations db
              (before
               ++ Invitations.set_declined why
                    (Datetime.isoformat Samples.noon) hit
               :: after)%list
       /\ exists code, snd forged = Py.Return code.
Proof.
  intros db mailed forged.
  split; [reflexivity|]. split; [reflexivity|]. split; [reflexivity|].
  split; [reflexivity|].
  refine (proj2 (decline_invitation_reach Samples.no_operators db
                   Samples.noon Samples.forged None _)
                "" "" (Samples.booking "r2" "EF56GH78" "u1" "e1" "confirmed")
                eq_refl eq_refl eq_refl _ _ eq_refl).
  - unfold Operations.created_here, Operations.lifecycle_status.
    repeat (apply Forall_cons || apply Forall_nil);
      (split; [reflexivity|]); cbn;
      first [now left | now (right; left) | now (right; right)].
  - right. now left.
  - discriminate.
Defined.

(* ================================================================== *)
(** ** The reading handlers *)

Section Views.
Import Mongo ReservationViews RequestValidation InterestDetection.
Local Open Scope list_scope.

Lemma skipn_Sorted {A} (R : A -> A -> Prop) (n : nat) (l : list A) :
  Sorted R l -> Sorted R (skipn n l).
Proof.
  revert l. induction n as [|n IH]; intros l H; [exact H|].
  destruct l as [|x l]; [constructor|]. cbn [skipn]. apply IH.
  now inversion H.
Qed.

Lemma skipn_incl {A} (n : nat) (l : list A) (x : A) :
  In x (skipn n l) -> In x l.
Proof.
  revert l. induction n as [|n IH]; intros l H; [exact H|].
  destruct l as [|y l]; [exact H|]. right. now apply IH.
Qed.

Lemma insert_by_length {A} (precedes : A -> A -> bool) (x : A) (l : list A) :
  List.length (insert_by precedes x l) = S (List.length l).
Proof.
  induction l as [|y l IH]; cbn [insert_by]; [reflexivity|].
  destruct (precedes y x); cbn [List.length]; now rewrite ?IH.
Qed.

Lemma sort_by_length {A} (precedes : A -> A -> bool) (l : list A) :
  List.length (sort_by precedes l) = List.length l.
Proof.
  unfold sort_by. induction l as [|x l IH]; [reflexivity|].
  cbn [fold_right]. now rewrite insert_by_length, IH.
Qed.

Lemma with_event_In {B} (project : Reservation -> Event -> B) (db : Database)
    (rs : list Reservation) (i : B) :
  In i (with_event project db rs) ->
  exists r e, In r rs /\ In e (events db)
              /\ event_id e = res_event_id r /\ i = project r e.
Proof.
  unfold with_event. intro H. apply in_flat_map in H as (r & Hr & H).
  apply in_map_iff in H as (e & <- & He). unfold find in He.
  apply filter_In in He as [He Hid]. apply String.eqb_eq in Hid.
  exists r, e. repeat split; assumption.
Qed.

Lemma with_event_length {B} (project : Reservation -> Event -> B)
    (db : Database) (rs : list Reservation) :
  (forall r, In r rs ->
             List.length (find (fun e => String.eqb (event_id e) (res_event_id r))
                               (events db)) = 1) ->
  List.length (with_event project db rs) = List.length rs.
Proof.
  unfold with_event. induction rs as [|r rs IH]; intro H; [reflexivity|].
  cbn [flat_map]. rewrite length_app, length_map, H by now left.
  cbn [List.length]. rewrite IH; [reflexivity|].
  intros x Hx. apply H. now right.
Qed.

Lemma validate_pagination_cases (skip limit : Z) :
  (validate_pagination skip limit = Py.Return (skip, limit)
   /\ (0 <= skip)%Z /\ (1 <= limit <= 100)%Z)
  \/ ((exists detail,
          validate_pagination skip limit
          = Py.Raise (Py.HTTPException 400 detail))
      /\ (skip < 0 \/ limit < 1 \/ 100 < limit)%Z).
Proof.
  unfold validate_pagination.
  destruct (Z.ltb_spec skip 0); [right; split; [eauto|lia]|].
  destruct (Z.ltb_spec limit 1); [right; split; [eauto|lia]|].
  destruct (Z.ltb_spec 100 limit); [right; split; [eauto|lia]|].
  left. repeat split; lia.
Qed.

(** X15 (api/reservations.py, utils/validation.py): what a page of
    [get_user_reservations] holds.  The request is refused with status
    400 exactly when [skip] is negative or [limit] is outside 1..100.
    Otherwise the page has at most [limit] entries; each is a stored
    reservation of the requesting user (with the status asked for, when
    a filter is given) joined with its event; the entries are ordered
    from the newest [created_at] to the oldest; [total] counts the
    user's matching reservations; and when every reservation has exactly
    one event, the page holds as many entries as [skip], [limit] and
    [total] call for. *)
Theorem get_user_reservations_page (db : Database) (skip limit : Z)
    (status_filter : option string) (user : User) :
  let query := user_query (user_id user) status_filter in
  match get_user_reservations db skip limit status_filter user with
  | Py.Raise e =>
      (skip < 0 \/ limit < 1 \/ 100 < limit)%Z
      /\ exists detail, e = Py.HTTPException 400 detail
  | Py.Return p =>
      (0 <= skip)%Z /\ (1 <= limit <= 100)%Z
      /\ List.length (items p) <= Z.to_nat limit
      /\ Forall (fun i =>
                   exists r e,
                     In r (reservations db) /\ In e (events db)
                     /\ res_user_id r = user_id user
                     /\ (forall s, Checkin.given status_filter = Some s ->
                                   res_status r = s)
                     /\ event_id e = res_event_id r
                     /\ i = listed r e)
                (items p)
      /\ Sorted (fun a b => String.ltb (li_created_at a) (li_created_at b)
                            = false)
                (items p)
      /\ total p = count_documents query (reservations db)
      /\ ((forall r, In r (reservations db) ->
             List.length (find (fun e => String.eqb (event_id e)
                                                    (res_event_id r))
                               (events db)) = 1) ->
          Z.of_nat (List.length (items p))
          = Z.min limit (Z.max 0 (total p - skip)))
  end.
Proof.
  intro query. unfold get_user_reservations.
  destruct (validate_pagination_cases skip limit)
    as [(-> & Hs & Hl)|((detail & ->) & Hbad)]; cbn [Py.bind].
  2: { split; [exact Hbad|eauto]. }
  fold query. cbn [items total].
  split; [exact Hs|]. split; [exact Hl|].
  split; [apply firstn_at_most|].
  split.
  { apply Forall_forall. intros i Hi.
    apply firstn_incl in Hi. apply skipn_incl in Hi.
    apply sort_by_In in Hi.
    apply with_event_In in Hi as (r & e & Hr & He & Hid & ->).
    unfold find in Hr. apply filter_In in Hr as [Hr Hq].
    unfold query, user_query in Hq. apply andb_true_iff in Hq as [Hu Hf].
    apply String.eqb_eq in Hu.
    exists r, e. repeat split; try assumption.
    intros s Hgiven. rewrite Hgiven in Hf. now apply String.eqb_eq. }
  split.
  { apply firstn_Sorted, skipn_Sorted.
    apply (sort_by_Sorted newest_first).
    intros a b. apply string_ltb_asym. }
  split; [reflexivity|].
  intro Hone. rewrite length_firstn, length_skipn, sort_by_length.
  rewrite with_event_length.
  - unfold count_documents, find. lia.
  - intros r Hr. apply Hone. unfold find in Hr.
    now apply filter_In in Hr.
Qed.

(** X16 (api/reservations.py): the page numbers of a paginated answer
    agree with each other.  In an answer of [get_user_reservations],
    [total_pages] is [total] divided by [limit] and rounded up; [has_next]
    implies that [page] is below [total_pages], and the converse holds
    when [skip] is a multiple of [limit]; a first page ([has_previous]
    false) is page 1. *)
Theorem get_user_reservations_page_numbers (db : Database) (skip limit : Z)
    (status_filter : option string) (user : User)
    (p : PaginatedResponse Listed) :
  get_user_reservations db skip limit status_filter user = Py.Return p ->
  (page_size p = limit /\ 1 <= page p /\ 0 <= total p)%Z
  /\ ((total_pages p - 1) * limit < total p <= total_pages p * limit)%Z
  /\ (has_next p = true -> page p < total_pages p)%Z
  /\ ((skip mod limit = 0)%Z -> (page p < total_pages p)%Z ->
      has_next p = true)
  /\ (has_previous p = false -> page p = 1%Z).
Proof.
  unfold get_user_reservations.
  destruct (validate_pagination_cases skip limit)
    as [(-> & Hs & Hl)|((detail & ->) & Hbad)]; cbn [Py.bind];
    [|discriminate].
  intro H. injection H as <-.
  cbn [page page_size total total_pages has_next has_previous].
  set (total := count_documents _ _).
  assert (Ht : (0 <= total)%Z) by (unfold total, count_documents; lia).
  assert (Hq : (0 <= skip / limit)%Z) by (apply Z.div_pos; lia).
  pose proof (Z.div_mod (total + limit - 1) limit ltac:(lia)) as Hdm.
  pose proof (Z.mod_pos_bound (total + limit - 1) limit ltac:(lia)) as Hmb.
  pose proof (Z.div_mod skip limit ltac:(lia)) as Hsd.
  pose proof (Z.mod_pos_bound skip limit ltac:(lia)) as Hsb.
  repeat split; try lia.
  all: try (intros; nia).
Qed.

End Views.

Lemma get_user_reservations_page_numbers_witness :
  let db := Samples.store [Samples.booking "r1" "AB12CD34" "u1" "e1" "confirmed"] in
  exists p,
    ReservationViews.get_user_reservations db 0 20 None Samples.alice
    = Py.Return p
    /\ (ReservationViews.page_size p = 20 /\ 1 <= ReservationViews.page p
        /\ 0 <= ReservationViews.total p)%Z
    /\ ((ReservationViews.total_pages p - 1) * 20 < ReservationViews.total p
        <= ReservationViews.total_pages p * 20)%Z
    /\ (ReservationViews.has_next p = true ->
        ReservationViews.page p < ReservationViews.total_pages p)%Z
    /\ ((0 mod 20 = 0)%Z ->
        (ReservationViews.page p < ReservationViews.total_pages p)%Z ->
        ReservationViews.has_next p = true)
    /\ (ReservationViews.has_previous p = false ->
        ReservationViews.page p = 1%Z).
Proof.
  eexists. split; [reflexivity|].
  apply (get_user_reservations_page_numbers
           (Samples.store [Samples.booking "r1" "AB12CD34" "u1" "e1" "confirmed"])
           0 20 None Samples.alice).
  reflexivity.
Defined.

Section Access.
Import Mongo ReservationViews.
Local Open Scope list_scope.

Lemma with_event_and_user_In (db : Database) (rs : list Reservation)
    (d : Detailed) :
  In d (with_event_and_user db rs)
  <-> exists r e u,
        In r rs /\ In e (events db) /\ In u (users db)
        /\ event_id e = res_event_id r /\ user_id u = res_user_id r
        /\ d = detailed r e u.
Proof.
  unfold with_event_and_user, find. split.
  - intro H. apply in_flat_map in H as (r & Hr & H).
    apply in_flat_map in H as (e & He & H).
    apply in_map_iff in H as (u & <- & Hu).
    apply filter_In in He as [He Hei]. apply filter_In in Hu as [Hu Hui].
    apply String.eqb_eq in Hei, Hui. exists r, e, u. repeat split; assumption.
  - intros (r & e & u & Hr & He & Hu & Hei & Hui & ->).
    apply in_flat_map. exists r. split; [exact Hr|].
    apply in_flat_map. exists e. split.
    { apply filter_In. split; [exact He|]. now apply String.eqb_eq. }
    apply in_map. apply filter_In. split; [exact Hu|].
    now apply String.eqb_eq.
Qed.

(** X17 (api/reservations.py): who gets to read a reservation.
    [get_reservation] returns a reservation only to its owner or to an
    administrator, and what it returns is a stored reservation with the
    requested id, joined with its event and its user.  It answers 404
    exactly when no reservation with that id has both its event and its
    user in the store, and 403 only to a requester who is neither the
    owner nor an administrator. *)
Theorem get_reservation_access (db : Database) (id : string) (user : User) :
  let readable r e u :=
    In r (reservations db) /\ In e (events db) /\ In u (users db)
    /\ res_id r = id /\ event_id e = res_event_id r
    /\ user_id u = res_user_id r in
  match get_reservation db id user with
  | Py.Return response =>
      (de_user_id (data response) = user_id user
       \/ user_is_admin user = Some true)
      /\ de_id (data response) = id
      /\ exists r e u, readable r e u /\ data response = detailed r e u
  | Py.Raise e =>
      (e = Py.HTTPException 404 "Reservation not found"
       /\ forall r e u, ~ readable r e u)
      \/ (e = Py.HTTPException 403 "Not authorized to access this reservation"
          /\ user_is_admin user <> Some true
          /\ exists r e u, readable r e u /\ res_user_id r <> user_id user)
  end.
Proof.
  intro readable. unfold get_reservation.
  pose proof (with_event_and_user_In db
                (find (fun r => String.eqb (res_id r) id) (reservations db)))
    as Hin.
  assert (Hread : forall d,
             In d (with_event_and_user db
                     (find (fun r => String.eqb (res_id r) id)
                           (reservations db)))
             <-> exists r e u, readable r e u /\ d = detailed r e u).
  { intro d. rewrite Hin. unfold readable, find. split.
    - intros (r & e & u & Hr & He & Hu & Hei & Hui & ->).
      apply filter_In in Hr as [Hr Hid]. apply String.eqb_eq in Hid.
      exists r, e, u. repeat split; assumption.
    - intros (r & e & u & (Hr & He & Hu & Hid & Hei & Hui) & ->).
      exists r, e, u. repeat split; try assumption.
      apply filter_In. split; [exact Hr|]. now apply String.eqb_eq. }
  clear Hin.
  destruct (with_event_and_user db _) as [|d rest].
  - left. split; [reflexivity|]. intros r e u Hr.
    apply (proj2 (Hread (detailed r e u))). eauto.
  - destruct (proj1 (Hread d) (or_introl eq_refl))
      as (r & e & u & Hr & ->).
    destruct (negb (String.eqb (de_user_id (detailed r e u)) (user_id user))
              && negb (Reservations.is_admin user)) eqn:Hauth.
    + right. split; [reflexivity|].
      apply andb_true_iff in Hauth as [Ho Ha].
      apply negb_true_iff in Ho, Ha. apply String.eqb_neq in Ho.
      split.
      * unfold Reservations.is_admin in Ha. intro H. now rewrite H in Ha.
      * exists r, e, u. split; [exact Hr|].
        destruct Hr as (_ & _ & _ & _ & _ & Hu). cbn [detailed de_user_id] in Ho.
        congruence.
    + cbn [data]. split; [|split].
      * apply andb_false_iff in Hauth as [H|H]; apply negb_false_iff in H.
        -- left. now apply String.eqb_eq.
        -- right. unfold Reservations.is_admin in H.
           destruct (user_is_admin user) as [[|]|]; congruence.
      * destruct Hr as (_ & _ & _ & Hid & _). exact Hid.
      * eauto.
Qed.

End Access.

Section LookupByPerson.
Import Mongo Checkin.
Local Open Scope list_scope.
Variable regex_i : string -> option (string -> bool).

Lemma pick_first (rs : list Reservation) (event : option string)
    (none_found : string) (r : Reservation) :
  pick rs event none_found = Found (Some r) ->
  exists more, rs = r :: more /\ (more = [] \/ event <> None).
Proof.
  unfold pick. destruct rs as [|x more]; [discriminate|].
  destruct (Nat.ltb 1 (List.length (x :: more))
            && match event with Some _ => false | None => true end) eqn:Hm;
    [discriminate|].
  intro H. injection H as ->. exists more. split; [reflexivity|].
  apply andb_false_iff in Hm as [Hm|Hm].
  - left. apply Nat.ltb_ge in Hm. destruct more; [reflexivity|].
    cbn [List.length] in Hm. lia.
  - right. now destruct event.
Qed.

Lemma picked_reservation (db : Database) (user : string)
    (event : option string) (none_found : string) (r : Reservation) :
  pick (find (active_query user (given event)) (reservations db))
       (given event) none_found = Found (Some r) ->
  In r (reservations db)
  /\ res_user_id r = user
  /\ res_status r = "confirmed"%string
  /\ (forall e, given event = Some e -> res_event_id r = e)
  /\ (given event = None ->
      forall r', In r' (reservations db) -> res_user_id r' = user ->
                 res_status r' = "confirmed"%string -> r' = r).
Proof.
  intro H. apply pick_first in H as (more & Hfind & Hmore).
  assert (Hin : In r (find (active_query user (given event))
                           (reservations db)))
    by (rewrite Hfind; now left).
  unfold find in Hin. apply filter_In in Hin as [Hin Hq].
  unfold active_query in Hq.
  apply andb_true_iff in Hq as [Hq He]. apply andb_true_iff in Hq as [Hu Hs].
  apply String.eqb_eq in Hu, Hs.
  split; [exact Hin|]. split; [exact Hu|]. split; [exact Hs|]. split.
  - intros e Hgiven. rewrite Hgiven in He. now apply String.eqb_eq in He.
  - intros Hnone r' Hr' Hu' Hs'. destruct Hmore as [->|Hne]; [|contradiction].
    assert (H' : In r' (find (active_query user (given event))
                             (reservations db))).
    { unfold find. apply filter_In. split; [exact Hr'|].
      unfold active_query. rewrite Hnone, Hu', Hs', !String.eqb_refl.
      reflexivity. }
    rewrite Hfind in H'. destruct H' as [<-|[]]. reflexivity.
Qed.

(** X7 (api/checkin.py): whom a check-in by e-mail or by name can pick.
    When the lookup by [email] or [name] finds a reservation, it is a
    stored, confirmed reservation of a user who is not deleted (for
    [email], the user whose address is the lower-cased value); it is for
    the requested event when one is given, and otherwise it is the only
    confirmed reservation this user has. *)
Theorem check_in_by_person_scope (db : Database) (req : CheckInRequest)
    (r : Reservation) :
  method req = "email"%string \/ method req = "name"%string ->
  lookup_reservation regex_i db req = Found (Some r) ->
  In r (reservations db)
  /\ res_status r = "confirmed"%string
  /\ (exists u,
         In u (users db) /\ user_deleted u <> Some true
         /\ user_id u = res_user_id r
         /\ (method req = "email"%string ->
             user_email u = Str.lower (value req)))
  /\ (forall e, given (event_id req) = Some e -> res_event_id r = e)
  /\ (given (event_id req) = None ->
      forall r', In r' (reservations db) ->
                 res_user_id r' = res_user_id r ->
                 res_status r' = "confirmed"%string -> r' = r).
Proof.
  intros Hmethod. unfold lookup_reservation.
  assert (Hlive : forall u, ne_true (user_deleted u) = true ->
                            user_deleted u <> Some true).
  { intros u H E. rewrite E in H. discriminate. }
  destruct Hmethod as [Hm|Hm]; rewrite Hm.
  - change (String.eqb "email" "qr_code") with false.
    change (String.eqb "email" "reservation_code") with false.
    change (String.eqb "email" "email") with true. cbv iota.
    destruct (find_one _ (users db)) as [u|] eqn:Hu; [|discriminate].
    apply find_one_some in Hu as [Hu Hq].
    apply andb_true_iff in Hq as [Hmail Hdel]. apply String.eqb_eq in Hmail.
    intro H. apply picked_reservation in H as (Hin & Hid & Hs & He & Hone).
    split; [exact Hin|]. split; [exact Hs|]. split; [|split].
    + exists u. repeat split; auto.
    + exact He.
    + intros Hnone r' Hr' Hu'. apply Hone; congruence.
  - change (String.eqb "name" "qr_code") with false.
    change (String.eqb "name" "reservation_code") with false.
    change (String.eqb "name" "email") with false.
    change (String.eqb "name" "name") with true. cbv iota.
    destruct (regex_i (value req)) as [matches|]; [|discriminate].
    destruct (find _ (users db)) as [|u [|u' us]] eqn:Hu; try discriminate.
    assert (Hin : In u (find (fun u => matches (user_name u)
                                       && ne_true (user_deleted u))
                             (users db)))
      by (rewrite Hu; now left).
    unfold find in Hin. apply filter_In in Hin as [Hin Hq].
    apply andb_true_iff in Hq as [_ Hdel].
    intro H. apply picked_reservation in H as (Hr & Hid & Hs & He & Hone).
    split; [exact Hr|]. split; [exact Hs|]. split; [|split].
    + exists u. repeat split; auto. intro E. discriminate E.
    + exact He.
    + intros Hnone r' Hr' Hu'. apply Hone; congruence.
Qed.

End LookupByPerson.

Lemma check_in_by_person_scope_witness :
  let held := Samples.booking "r1" "AB12CD34" "u1" "e1" "confirmed" in
  let db := Samples.store [held] in
  let req := {| Checkin.method := "email";
                Checkin.value := "Alice@Example.com";
                Checkin.event_id := None |} in
  Checkin.lookup_reservation Samples.no_regex db req
  = Checkin.Found (Some held)
  /\ Mongo.res_status held = "confirmed"
  /\ exists u,
       In u (Mongo.users db) /\ Mongo.user_deleted u <> Some true
       /\ Mongo.user_id u = Mongo.res_user_id held
       /\ (Checkin.method req = "email" ->
           Mongo.user_email u = Str.lower (Checkin.value req)).
Proof.
  split; [reflexivity|].
  refine (let H := check_in_by_person_scope Samples.no_regex
                     (Samples.store
                        [Samples.booking "r1" "AB12CD34" "u1" "e1" "confirmed"])
                     {| Checkin.method := "email";
                        Checkin.value := "Alice@Example.com";
                        Checkin.event_id := None |}
                     (Samples.booking "r1" "AB12CD34" "u1" "e1" "confirmed")
                     (or_introl eq_refl) eq_refl in _).
  split; [exact (proj1 (proj2 H))|exact (proj1 (proj2 (proj2 H)))].
Defined.

(* ================================================================== *)
(** ** Interest scores, engagement and recommendations *)

Section Scores.
Import Mongo InterestDetection Engagement.
Local Open Scope list_scope.

Lemma counter_add_keys (c : Counter) (key : string) (score : float)
    (k : string) :
  In k (map fst (counter_add c key score)) <-> k = key \/ In k (map fst c).
Proof.
  induction c as [|[k0 v0] c IH]; cbn [counter_add map fst In].
  - intuition.
  - destruct (String.eqb_spec k0 key) as [ -> |Hne]; cbn [map fst In].
    + intuition.
    + rewrite IH. intuition.
Qed.

(** The keys of a counter filled in a loop: those it had, and the
    category of each element that has one. *)
Lemma accumulated_keys {X} (category : X -> option string) (score : X -> float)
    (l : list X) (init : Counter) (k : string) :
  In k (map fst
          (fold_left
             (fun acc x =>
                match category x with
                | None => acc
                | Some c => counter_add acc c (score x)
                end)
             l init))
  <-> In k (map fst init) \/ exists x, In x l /\ category x = Some k.
Proof.
  revert init. induction l as [|x l IH]; intro init; cbn [fold_left].
  - split; [now left|]. intros [H|(x & [] & _)]. exact H.
  - rewrite IH. split.
    + intros [H|(y & Hy & Hc)].
      * destruct (category x) as [c|] eqn:Hx; [|now left].
        apply counter_add_keys in H as [ -> |H]; [|now left].
        right. exists x. split; [now left|exact Hx].
      * right. exists y. split; [now right|exact Hc].
    + intros [H|(y & [ -> |Hy] & Hc)].
      * left. destruct (category x); [|exact H].
        apply counter_add_keys. now right.
      * left. rewrite Hc. apply counter_add_keys. now left.
      * right. eauto.
Qed.

(** X21 (services/interest_detection_service.py): where interest scores
    come from.  A category has a score for a user exactly when it is the
    category of a stored event for which the user holds a reservation
    that is not cancelled, or has a check-in record: cancelled
    reservations and activity on deleted events contribute nothing. *)
Theorem interest_scores_come_from_activity (db : Database)
    (now : Datetime.datetime) (user category : string) :
  In category (map fst (interest_scores db now user))
  <-> (exists r,
          In r (reservations db) /\ res_user_id r = user
          /\ res_status r <> "cancelled"%string
          /\ category_of db (res_event_id r) = Some category)
      \/ (exists c,
             In c (checkins db) /\ chk_user_id c = user
             /\ category_of db (chk_event_id c) = Some category).
Proof.
  unfold interest_scores.
  rewrite (accumulated_keys (fun c => category_of db (chk_event_id c))
             (checkin_score now)).
  rewrite (accumulated_keys (fun r => category_of db (res_event_id r))
             (reservation_score now)).
  cbn [map In]. unfold find. split.
  - intros [[[]|(r & Hr & Hc)]|(c & Hc & Hcat)].
    + left. apply filter_In in Hr as [Hr Hq].
      apply andb_true_iff in Hq as [Hu Hs].
      apply String.eqb_eq in Hu. apply negb_true_iff in Hs.
      apply String.eqb_neq in Hs. eauto 6.
    + right. apply filter_In in Hc as [Hc Hu]. apply String.eqb_eq in Hu.
      eauto.
  - intros [(r & Hr & Hu & Hs & Hc)|(c & Hc & Hu & Hcat)].
    + left. right. exists r. split; [|exact Hc].
      apply filter_In. split; [exact Hr|]. apply andb_true_iff. split.
      * now apply String.eqb_eq.
      * apply negb_true_iff. now apply String.eqb_neq.
    + right. exists c. split; [|exact Hcat].
      apply filter_In. split; [exact Hc|]. now apply String.eqb_eq.
Qed.

Lemma time_weight_cases (now : Datetime.datetime) (activity_date : string) :
  let w := calculate_time_weight now activity_date in
  w = 1.0%float \/ w = 0.7%float \/ w = 0.4%float \/ w = 0.1%float.
Proof.
  unfold calculate_time_weight, time_decay_recent, time_decay_medium,
    time_decay_old.
  destruct (Datetime.fromisoformat _) as [dt|]; [|tauto].
  destruct (Datetime.sub_days now dt) as [days|]; [|tauto].
  destruct (days <=? 30)%Z; [tauto|]. destruct (days <=? 90)%Z; tauto.
Qed.

(** X22 (services/interest_detection_service.py): what one activity adds
    to a category.  The time weight is one of 1.0, 0.7, 0.4 and 0.1; a
    reservation adds 3 times that weight, or 4.5 times when it is checked
    in, which is strictly more; a check-in record adds 5 times the weight
    of its own timestamp.  Every contribution is positive and at most 5. *)
Theorem activity_scores (now : Datetime.datetime) (r : Reservation)
    (c : Checkin) :
  let w := calculate_time_weight now (res_created_at r) in
  let v := calculate_time_weight now (chk_timestamp c) in
  (w = 1.0 \/ w = 0.7 \/ w = 0.4 \/ w = 0.1)%float
  /\ reservation_score now r
     = (if String.eqb (res_status r) "checked_in" then 3.0 * 1.5 * w
        else 3.0 * w)%float
  /\ checkin_score now c = (5.0 * v)%float
  /\ (3.0 * w <? 3.0 * 1.5 * w)%float = true
  /\ (0 <? reservation_score now r)%float = true
  /\ (reservation_score now r <=? 4.5)%float = true
  /\ (0 <? checkin_score now c)%float = true
  /\ (checkin_score now c <=? 5.0)%float = true.
Proof.
  intros w v.
  pose proof (time_weight_cases now (res_created_at r)) as Hw.
  pose proof (time_weight_cases now (chk_timestamp c)) as Hv.
  fold w in Hw. fold v in Hv. cbv zeta in Hw, Hv.
  assert (Hr : reservation_score now r
               = (if String.eqb (res_status r) "checked_in"
                  then 3.0 * 1.5 * w else 3.0 * w)%float).
  { unfold reservation_score. fold w.
    destruct (String.eqb (res_status r) "checked_in"); reflexivity. }
  assert (Hc : checkin_score now c = (5.0 * v)%float) by reflexivity.
  split; [exact Hw|]. split; [exact Hr|]. split; [exact Hc|].
  rewrite Hr, Hc. clearbody w v.
  destruct (String.eqb (res_status r) "checked_in");
    destruct Hw as [ -> | [ -> | [ -> | -> ]]]; destruct Hv as [ -> | [ -> | [ -> | -> ]]];
    repeat split; reflexivity.
Qed.

(** X25 (services/interest_detection_service.py): the engagement level
    never drops when activity grows.  If one summary has at least as many
    reservations plus check-ins and at least as many explored categories
    as another, its level is at least as high in the order new, low,
    medium, high; and a user is "new" exactly when there is no activity
    at all. *)
Theorem engagement_level_is_monotone (a b : ActivitySummary) :
  total_reservations a + total_checkins a
  <= total_reservations b + total_checkins b ->
  List.length (categories_explored a) <= List.length (categories_explored b) ->
  let la := calculate_engagement_level a in
  let lb := calculate_engagement_level b in
  (la = "high" -> lb = "high")%string
  /\ (la = "medium" -> lb = "medium" \/ lb = "high")%string
  /\ (la = "low" -> lb = "low" \/ lb = "medium" \/ lb = "high")%string
  /\ (lb = "new" -> la = "new")%string
  /\ (la = "new"%string <-> total_reservations a + total_checkins a = 0).
Proof.
  intros Hact Hcat la lb. subst la lb. unfold calculate_engagement_level.
  destruct (Nat.leb_spec 10 (total_reservations a + total_checkins a));
  destruct (Nat.leb_spec 4 (List.length (categories_explored a)));
  destruct (Nat.leb_spec 5 (total_reservations a + total_checkins a));
  destruct (Nat.leb_spec 2 (List.length (categories_explored a)));
  destruct (Nat.leb_spec 1 (total_reservations a + total_checkins a));
  destruct (Nat.leb_spec 10 (total_reservations b + total_checkins b));
  destruct (Nat.leb_spec 4 (List.length (categories_explored b)));
  destruct (Nat.leb_spec 5 (total_reservations b + total_checkins b));
  destruct (Nat.leb_spec 2 (List.length (categories_explored b)));
  destruct (Nat.leb_spec 1 (total_reservations b + total_checkins b));
    cbn [andb]; try lia;
    repeat split; intros; try discriminate; try tauto; try lia.
Qed.

End Scores.

Section NewUsers.
Import Mongo InterestDetection Engagement.
Local Open Scope list_scope.
Variable round2 : float -> float.
Variable py_int : string -> option Z.

(** X26 (services/interest_detection_service.py): the profile of a user
    without activity.  For a user with no reservation that is not
    cancelled and no check-in record, there are no interest scores, the
    engagement level is "new", no category is explored, and every
    recommendation is an event of one of the three fallback categories,
    with the score [round(0 * boost, 2)]. *)
Theorem profile_without_activity (db : Database) (now : Datetime.datetime)
    (user : string) :
  reservations_of db user = [] ->
  checkins_of db user = [] ->
  let scores := interest_scores db now user in
  let summary := activity_summary py_int db user in
  scores = []
  /\ calculate_engagement_level summary = "new"%string
  /\ categories_explored summary = []
  /\ Forall (fun r =>
               In (rec_category r) fallback_categories
               /\ exists e,
                    In e (events db)
                    /\ recommendation_score r
                       = round2 (0 * time_boost py_int e)%float)
            (generate_recommendations round2 py_int db now user scores).
Proof.
  intros Hr Hc scores summary.
  assert (Hs : scores = []).
  { subst scores. unfold interest_scores.
    unfold reservations_of in Hr. unfold checkins_of in Hc.
    now rewrite Hr, Hc. }
  split; [exact Hs|].
  subst summary. unfold calculate_engagement_level, activity_summary.
  cbn [total_reservations total_checkins categories_explored].
  rewrite Hr, Hc. cbn [events_of flat_map map nodup List.length Nat.add].
  split; [reflexivity|]. split; [reflexivity|].
  rewrite Hs. apply Forall_forall. intros r Hin.
  unfold generate_recommendations in Hin.
  apply firstn_incl in Hin. apply sort_by_In in Hin.
  apply in_map_iff in Hin as (e & <- & He).
  apply upcoming_events_spec in He as (Hev & Hcat & _).
  split; [exact Hcat|]. exists e. split; [exact Hev|]. reflexivity.
Qed.

End NewUsers.

Lemma engagement_level_is_monotone_witness :
  let few := {| Engagement.total_events := 1;
                Engagement.total_reservations := 1;
                Engagement.total_checkins := 0;
                Engagement.categories_explored := ["Talleres"];
                Engagement.preferred_times := [];
                Engagement.preferred_locations := [] |} in
  let many := {| Engagement.total_events := 4;
                 Engagement.total_reservations := 4;
                 Engagement.total_checkins := 2;
                 Engagement.categories_explored := ["Talleres"; "Conciertos"];
                 Engagement.preferred_times := [];
                 Engagement.preferred_locations := [] |} in
  Engagement.calculate_engagement_level few = "low"
  /\ Engagement.calculate_engagement_level many = "medium"
  /\ (Engagement.calculate_engagement_level few = "low" ->
      Engagement.calculate_engagement_level many = "low"
      \/ Engagement.calculate_engagement_level many = "medium"
      \/ Engagement.calculate_engagement_level many = "high").
Proof.
  split; [reflexivity|]. split; [reflexivity|].
  refine (proj1 (proj2 (proj2 (engagement_level_is_monotone _ _ _ _))));
    cbn; lia.
Defined.

Lemma profile_without_activity_witness :
  let scores := InterestDetection.interest_scores Samples.festival
                  Samples.noon "u1" in
  let summary := Engagement.activity_summary Samples.hour_of
                   Samples.festival "u1" in
  scores = []
  /\ Engagement.calculate_engagement_level summary = "new"
  /\ Engagement.categories_explored summary = []
  /\ Forall (fun r =>
               In (InterestDetection.rec_category r)
                  InterestDetection.fallback_categories
               /\ exists e,
                    In e (Mongo.events Samples.festival)
                    /\ InterestDetection.recommendation_score r
                       = Samples.keep
                           (0 * InterestDetection.time_boost Samples.hour_of e)%float)
            (InterestDetection.generate_recommendations Samples.keep
               Samples.hour_of Samples.festival Samples.noon "u1" scores).
Proof.
  apply (profile_without_activity Samples.keep Samples.hour_of
           Samples.festival Samples.noon "u1"); reflexivity.
Defined.

(* ================================================================== *)
(** ** Timestamps written and read back *)

Section Decimals.
Local Open Scope Z_scope.

Lemma number_from_digits_acc (d : Decimal.uint) (p : positive) :
  Str.number_from (Z.pos p) (Str.chars (NilEmpty.string_of_uint d))
  = Some (Z.pos (Pos.of_uint_acc d p)).
Proof.
  revert p. induction d; intro p; cbn [NilEmpty.string_of_uint Pos.of_uint_acc];
    [reflexivity| | | | | | | | | |];
    unfold Str.chars in *; cbn [list_ascii_of_string Str.number_from];
    match goal with
    | |- context [Str.digit ?c] =>
        let v := eval vm_compute in (Str.digit c) in
        change (Str.digit c) with v
    end; cbv iota beta; rewrite <- IHd; f_equal; lia.
Qed.

Lemma number_from_digits (d : Decimal.uint) :
  Str.number_from 0 (Str.chars (NilEmpty.string_of_uint d))
  = Some (Z.of_N (Pos.of_uint d)).
Proof.
  induction d; cbn [NilEmpty.string_of_uint Pos.of_uint];
    [reflexivity| | | | | | | | | |];
    unfold Str.chars in *; cbn [list_ascii_of_string Str.number_from];
    match goal with
    | |- context [Str.digit ?c] =>
        let v := eval vm_compute in (Str.digit c) in
        change (Str.digit c) with v
    end; cbv iota beta;
    [exact IHd | .. ];
    apply (number_from_digits_acc d).
Qed.

Lemma printed_digits (d : Decimal.uint) :
  forallb Str.is_digit (Str.chars (NilEmpty.string_of_uint d)) = true.
Proof.
  induction d; cbn [NilEmpty.string_of_uint]; [reflexivity| | | | | | | | | |];
    unfold Str.chars in *; cbn [list_ascii_of_string forallb];
    rewrite IHd; reflexivity.
Qed.

Lemma printed_length (d : Decimal.uint) :
  List.length (Str.chars (NilEmpty.string_of_uint d)) = Decimal.nb_digits d.
Proof.
  induction d; cbn [NilEmpty.string_of_uint Decimal.nb_digits];
    [reflexivity| | | | | | | | | |];
    unfold Str.chars in *; cbn [list_ascii_of_string List.length];
    now rewrite IHd.
Qed.

Lemma of_uint_acc_lower (d : Decimal.uint) (p : positive) :
  Z.pos p * 10 ^ Z.of_nat (Decimal.nb_digits d) <= Z.pos (Pos.of_uint_acc d p).
Proof.
  revert p.
  induction d; intro p; cbn [Pos.of_uint_acc Decimal.nb_digits];
    [cbn; lia| | | | | | | | | |];
    (etransitivity; [|apply IHd]);
    rewrite Nat2Z.inj_succ, Z.pow_succ_r by lia;
    pose proof (Z.pow_pos_nonneg 10 (Z.of_nat (Decimal.nb_digits d))
                  ltac:(lia) ltac:(lia));
    nia.
Qed.

(** The decimal writing of a positive number starts with a digit that is
    not 0. *)
Lemma to_uint_leading (p : positive) :
  match Pos.to_uint p with
  | Decimal.Nil | Decimal.D0 _ => False
  | _ => True
  end.
Proof.
  pose proof (DecimalPos.Unsigned.to_of (Pos.to_uint p)) as H.
  rewrite DecimalPos.Unsigned.of_to in H. cbn [N.to_uint] in H.
  pose proof (DecimalPos.Unsigned.to_uint_nonnil p) as Hnil.
  pose proof (DecimalPos.Unsigned.to_uint_nonzero p) as Hzero.
  destruct (Pos.to_uint p) as [|l| | | | | | | | |]; try exact I;
    [congruence|].
  unfold Decimal.unorm in H. cbn [Decimal.nzhead] in H.
  pose proof (DecimalFacts.nb_digits_nzhead l) as Hl.
  destruct (Decimal.nzhead l) eqn:Hn; try discriminate.
  - injection H as H. now subst l.
  - injection H as H. subst. cbn [Decimal.nb_digits] in Hl. lia.
Qed.

Lemma to_uint_digits (p : positive) (w : nat) :
  Z.pos p < 10 ^ Z.of_nat w -> (Decimal.nb_digits (Pos.to_uint p) <= w)%nat.
Proof.
  intro Hp.
  pose proof (to_uint_leading p) as Hlead.
  pose proof (DecimalPos.Unsigned.of_to p) as Hof.
  destruct (Pos.to_uint p) as [|l|l|l|l|l|l|l|l|l|l]; try contradiction;
    cbn [Pos.of_uint] in Hof; injection Hof as Hof;
    cbn [Decimal.nb_digits];
    match type of Hof with
    | Pos.of_uint_acc l ?k = _ =>
        pose proof (of_uint_acc_lower l k) as Hlow
    end;
    rewrite Hof in Hlow;
    assert (Hlt : 10 ^ Z.of_nat (Decimal.nb_digits l) < 10 ^ Z.of_nat w)
      by (pose proof (Z.pow_pos_nonneg 10 (Z.of_nat (Decimal.nb_digits l))
                        ltac:(lia) ltac:(lia)); nia);
    apply Z.pow_lt_mono_r_iff in Hlt; lia.
Qed.

(** [str(z)] for [0 <= z < 10^w]: at most [w] digits, whose value is [z]. *)
Lemma str_of_Z_digits (z : Z) (w : nat) :
  0 <= z < 10 ^ Z.of_nat w -> (1 <= w)%nat ->
  let l := Str.chars (Py.str_of_Z z) in
  (List.length l <= w)%nat
  /\ forallb Str.is_digit l = true
  /\ Str.number_from 0 l = Some z.
Proof.
  intros Hz Hw. unfold Py.str_of_Z.
  destruct z as [|p|p]; [cbn; repeat split; lia| |lia].
  cbn [Z.to_int NilZero.string_of_int].
  assert (Hs : NilZero.string_of_uint (Pos.to_uint p)
               = NilEmpty.string_of_uint (Pos.to_uint p)).
  { pose proof (DecimalPos.Unsigned.to_uint_nonnil p).
    now destruct (Pos.to_uint p). }
  rewrite Hs. cbv zeta. split; [|split].
  - rewrite printed_length. apply to_uint_digits. lia.
  - apply printed_digits.
  - rewrite number_from_digits, DecimalPos.Unsigned.of_to. reflexivity.
Qed.

Lemma number_from_zeros (k : nat) (l : list ascii) :
  Str.number_from 0 (repeat "0"%char k ++ l)%list = Str.number_from 0 l.
Proof. induction k as [|k IH]; [reflexivity|exact IH]. Qed.

(** [zfill]: exactly [w] digits, whose value is [z]. *)
Lemma zfill_digits (z : Z) (w : nat) :
  0 <= z < 10 ^ Z.of_nat w -> (1 <= w)%nat ->
  let l := Str.chars (Datetime.zfill w z) in
  List.length l = w
  /\ forallb Str.is_digit l = true
  /\ Str.number_from 0 l = Some z.
Proof.
  intros Hz Hw.
  destruct (str_of_Z_digits z w Hz Hw) as (Hlen & Hdig & Hnum).
  unfold Datetime.zfill. cbv zeta.
  rewrite chars_append, chars_of_chars.
  rewrite <- (of_chars_chars (Py.str_of_Z z)) at 1.
  rewrite length_of_chars.
  split; [|split].
  - rewrite length_app, repeat_length. lia.
  - rewrite forallb_app, Hdig, andb_true_r.
    induction (w - _)%nat as [|k IH]; [reflexivity|exact IH].
  - rewrite number_from_zeros. exact Hnum.
Qed.

End Decimals.

Section RoundTrip.
Import Datetime.
Local Open Scope Z_scope.
Local Open Scope list_scope.

Lemma digit_is_no_mark (c x : ascii) :
  Str.is_digit c = true -> Str.is_digit x = false -> Ascii.eqb c x = false.
Proof.
  intros Hc Hx. destruct (Ascii.eqb_spec c x) as [->|]; [congruence|reflexivity].
Qed.

Lemma written2 (l : list ascii) (z : Z) :
  List.length l = 2%nat -> forallb Str.is_digit l = true ->
  Str.number_from 0 l = Some z ->
  exists a b, l = [a; b] /\ Str.is_digit a = true /\ Str.is_digit b = true
              /\ two_digits a b = Some z.
Proof.
  intros Hl Hd Hn.
  destruct l as [|a [|b [|? ?]]]; try discriminate.
  cbn [forallb] in Hd. apply andb_true_iff in Hd as [Ha Hd].
  apply andb_true_iff in Hd as [Hb _].
  exists a, b. repeat split; try assumption.
Qed.

Lemma written4 (l : list ascii) (z : Z) :
  List.length l = 4%nat -> forallb Str.is_digit l = true ->
  Str.number_from 0 l = Some z ->
  exists a b c d, l = [a; b; c; d]
                  /\ Forall (fun x => Str.is_digit x = true) l
                  /\ Str.number [a; b; c; d] = Some z.
Proof.
  intros Hl Hd Hn.
  destruct l as [|a [|b [|c [|d [|? ?]]]]]; try discriminate.
  exists a, b, c, d. repeat split; [|exact Hn].
  apply Forall_forall. now apply forallb_forall.
Qed.

Lemma written6 (l : list ascii) (z : Z) :
  List.length l = 6%nat -> forallb Str.is_digit l = true ->
  Str.number_from 0 l = Some z ->
  exists a b c d e f, l = [a; b; c; d; e; f]
                      /\ Forall (fun x => Str.is_digit x = true) l
                      /\ parse_fraction [a; b; c; d; e; f] = Some z.
Proof.
  intros Hl Hd Hn.
  destruct l as [|a [|b [|c [|d [|e [|f [|? ?]]]]]]]; try discriminate.
  exists a, b, c, d, e, f. repeat split; [|exact Hn].
  apply Forall_forall. now apply forallb_forall.
Qed.

Lemma replace_nothing (old : ascii) (new l : list ascii) :
  Forall (fun c => Ascii.eqb old c = false) l ->
  Str.replace_chars [old] new 0 l = l.
Proof.
  induction 1 as [|c l Hc _ IH]; [reflexivity|].
  cbn [Str.replace_chars Str.is_prefix]. rewrite Hc. cbn [andb].
  now rewrite IH.
Qed.

Lemma split_offset_unsigned (l cur : list ascii) :
  Forall (fun c => Ascii.eqb c "+" = false /\ Ascii.eqb c "-" = false) l ->
  split_offset l cur = (rev cur ++ l, None).
Proof.
  intro H. revert cur.
  induction H as [|c l [Hp Hm] _ IH]; intro cur; cbn [split_offset].
  - now rewrite app_nil_r.
  - rewrite Hp, Hm, IH. cbn [rev]. now rewrite <- app_assoc.
Qed.

Lemma days_in_month_most (y m : Z) : days_in_month y m <= 31.
Proof.
  unfold days_in_month.
  destruct (m =? 2); [destruct (is_leap y); lia|].
  destruct ((m =? 4) || (m =? 6) || (m =? 9) || (m =? 11))%bool; lia.
Qed.

(** The characters [isoformat] writes for a value of the clock. *)
Lemma isoformat_chars (dt : datetime) :
  Clock.naive_instant dt ->
  exists y1 y2 y3 y4 m1 m2 d1 d2 h1 h2 n1 n2 s1 s2 frac,
    Str.chars (isoformat dt)
    = [y1; y2; y3; y4; "-"%char; m1; m2; "-"%char; d1; d2; "T"%char;
       h1; h2; ":"%char; n1; n2; ":"%char; s1; s2] ++ frac
    /\ Forall (fun x => Str.is_digit x = true)
              [y1; y2; y3; y4; m1; m2; d1; d2; h1; h2; n1; n2; s1; s2]
    /\ Str.number [y1; y2; y3; y4] = Some (year (on dt))
    /\ two_digits m1 m2 = Some (month (on dt))
    /\ two_digits d1 d2 = Some (day (on dt))
    /\ two_digits h1 h2 = Some (hour dt)
    /\ two_digits n1 n2 = Some (minute dt)
    /\ two_digits s1 s2 = Some (second dt)
    /\ ((microsecond dt = 0 /\ frac = [])
        \/ (microsecond dt <> 0
            /\ exists u,
                 frac = "."%char :: u
                 /\ Forall (fun x => Str.is_digit x = true) u
                 /\ List.length u = 6%nat
                 /\ parse_fraction u = Some (microsecond dt))).
Proof.
  intros (Hv & Hh & Hm & Hs & Hu & _).
  destruct dt as [[y m d] h mi s us tz].
  cbn [on year month day hour minute second microsecond] in *.
  unfold valid_date in Hv.
  repeat (apply andb_true_iff in Hv as [Hv ?]).
  pose proof (days_in_month_most y m).
  destruct (zfill_digits y 4) as (Ly & Dy & Ny); [lia|lia|].
  destruct (zfill_digits m 2) as (Lm & Dm & Nm); [lia|lia|].
  destruct (zfill_digits d 2) as (Ld & Dd & Nd); [lia|lia|].
  destruct (zfill_digits h 2) as (Lh & Dh & Nh); [lia|lia|].
  destruct (zfill_digits mi 2) as (Ln & Dn & Nn); [lia|lia|].
  destruct (zfill_digits s 2) as (Ls & Ds & Ns); [lia|lia|].
  destruct (written4 _ _ Ly Dy Ny) as (y1 & y2 & y3 & y4 & Ey & Fy & Py).
  destruct (written2 _ _ Lm Dm Nm) as (m1 & m2 & Em & Fm1 & Fm2 & Pm).
  destruct (written2 _ _ Ld Dd Nd) as (d1 & d2 & Ed & Fd1 & Fd2 & Pd).
  destruct (written2 _ _ Lh Dh Nh) as (h1 & h2 & Eh & Fh1 & Fh2 & Ph).
  destruct (written2 _ _ Ln Dn Nn) as (n1 & n2 & En & Fn1 & Fn2 & Pn).
  destruct (written2 _ _ Ls Ds Ns) as (s1 & s2 & Es & Fs1 & Fs2 & Ps).
  rewrite Ey in Fy.
  exists y1, y2, y3, y4, m1, m2, d1, d2, h1, h2, n1, n2, s1, s2,
         (Str.chars (if us =? 0 then EmptyString
                    else ("." ++ zfill 6 us)%string)).
  split.
  { unfold isoformat.
    cbn [on year month day hour minute second microsecond].
    rewrite !chars_append, Ey, Em, Ed, Eh, En, Es. reflexivity. }
  split.
  { inversion Fy as [|? ? ? Fy2]; inversion Fy2 as [|? ? ? Fy3];
      inversion Fy3 as [|? ? ? Fy4]; inversion Fy4; subst.
    repeat constructor; assumption. }
  repeat (split; [assumption|]).
  destruct (Z.eqb_spec us 0) as [->|Hne]; [left; now split|].
  right. split; [exact Hne|].
  destruct (zfill_digits us 6) as (Lu & Du & Nu); [lia|lia|].
  destruct (written6 _ _ Lu Du Nu) as (a & b & c & e & f & g & Eu & Fu & Pu).
  exists (Str.chars (zfill 6 us)).
  split; [reflexivity|]. split; [exact Fu|]. split; [exact Lu|].
  rewrite Eu. exact Pu.
Qed.

Lemma digits_unsigned (l : list ascii) :
  Forall (fun x => Str.is_digit x = true) l ->
  Forall (fun c => Ascii.eqb c "+" = false /\ Ascii.eqb c "-" = false) l.
Proof.
  apply Forall_impl. intros c Hc.
  split; (apply digit_is_no_mark; [exact Hc|reflexivity]).
Qed.

Lemma isoformat_round_trip (dt : datetime) :
  Clock.naive_instant dt -> fromisoformat (isoformat dt) = Some dt.
Proof.
  intro Hn.
  destruct (isoformat_chars dt Hn)
    as (y1 & y2 & y3 & y4 & m1 & m2 & d1 & d2 & h1 & h2 & n1 & n2 & s1 & s2
        & frac & Hc & Fd & Py & Pm & Pd & Ph & Pn & Ps & Hfrac).
  destruct Hn as (Hv & Hh & Hm & Hs & Hu & Htz).
  assert (Hcheck : ((hour dt <? 24) && (minute dt <? 60)
                    && (second dt <? 60))%bool = true).
  { rewrite !andb_true_iff. repeat split; apply Z.ltb_lt; lia. }
  assert (Hsplit : split_offset
                     ([h1; h2; ":"%char; n1; n2; ":"%char; s1; s2] ++ frac) []
                   = ([h1; h2; ":"%char; n1; n2; ":"%char; s1; s2] ++ frac,
                      None)).
  { apply (split_offset_unsigned _ []). apply Forall_app. split.
    - apply Forall_forall. intros c Hin.
      rewrite Forall_forall in Fd.
      cbn [In] in Hin.
      destruct Hin as [<-|[<-|[<-|[<-|[<-|[<-|[<-|[<-|[]]]]]]]]];
        try (split; reflexivity);
        (split; (apply digit_is_no_mark; [apply Fd; cbn [In]; tauto
                                         |reflexivity])).
    - destruct Hfrac as [[_ ->]|(_ & u & -> & Fu & _)]; [constructor|].
      constructor; [split; reflexivity|]. now apply digits_unsigned. }
  unfold fromisoformat. rewrite Hc.
  cbn [firstn skipn app]. unfold parse_iso_date.
  change (Ascii.eqb "-" "-") with true. cbn [andb].
  rewrite Py, Pm, Pd. unfold make_date. rewrite Hv.
  change (h1 :: h2 :: ":"%char :: n1 :: n2 :: ":"%char :: s1 :: s2 :: frac)
    with ([h1; h2; ":"%char; n1; n2; ":"%char; s1; s2] ++ frac).
  rewrite Hsplit. cbn [app].
  destruct dt as [[y m d] h mi s us tz].
  cbn [on year month day hour minute second microsecond tzinfo] in *.
  subst tz.
  destruct Hfrac as [[-> ->]|(Hne & u & -> & Fu & Lu & Pu)].
  - cbn [parse_hms]. change (Ascii.eqb ":" ":") with true. cbn [andb].
    rewrite Ph, Pn, Ps, Hcheck. reflexivity.
  - cbn [parse_hms]. change (Ascii.eqb ":" ":") with true. cbn [andb].
    rewrite Ph, Pn, Ps.
    change (Ascii.eqb "." ".") with true. cbv iota.
    rewrite Pu, Hcheck. reflexivity.
Qed.

Lemma isoformat_no_suffix (dt : datetime) (new : string) :
  Clock.naive_instant dt -> Str.replace (isoformat dt) "Z" new = isoformat dt.
Proof.
  intro Hn.
  destruct (isoformat_chars dt Hn)
    as (y1 & y2 & y3 & y4 & m1 & m2 & d1 & d2 & h1 & h2 & n1 & n2 & s1 & s2
        & frac & Hc & Fd & _ & _ & _ & _ & _ & _ & Hfrac).
  unfold Str.replace. change (Str.chars "Z") with ["Z"%char].
  rewrite replace_nothing; [apply of_chars_chars|].
  assert (Hdig : forall l, Forall (fun x => Str.is_digit x = true) l ->
                           Forall (fun c => Ascii.eqb "Z" c = false) l).
  { intro l. apply Forall_impl. intros c Hd.
    rewrite Ascii.eqb_sym. now apply digit_is_no_mark. }
  rewrite Hc. apply Forall_app. split.
  - apply Forall_forall. intros c Hin.
    rewrite Forall_forall in Fd. cbn [In] in Hin.
    repeat (destruct Hin as [<-|Hin];
            [first [reflexivity
                   |rewrite Ascii.eqb_sym; apply digit_is_no_mark;
                    [apply Fd; cbn [In]; tauto|reflexivity]]|]).
    contradiction.
  - destruct Hfrac as [[_ ->]|(_ & u & -> & Fu & _)]; [constructor|].
    constructor; [reflexivity|now apply Hdig].
Qed.

End RoundTrip.

Section WrittenDates.
Import Mongo Reservations InterestDetection.
Local Open Scope list_scope.

(** X23 (api/reservations.py, services/interest_detection_service.py): the
    date [create_reservation] writes is read back exactly by the interest
    analysis.  [created_at] is [datetime.utcnow().isoformat()]: four
    digits of year, two of month, day, hour, minute and second, and six of
    microseconds when these are not 0.  It holds no 'Z', so the
    replacement of 'Z' leaves it alone, and [fromisoformat] gives back
    the instant of the booking, without offset.  Hence the reservation
    never gets the weight 0.1 of an unreadable date: its time weight is
    1.0, 0.7 or 0.4 by the whole days since the booking, and its score is
    3.0 times that weight. *)
Theorem created_at_is_read_back (generate_qr_code : string -> string)
    (db : Database) (booked now : Datetime.datetime) (id : string)
    (draw : nat -> nat) (request : ReservationCreate) (user : User)
    (response : SuccessResponse) :
  Clock.naive_instant booked ->
  Datetime.tzinfo now = None ->
  snd (create_reservation generate_qr_code db booked id draw request user)
  = Py.Return response ->
  exists d,
    data response = Some d
    /\ In d (reservations
               (fst (create_reservation generate_qr_code db booked id draw
                                        request user)))
    /\ Datetime.fromisoformat (Str.replace (res_created_at d) "Z" "+00:00")
       = Some booked
    /\ calculate_time_weight now (res_created_at d)
       = (let days_ago := Datetime.days_between now booked in
          if (days_ago <=? 30)%Z then 1.0%float
          else if (days_ago <=? 90)%Z then 0.7%float
          else 0.4%float)
    /\ reservation_score now d
       = (3.0 * calculate_time_weight now (res_created_at d))%float.
Proof.
  intros Hb Hn. unfold create_reservation.
  destruct (EventService.get_event_by_id db (rc_event_id request))
    as [event|]; [|discriminate].
  destruct (negb _); [discriminate|].
  destruct (Datetime.strptime_ymd _) as [day|]; [|discriminate].
  destruct (Datetime.date_ltb _ _); [discriminate|].
  destruct (find_one _ _); [discriminate|].
  destruct (Z.leb_spec (EventService.available_spots event) 0);
    [discriminate|].
  cbn [fst snd]. intro Hout. injection Hout as <-. cbn [data].
  eexists. split; [reflexivity|].
  split.
  { cbn [reservations with_reservations]. unfold insert_one.
    apply in_or_app. right. now left. }
  assert (Hread : Datetime.fromisoformat
                    (Str.replace (Datetime.isoformat booked) "Z" "+00:00")
                  = Some booked).
  { rewrite isoformat_no_suffix by exact Hb.
    now apply isoformat_round_trip. }
  cbn [res_created_at reservation_doc].
  split; [exact Hread|].
  split; [|reflexivity].
  apply (time_weight_naive now booked _ Hn Hread).
  apply Hb.
Qed.

End WrittenDates.

Lemma created_at_is_read_back_witness :
  let booked :=
    {| Datetime.on := {| Datetime.year := 2024; Datetime.month := 6;
                         Datetime.day := 15 |};
       Datetime.hour := 9; Datetime.minute := 5; Datetime.second := 0;
       Datetime.microsecond := 40200; Datetime.tzinfo := None |} in
  let out := Reservations.create_reservation Samples.qr_image
               (Samples.store []) booked "r1" Samples.first_letters
               (Samples.request "e1") Samples.alice in
  exists d,
    In d (Mongo.reservations (fst out))
    /\ Mongo.res_created_at d = "2024-06-15T09:05:00.040200"
    /\ Datetime.fromisoformat
         (Str.replace (Mongo.res_created_at d) "Z" "+00:00")
       = Some booked
    /\ InterestDetection.calculate_time_weight Samples.noon
         (Mongo.res_created_at d) = 1.0%float
    /\ InterestDetection.reservation_score Samples.noon d = 3.0%float.
Proof.
  intros booked out.
  destruct (created_at_is_read_back Samples.qr_image (Samples.store [])
              booked Samples.noon "r1" Samples.first_letters
              (Samples.request "e1") Samples.alice
              {| Reservations.message := "Reservation created successfully";
                 Reservations.data :=
                   Some (Reservations.reservation_doc "r1"
                           (QrCodes.generate_reservation_code
                              Samples.first_letters)
                           (Samples.qr_image
                              (QrCodes.reservation_qr_data "r1"
                                 (QrCodes.generate_reservation_code
                                    Samples.first_letters)))
                           (Datetime.isoformat booked)
                           (Samples.request "e1") Samples.alice) |})
    as (d & Hd & Hin & Hread & Hw & Hs).
  - unfold Clock.naive_instant. cbn. repeat split; lia.
  - reflexivity.
  - reflexivity.
  - injection Hd as <-. exists (Reservations.reservation_doc "r1"
                           (QrCodes.generate_reservation_code
                              Samples.first_letters)
                           (Samples.qr_image
                              (QrCodes.reservation_qr_data "r1"
                                 (QrCodes.generate_reservation_code
                                    Samples.first_letters)))
                           (Datetime.isoformat booked)
                           (Samples.request "e1") Samples.alice).
    split; [exact Hin|]. split; [reflexivity|]. split; [exact Hread|].
    split; [rewrite Hw; reflexivity|rewrite Hs, Hw; reflexivity].
Defined.

Section Similar.
Import Mongo InterestDetection SimilarUsers.
Local Open Scope list_scope.
Variable round3 : float -> float.

Lemma primary_categories_few (db : Database) (now : Datetime.datetime)
    (user : string) :
  List.length (primary_categories db now user) <= 3.
Proof.
  unfold primary_categories, most_common. rewrite length_map.
  apply firstn_at_most.
Qed.

Lemma nodup_shorter (l : list string) :
  List.length (nodup string_dec l) <= List.length l.
Proof.
  induction l as [|x l IH]; [reflexivity|]. cbn [nodup].
  destruct (in_dec string_dec x l); cbn [List.length]; lia.
Qed.

Lemma intersection_In (a b : list string) (c : string) :
  In c (intersection a b) <-> In c a /\ In c b.
Proof.
  unfold intersection. rewrite nodup_In, filter_In. split.
  - intros [Ha Hb]. split; [exact Ha|].
    apply existsb_exists in Hb as (x & Hx & E).
    apply String.eqb_eq in E. now subst x.
  - intros [Ha Hb]. split; [exact Ha|].
    apply existsb_exists. exists c. split; [exact Hb|apply String.eqb_refl].
Qed.

(** No overlap means a similarity of 0, which is below the threshold. *)
Lemma no_overlap_below_threshold (n : nat) :
  n <= 6 ->
  (0.3 <? Py.float_of_nat 0 / Py.float_of_nat n)%float = false.
Proof.
  intro H.
  destruct n as [|[|[|[|[|[|[|n]]]]]]]; try reflexivity. lia.
Qed.

Lemma compare_with_entry (db : Database) (now : Datetime.datetime)
    (user_categories : list string) (other : User) (entry : Similar) :
  List.length user_categories <= 3 ->
  compare_with round3 db now user_categories other = Some entry ->
  sim_user_id entry = user_id other
  /\ sim_name entry = user_name other
  /\ common_interests entry
     = intersection user_categories
         (primary_categories db now (user_id other))
  /\ common_interests entry <> [].
Proof.
  intro Hfew. unfold compare_with.
  set (others := primary_categories db now (user_id other)).
  assert (Hu : List.length (union user_categories others) <= 6).
  { unfold union. etransitivity; [apply nodup_shorter|].
    rewrite length_app.
    pose proof (primary_categories_few db now (user_id other)).
    fold others in H. lia. }
  destruct (union user_categories others) as [|c all] eqn:Hall;
    [discriminate|].
  destruct (0.3 <? _)%float eqn:Hs; [|discriminate].
  intro H. injection H as <-. cbn [sim_user_id sim_name common_interests].
  repeat split. intro Hnone. rewrite Hnone in Hs.
  cbn [List.length] in Hs, Hu.
  now rewrite (no_overlap_below_threshold (S (List.length all)) Hu) in Hs.
Qed.

(** X27 (services/interest_detection_service.py): who counts as a
    similar user.  [get_similar_users] returns at most [limit] entries
    and none for a user without primary interests.  Every entry is
    another stored user who is not deleted, and it shares at least one
    primary interest with the requesting user: the categories it lists
    as common are primary interests of both. *)
Theorem similar_users_share_an_interest (db : Database)
    (now : Datetime.datetime) (user : string) (limit : nat) :
  let found := get_similar_users round3 db now user limit in
  List.length found <= limit
  /\ (primary_categories db now user = [] -> found = [])
  /\ Forall (fun entry =>
               sim_user_id entry <> user
               /\ (exists u,
                      In u (users db) /\ user_id u = sim_user_id entry
                      /\ user_name u = sim_name entry
                      /\ user_deleted u <> Some true)
               /\ common_interests entry <> []
               /\ forall c,
                    In c (common_interests entry) ->
                    In c (primary_categories db now user)
                    /\ In c (primary_categories db now (sim_user_id entry)))
            found.
Proof.
  intro found. subst found. unfold get_similar_users.
  split.
  { destruct (nodup string_dec (primary_categories db now user));
      [cbn; lia|apply firstn_at_most]. }
  split.
  { intros ->. reflexivity. }
  assert (Hfew : List.length (nodup string_dec (primary_categories db now user))
                 <= 3).
  { etransitivity; [apply nodup_shorter|apply primary_categories_few]. }
  assert (Hsame : forall c,
             In c (nodup string_dec (primary_categories db now user))
             <-> In c (primary_categories db now user))
    by (intro c; apply nodup_In).
  destruct (nodup string_dec (primary_categories db now user))
    as [|c0 cats]; [constructor|].
  apply Forall_forall. intros entry Hin.
  apply firstn_incl in Hin. apply sort_by_In in Hin.
  apply in_flat_map in Hin as (other & Hother & Hin).
  destruct (compare_with round3 db now (c0 :: cats) other) as [e|] eqn:He;
    [|destruct Hin].
  destruct Hin as [<-|[]].
  apply compare_with_entry in He as (Hid & Hname & Hcommon & Hne);
    [|exact Hfew].
  unfold find in Hother. apply filter_In in Hother as [Hother Hq].
  apply andb_true_iff in Hq as [Hself Hdel].
  apply negb_true_iff in Hself. apply String.eqb_neq in Hself.
  split; [now rewrite Hid|]. split.
  { exists other. repeat split; try congruence.
    intro E. rewrite E in Hdel. discriminate. }
  split; [exact Hne|].
  intros c Hc. rewrite Hcommon in Hc. apply intersection_In in Hc as [Ha Hb].
  split; [now apply Hsame|now rewrite Hid].
Qed.

End Similar.

(* ================================================================== *)
(** ** Segmentation of small and large populations *)

Section MissingValues.
Local Open Scope list_scope.

Lemma add_nan (x : float) : (x + nan)%float = nan.
Proof.
  rewrite <- (FloatAxioms.SF2Prim_Prim2SF (x + nan)).
  rewrite FloatAxioms.add_spec.
  change (Prim2SF nan) with S754_nan.
  now destruct (Prim2SF x).
Qed.

Lemma leb_nan (x : float) : (x <=? nan)%float = false.
Proof.
  rewrite FloatAxioms.leb_spec. change (Prim2SF nan) with S754_nan.
  now destruct (Prim2SF x).
Qed.

Lemma map_constant {A B} (f : A -> B) (c : B) (l : list A) :
  (forall x, f x = c) -> map f l = repeat c (List.length l).
Proof.
  intro H. induction l as [|x l IH]; [reflexivity|].
  cbn [map List.length repeat]. now rewrite H, IH.
Qed.

End MissingValues.

Section SmallPopulations.
Import Pandas Segmentation.
Local Open Scope list_scope.

Lemma reindex_all (s : Series) : reindex (List.length s) s = s.
Proof. induction s as [|x s IH]; [reflexivity|]. cbn. now rewrite IH. Qed.

Lemma reindex_nothing (n : nat) : reindex n [] = repeat nan n.
Proof. induction n as [|n IH]; [reflexivity|]. cbn. now rewrite IH. Qed.

Lemma lookup_set_col_other (df : DataFrame) (name other : string)
    (c : column) :
  name <> other -> lookup (set_col df other c) name = lookup df name.
Proof.
  intro Hne. induction df as [|[n c0] df IH]; cbn [set_col lookup].
  - destruct (String.eqb_spec other name); [congruence|reflexivity].
  - destruct (String.eqb_spec n other) as [->|Hn]; cbn [lookup].
    + destruct (String.eqb_spec other name); [congruence|reflexivity].
    + now rewrite IH.
Qed.

Lemma unique_repeat (c n : nat) : unique (repeat c (S n)) = [c].
Proof.
  induction n as [|n IH]; [reflexivity|].
  change (repeat c (S (S n))) with (c :: repeat c (S n)).
  cbn [unique]. rewrite IH. cbn [filter]. now rewrite Nat.eqb_refl.
Qed.

(** The engagement scores of an extracted frame: the frame has no column
    [total_events_attended], so the second operand of the sum is the
    one-element default and every row but the first gets NaN. *)
Lemma engagement_score_extracted (u : UserFeatures)
    (rest : list UserFeatures) :
  exists first,
    engagement_score (extract_user_features (u :: rest))
    = first :: repeat nan (List.length rest).
Proof.
  unfold engagement_score.
  change (get (extract_user_features (u :: rest)) "total_reservations"
              [0%float])
    with (fillna0 (map total_reservations (u :: rest))).
  change (get (extract_user_features (u :: rest)) "total_events_attended"
              [0%float]) with [0%float].
  set (a := scale (fillna0 (fillna0 (map total_reservations (u :: rest))))
                  0.4).
  assert (Ha : List.length a = S (List.length rest))
    by (unfold a, scale, fillna0; now rewrite !length_map).
  destruct a as [|a0 tail]; [discriminate|]. injection Ha as Ht.
  unfold Pandas.add. cbn [List.length scale fillna0 map].
  rewrite Nat.max_l by lia.
  cbn [reindex combine map fst snd]. eexists. f_equal.
  rewrite reindex_all, reindex_nothing, <- Ht.
  clear Ht. induction tail as [|x tail IH]; [reflexivity|].
  cbn [List.length repeat combine map fst snd]. now rewrite add_nan, IH.
Qed.

(** X28 (analytics/segmentation.py): with three users or more, the
    statistical segmentation puts everybody into the same cluster.  On
    the frame [extract_user_features] builds, every engagement score but
    the first is NaN, both percentiles are NaN, and every user, whatever
    the features, lands in cluster 2: the result has one cluster,
    'Engagement Alto'. *)
Theorem statistical_segmentation_one_cluster (ufs : list UserFeatures) :
  3 <= List.length ufs ->
  let df := extract_user_features ufs in
  let after := fst (fst (_simple_statistical_segmentation df)) in
  let results := snd (_simple_statistical_segmentation df) in
  (exists first,
      num_col after "engagement_score"
      = Some (first :: repeat nan (List.length ufs - 1)))
  /\ num_col after "cluster" = Some (repeat 2%float (List.length ufs))
  /\ num_users results = List.length ufs
  /\ num_clusters results = 1
  /\ exists stats,
       cluster_analysis results = Statistical [("cluster_2"%string, stats)]
       /\ segment_name stats = "Engagement Alto"%string.
Proof.
  intros Hn df after results.
  destruct ufs as [|u [|u1 [|u2 rest]]]; cbn [List.length] in Hn; try lia.
  set (ufs := u :: u1 :: u2 :: rest) in *.
  assert (Hlen : len df = List.length ufs) by apply len_extract.
  destruct (engagement_score_extracted u (u1 :: u2 :: rest))
    as [first Hscore].
  fold ufs in Hscore. fold df in Hscore.
  set (scores := first :: repeat nan (List.length (u1 :: u2 :: rest))) in *.
  assert (Hre : reindex (len df) (engagement_score df) = scores).
  { rewrite Hscore, Hlen.
    replace (List.length ufs) with (List.length scores).
    - apply reindex_all.
    - subst scores ufs. cbn [List.length]. now rewrite repeat_length. }
  assert (Hnan : existsb PrimFloat.is_nan scores = true).
  { subst scores. cbn [List.length repeat existsb].
    change (PrimFloat.is_nan nan) with true. now rewrite orb_true_r. }
  assert (Hclusters : statistical_clusters (len df) scores
                      = repeat 2 (List.length ufs)).
  { rewrite Hlen. subst ufs. cbn [List.length statistical_clusters].
    unfold percentile. rewrite Hnan.
    rewrite (map_constant (assign_cluster nan nan) 2).
    - subst scores. cbn [List.length]. now rewrite repeat_length.
    - intro x. unfold assign_cluster. now rewrite leb_nan. }
  assert (Hout : _simple_statistical_segmentation df
                 = (set_col (set_col df "engagement_score" (NumCol scores))
                            "cluster"
                            (NumCol (map Py.float_of_nat
                                         (repeat 2 (List.length ufs)))),
                    false,
                    {| num_users := len df;
                       num_features := None;
                       num_clusters := List.length
                                         (unique (repeat 2 (List.length ufs)));
                       optimal_clusters := None;
                       pca_components := None;
                       cluster_analysis :=
                         Statistical
                           (map (stat_cluster
                                   (set_col
                                      (set_col df "engagement_score"
                                               (NumCol scores))
                                      "cluster"
                                      (NumCol (map Py.float_of_nat
                                                 (repeat 2 (List.length ufs)))))
                                   (repeat 2 (List.length ufs))
                                   (statistical_segments (len df)))
                                (unique (repeat 2 (List.length ufs))));
                       silhouette_score := (-1)%float;
                       model_type := "statistical_segmentation";
                       warning :=
                         Some ("Used statistical segmentation due to insufficient data ("
                               ++ Py.str_of_nat (len df) ++ " < "
                               ++ Py.str_of_nat min_users_for_ml ++ ")")%string |})).
  { unfold _simple_statistical_segmentation. now rewrite Hre, Hclusters. }
  subst after results. rewrite Hout. cbn [fst snd].
  split.
  { exists first. unfold num_col.
    rewrite lookup_set_col_other by discriminate.
    rewrite lookup_set_col. subst scores ufs. reflexivity. }
  split.
  { unfold num_col. rewrite lookup_set_col.
    now rewrite map_repeat. }
  cbn [num_users num_clusters cluster_analysis].
  split; [exact Hlen|].
  assert (Hu : unique (repeat 2 (List.length ufs)) = [2])
    by (subst ufs; apply unique_repeat).
  rewrite Hu. split; [reflexivity|].
  eexists. split; [reflexivity|].
  rewrite Hlen. subst ufs. reflexivity.
Qed.

End SmallPopulations.

Lemma statistical_segmentation_one_cluster_witness :
  let df := Segmentation.extract_user_features Samples.three_visitors in
  let after := fst (fst (Segmentation._simple_statistical_segmentation df)) in
  let results := snd (Segmentation._simple_statistical_segmentation df) in
  (exists first,
      Pandas.num_col after "engagement_score"
      = Some (first :: repeat nan (List.length Samples.three_visitors - 1)))
  /\ Pandas.num_col after "cluster"
     = Some (repeat 2%float (List.length Samples.three_visitors))
  /\ Segmentation.num_users results = List.length Samples.three_visitors
  /\ Segmentation.num_clusters results = 1
  /\ exists stats,
       Segmentation.cluster_analysis results
       = Segmentation.Statistical [("cluster_2", stats)]
       /\ Segmentation.segment_name stats = "Engagement Alto".
Proof.
  apply (statistical_segmentation_one_cluster Samples.three_visitors).
  cbn. lia.
Defined.

Section ClusterAnalysis.
Import Pandas Segmentation.
Local Open Scope list_scope.

(** The names [_determine_cluster_name] can give while [cluster_id] is
    not yet a key of [characteristics]. *)
Lemma cluster_name_without_id (ch : Characteristics) (cluster_data : DataFrame) :
  cluster_id ch = None ->
  In (_determine_cluster_name ch cluster_data)
     ["VIP Members"; "Regular Attendees"; "New Users"; "Browsers"; "At Risk";
      "Segment 0"; "Unknown Segment"]%string.
Proof.
  intro Hid. unfold _determine_cluster_name. rewrite Hid.
  destruct (_ && _); [cbn; tauto|].
  destruct (_ && _); [cbn; tauto|].
  destruct (_ <? 7)%float; [cbn; tauto|].
  destruct (num_col cluster_data "page_views"); [|cbn; tauto].
  destruct (num_col cluster_data "total_reservations"); [|cbn; tauto].
  destruct (_ <? _)%float; [cbn; tauto|].
  destruct (_ && _); [cbn; tauto|].
  change ("Segment " ++ Py.str_of_Z 0)%string with "Segment 0"%string.
  cbn. tauto.
Qed.

Lemma dict_set_In {V} (d : list (string * V)) (key : string) (value : V)
    (entry : string * V) :
  In entry (dict_set d key value) -> entry = (key, value) \/ In entry d.
Proof.
  induction d as [|[k v] d IH]; cbn [dict_set In].
  - intros [<-|[]]. now left.
  - destruct (String.eqb_spec k key) as [->|Hne]; cbn [In].
    + intros [<-|H]; [now left|right; now right].
    + intros [<-|H]; [right; now left|].
      destruct (IH H) as [->|H']; [now left|right; now right].
Qed.

Lemma unique_In (l : list nat) (c : nat) : In c (unique l) -> In c l.
Proof.
  induction l as [|x l IH]; cbn [unique In]; [tauto|].
  intros [->|H]; [now left|]. apply filter_In in H as [H _]. right. now apply IH.
Qed.

Lemma analyze_loop_entries (P : string * Characteristics -> Prop)
    (df : DataFrame) (clusters ids : list nat)
    (acc result : list (string * Characteristics)) :
  (forall c ch,
      In c ids -> characteristics_of df clusters c = Some ch ->
      P (_determine_cluster_name ch (select_rows (cluster_mask clusters c) df),
         with_cluster_id ch c)) ->
  Forall P acc ->
  analyze_loop df clusters ids acc = Some result ->
  Forall P result.
Proof.
  revert acc. induction ids as [|c ids IH]; intros acc Hstep Hacc;
    cbn [analyze_loop].
  - intro H. now injection H as <-.
  - destruct (characteristics_of df clusters c) as [ch|] eqn:Hch;
      [|discriminate].
    apply IH.
    + intros c' ch' Hc'. apply Hstep. now right.
    + apply Forall_forall. intros entry Hin.
      apply dict_set_In in Hin as [->|Hin].
      * apply Hstep; [now left|exact Hch].
      * rewrite Forall_forall in Hacc. now apply Hacc.
Qed.

(** X29 (analytics/segmentation.py): the names of the clusters.  Every
    key of the dictionary [_analyze_clusters] returns is one of 'VIP
    Members', 'Regular Attendees', 'New Users', 'Browsers', 'At Risk',
    'Segment 0' and 'Unknown Segment': the name is chosen before
    [cluster_id] is stored, so the default name never carries another
    number than 0, and clusters that get the same name share one entry.
    Each entry records the number of one of the clusters of the frame. *)
Theorem analyze_clusters_names (df : DataFrame) (clusters : list nat) :
  Forall (fun entry =>
            In (fst entry)
               ["VIP Members"; "Regular Attendees"; "New Users"; "Browsers";
                "At Risk"; "Segment 0"; "Unknown Segment"]%string
            /\ exists c, In c clusters
                         /\ cluster_id (snd entry) = Some (Z.of_nat c))
         (_analyze_clusters df clusters).
Proof.
  unfold _analyze_clusters.
  destruct (analyze_loop df clusters (unique clusters) []) as [result|] eqn:H;
    [|constructor].
  eapply analyze_loop_entries; [| |exact H]; [|constructor].
  intros c ch Hc Hch. cbn [fst snd]. split.
  - apply cluster_name_without_id.
    now apply (characteristics_of_no_id df clusters c).
  - exists c. split; [now apply unique_In|reflexivity].
Qed.

End ClusterAnalysis.

Section TrainingParameters.
Import Pandas Segmentation.
Local Open Scope list_scope.
Variable scaler_fit_transform : Matrix -> Matrix.
Variable pca_fit_transform : nat -> Matrix -> Matrix.
Variable kmeans_labels : nat -> Matrix -> list nat.
Variable sk_silhouette_score : Matrix -> list nat -> option float.

(** X30 (analytics/segmentation.py): the parameters of the clustering
    path.  With five users or more, training on an extracted frame
    succeeds and marks the model as trained; it always uses the 26
    features and 3 PCA components (the bounds by the number of features
    and of users, and the floor of 1, never apply), and asks for [k]
    clusters where [k] is the integer square root of the number of
    users, kept between 2 and 5. *)
Theorem training_parameters (ufs : list UserFeatures) :
  5 <= List.length ufs ->
  exists df' results k,
    train_segmentation_model scaler_fit_transform pca_fit_transform
      kmeans_labels sk_silhouette_score (extract_user_features ufs)
    = Py.Return (df', true, results)
    /\ model_type results = "ml_clustering"%string
    /\ num_features results = Some 26
    /\ pca_components results = Some 3
    /\ optimal_clusters results = Some k
    /\ 2 <= k <= 5
    /\ (List.length ufs < 9 -> k = 2)
    /\ (9 <= List.length ufs < 25 ->
        k * k <= List.length ufs < (k + 1) * (k + 1))
    /\ (25 <= List.length ufs -> k = 5).
Proof.
  intro Hn.
  destruct (train_large scaler_fit_transform pca_fit_transform kmeans_labels
              sk_silhouette_score ufs Hn)
    as (df' & results & Htrain & _ & Hmodel & Hfeatures & Hpca & Hk).
  exists df', results, (Nat.max 2 (Nat.min 5 (Nat.sqrt (List.length ufs)))).
  split; [exact Htrain|]. split; [exact Hmodel|]. split; [exact Hfeatures|].
  split.
  { rewrite Hpca. f_equal. lia. }
  split; [exact Hk|].
  pose proof (Nat.sqrt_spec (List.length ufs) ltac:(lia)) as Hs.
  cbn zeta in Hs.
  repeat split; try lia; intros; try nia.
Qed.

End TrainingParameters.

Lemma training_parameters_witness :
  exists df' results k,
    Segmentation.train_segmentation_model Samples.identity_scaler
      Samples.identity_pca Samples.one_cluster Samples.no_silhouette
      (Segmentation.extract_user_features Samples.five_visitors)
    = Py.Return (df', true, results)
    /\ Segmentation.model_type results = "ml_clustering"
    /\ Segmentation.num_features results = Some 26
    /\ Segmentation.pca_components results = Some 3
    /\ Segmentation.optimal_clusters results = Some k
    /\ 2 <= k <= 5
    /\ (List.length Samples.five_visitors < 9 -> k = 2)
    /\ (9 <= List.length Samples.five_visitors < 25 ->
        k * k <= List.length Samples.five_visitors < (k + 1) * (k + 1))
    /\ (25 <= List.length Samples.five_visitors -> k = 5).
Proof.
  apply (training_parameters Samples.identity_scaler Samples.identity_pca
           Samples.one_cluster Samples.no_silhouette Samples.five_visitors).
  cbn. lia.
Defined.

Lemma status_transitions_witness :
  let held := Samples.booking "r1" "AB12CD34" "u1" "e1" "confirmed" in
  let db := Samples.store [held] in
  let op := Operations.DeclineInvitation Samples.noon Samples.forged None in
  let declined :=
    Invitations.set_declined "Declined via email"
      (Datetime.isoformat Samples.noon) held in
  In declined (Mongo.reservations
                 (Operations.apply Samples.qr_image Samples.no_regex
                    Samples.no_operators op db))
  /\ (Mongo.res_status declined = Mongo.res_status held
      \/ (Mongo.res_status held = "confirmed"
          /\ Mongo.res_status declined = "checked_in"
          /\ exists now request admin,
               op = Operations.CheckInUser now request admin)
      \/ (Mongo.res_status held <> "cancelled"
          /\ Mongo.res_status declined = "cancelled"
          /\ exists now id user,
               op = Operations.CancelReservation now id user)
      \/ (Mongo.res_status declined = "declined"
          /\ exists now payload reason,
               op = Operations.DeclineInvitation now payload reason
               /\ Invitations.is_text (Invitations.user_email payload)
                  = false)).
Proof.
  split; [now left|].
  apply (status_transitions Samples.qr_image Samples.no_regex
           Samples.no_operators
           (Operations.DeclineInvitation Samples.noon Samples.forged None)
           (Samples.store [Samples.booking "r1" "AB12CD34" "u1" "e1" "confirmed"])).
  - exact I.
  - unfold Operations.unique_ids. cbn. repeat constructor. intros [].
  - unfold Operations.created_here, Operations.lifecycle_status. cbn.
    repeat constructor.
  - now left.
  - now left.
  - reflexivity.
Defined.

Lemma time_weight_naive_monotone_witness :
  (InterestDetection.calculate_time_weight Samples.noon "2023-06-14T12:00:00"
   <=? InterestDetection.calculate_time_weight Samples.noon
         "2024-06-14T12:00:00")%float
  = true.
Proof.
  apply (time_weight_naive_monotone Samples.noon _ _ "2023-06-14T12:00:00"
           "2024-06-14T12:00:00" eq_refl eq_refl eq_refl eq_refl eq_refl).
  vm_compute. discriminate.
Defined.
